(** * rhel2centos: the checkpointed migration driver of [migrate_7.py]

    A shallow embedding of the script and the proofs of its orchestration
    properties: persisted stage flags, skip-on-rerun, fail-fast exit,
    environment-driven branches; then the order of the stages, the checks
    in front of every destructive call, the edge cases of the probes and
    the package dictionaries of the Secure Boot stage.

    Modelling conventions.
    - The script talks to the operating system through [subprocess],
      [os], [platform] and [shutil].  Those calls are the fields of the
      class [HostOps]; the host itself is an abstract type, so every
      theorem holds whatever the external tools do.
    - Every call into the host leaves an [event] carrying the answer the
      host gave; a run of a function yields its result, the final world
      and the events in the order they happened.
    - The status file is kept apart from the rest of the host: only
      [get_stage_status] and [set_successful_stage_status] touch it during
      a run.
    - [exit(n)] is the result [Exit n]; an exception nobody catches is
      [Raise e] (the interpreter then leaves with code 1).
    - Every logging call goes through [get_logger], which opens the log
      file under [/var/log] and raises [IOError] when it cannot.  Whether
      the file can be opened is an answer of the host; the super-user is
      taken to be able to open it.  A logging call that goes through
      leaves an event and does not raise ([logging] swallows its own
      formatting errors); one that fails leaves none.  The script keeps
      the logger in a global after the first call; the model asks the
      host at every call, so it has every run of the script and more.
    - The script is Python 2 ([platform.dist], [iteritems]); strings are
      byte strings. *)

From Stdlib Require Import ZArith String Ascii List Lia.
From stdpp Require Import gmap strings list pretty.

Open Scope string_scope.
Open Scope Z_scope.
Open Scope list_scope.

(** String concatenation. It is Stdlib's [String.append], nested to the
    right, so a command line computes from its fixed prefix even when a path
    or a package name in it is unknown. *)
Notation "s1 +^ s2" := (String.append s1 s2)
  (at level 60, right associativity) : string_scope.

(** ** Python strings *)

Module Py.

(** The characters a Rocq string literal cannot hold directly. *)
Definition dq : string := String "034"%char EmptyString.
Definition tab : string := String "009"%char EmptyString.
Definition nl : string := String "010"%char EmptyString.

(** [s[i]]: [None] stands for [IndexError]. *)
Definition index (s : string) (i : nat) : option ascii := String.get i s.

(** [int(c)] on a string of one character: [None] stands for
    [ValueError]. *)
Definition int_of_char (c : ascii) : option Z :=
  let n := nat_of_ascii c in
  if ((48 <=? n) && (n <=? 57))%nat then Some (Z.of_nat (n - 48)) else None.

(** [string.whitespace] of Python 2. *)
Definition is_space (c : ascii) : bool :=
  let n := nat_of_ascii c in
  ((n =? 32) || ((9 <=? n) && (n <=? 13)))%nat.

Fixpoint lstrip (s : string) : string :=
  match s with
  | String c s' => if is_space c then lstrip s' else s
  | EmptyString => EmptyString
  end.

(** Drops the trailing white space; works from the right end. *)
Fixpoint rstrip (s : string) : string :=
  match s with
  | EmptyString => EmptyString
  | String c s' =>
      match rstrip s' with
      | EmptyString => if is_space c then EmptyString else String c EmptyString
      | t => String c t
      end
  end.

Definition strip (s : string) : string := rstrip (lstrip s).

(** [s.split(sep)] for a separator of one character: the pieces between
    the separators, at least one piece. *)
Fixpoint split_on (sep : ascii) (s : string) : list string :=
  match s with
  | EmptyString => [EmptyString]
  | String c s' =>
      if Ascii.eqb c sep then EmptyString :: split_on sep s'
      else match split_on sep s' with
           | p :: ps => String c p :: ps
           | [] => [String c EmptyString]
           end
  end.

(** [s.split()]: the maximal runs of characters that are not white
    space. *)
Fixpoint split_ws_aux (cur : string) (s : string) : list string :=
  match s with
  | EmptyString => match cur with EmptyString => [] | _ => [cur] end
  | String c s' =>
      if is_space c
      then match cur with
           | EmptyString => split_ws_aux EmptyString s'
           | _ => cur :: split_ws_aux EmptyString s'
           end
      else split_ws_aux (cur +^ String c EmptyString) s'
  end.

Definition split_ws (s : string) : list string := split_ws_aux EmptyString s.

(** [s.startswith(p)], by recursion on the prefix. *)
Fixpoint has_prefix (p s : string) {struct p} : bool :=
  match p with
  | EmptyString => true
  | String a p' =>
      match s with
      | EmptyString => false
      | String b s' => Ascii.eqb a b && has_prefix p' s'
      end
  end.

Definition startswith (s p : string) : bool := has_prefix p s.

Definition lower_char (c : ascii) : ascii :=
  let n := nat_of_ascii c in
  if ((65 <=? n) && (n <=? 90))%nat then ascii_of_nat (n + 32) else c.

Fixpoint lower (s : string) : string :=
  match s with
  | EmptyString => EmptyString
  | String c s' => String (lower_char c) (lower s')
  end.

(** [sep.join(l)]. *)
Fixpoint join (sep : string) (l : list string) : string :=
  match l with
  | [] => EmptyString
  | [x] => x
  | x :: l' => x +^ sep +^ join sep l'
  end.

(** What [%s] prints for a list of strings. *)
Definition repr_list (l : list string) : string :=
  "[" +^ join ", " (map (fun x => "'" +^ x +^ "'") l) +^ "]".

End Py.

(** ** Worlds, events, results *)

Definition STATUS_JSON_FILE : string := "/var/run/rhel2centos.status.json".
Definition SUPPORTED_MAJOR_VERSION_OS : Z := 7.
Definition SUPPORTED_NAME_OS : string := "redhat".

(** What sits at [STATUS_JSON_FILE]: nothing, a flat JSON object from
    stage names to booleans (the only thing the script ever writes), or
    bytes [json.load] rejects. *)
Inductive file_state :=
| NoFile
| JsonObject (statuses : gmap string bool)
| NotJson.

(** The states of the status document proper: absent, or a mapping. *)
Definition of_document (d : option (gmap string bool)) : file_state :=
  match d with
  | None => NoFile
  | Some statuses => JsonObject statuses
  end.

Inductive level := INFO | WARNING | ERROR.

Inductive event :=
| EvShell (cmd : string) (rc : Z)
| EvLog (lvl : level) (msg : string) (args : list string)
| EvGeteuid (uid : Z)
| EvDist (os_name os_version : string)
| EvExists (path : string) (b : bool)
| EvIsdir (path : string) (b : bool)
| EvIslink (path : string) (b : bool)
| EvRmtree (path : string) (ok : bool).

Inductive exn := ValueError | IndexError | OSError | IOError.

Inductive Res (A : Type) :=
| Ret (a : A)
| Exit (code : Z)
| Raise (e : exn).
Arguments Ret {A} a.
Arguments Exit {A} code.
Arguments Raise {A} e.

(** The exit status the parent process sees. *)
Definition exit_code {A} (r : Res A) : Z :=
  match r with
  | Ret _ => 0
  | Exit c => c
  | Raise _ => 1
  end.

(** The calls the script makes into the operating system. *)
Class HostOps (Host : Type) := {
  (** [subprocess] with [shell=True]: return code, captured output. *)
  run_shell : string -> Host -> Z * string * Host;
  os_geteuid : Host -> Z;
  platform_dist : Host -> string * string * string;
  os_path_exists : string -> Host -> bool;
  os_path_isdir : string -> Host -> bool;
  os_path_islink : string -> Host -> bool;
  (** [None]: [shutil.rmtree] raised. *)
  shutil_rmtree : string -> Host -> option Host;
  (** [logging.FileHandler('/var/log/rhel2centos.log')] in [get_logger]:
      [false] when the file cannot be opened and the call raises
      [IOError]. *)
  logging_FileHandler : Host -> bool;
  (** The super-user can open the log file. *)
  root_opens_log : forall h, os_geteuid h = 0 -> logging_FileHandler h = true;
}.

Section Script.

Context {Host : Type} `{HostOps Host}.

Record World := mkWorld { status_file : file_state; host : Host }.

Definition M (A : Type) : Type := World -> Res A * World * list event.

Definition ret {A} (a : A) : M A := fun w => (Ret a, w, []).

Definition bind {A B} (m : M A) (k : A -> M B) : M B := fun w =>
  match m w with
  | (Ret a, w1, t1) =>
      match k a w1 with (r, w2, t2) => (r, w2, t1 ++ t2) end
  | (Exit c, w1, t1) => (Exit c, w1, t1)
  | (Raise e, w1, t1) => (Raise e, w1, t1)
  end.

Definition exit {A} (code : Z) : M A := fun w => (Exit code, w, []).
Definition raise {A} (e : exn) : M A := fun w => (Raise e, w, []).
Definition emit (e : event) : M unit := fun w => (Ret tt, w, [e]).

Definition lift_option {A} (e : exn) (o : option A) : M A :=
  match o with Some a => ret a | None => raise e end.

Notation "x <- m ;; k" := (bind m (fun x => k))
  (at level 100, m at next level, right associativity).
Notation "m ;; k" := (bind m (fun _ => k))
  (at level 100, right associativity).

(** [get_logger()]. The first call creates the logger:
    [logging.FileHandler] opens the log file and raises [IOError] when it
    cannot; later calls return the logger kept in the global. Nothing in
    the script catches [IOError], so a run ends at the first call that
    raises. The model asks the host at every call: a run of the script is
    the run of the model on a host that keeps the answer it gave at the
    first call. *)
Definition get_logger : M unit := fun w =>
  if logging_FileHandler (host w) then (Ret tt, w, [])
  else (Raise IOError, w, []).

(** [get_logger().info(msg, *args)], [.warning], [.error]. *)
Definition log (lvl : level) (msg : string) (args : list string) : M unit :=
  get_logger;;
  emit (EvLog lvl msg args).

(** [subprocess.check_output(cmd, shell=True)]: [inl out] on return code
    0, [inr out] for [CalledProcessError] with its [output]. *)
Definition check_output (cmd : string) : M (string + string) := fun w =>
  match run_shell cmd (host w) with
  | (rc, out, h) =>
      (Ret (if rc =? 0 then inl out else inr out),
       mkWorld (status_file w) h, [EvShell cmd rc])
  end.

(** [subprocess.check_call(cmd, shell=True)]: [true] on return code 0,
    [false] for [CalledProcessError]. *)
Definition check_call (cmd : string) : M bool :=
  r <- check_output cmd;;
  ret (match r with inl _ => true | inr _ => false end).

Definition geteuid : M Z := fun w =>
  (Ret (os_geteuid (host w)), w, [EvGeteuid (os_geteuid (host w))]).

Definition dist : M (string * string * string) := fun w =>
  match platform_dist (host w) with
  | (os_name, os_version, id) =>
      (Ret (os_name, os_version, id), w, [EvDist os_name os_version])
  end.

Definition path_exists (p : string) : M bool := fun w =>
  (Ret (os_path_exists p (host w)), w, [EvExists p (os_path_exists p (host w))]).

Definition path_isdir (p : string) : M bool := fun w =>
  (Ret (os_path_isdir p (host w)), w, [EvIsdir p (os_path_isdir p (host w))]).

Definition path_islink (p : string) : M bool := fun w =>
  (Ret (os_path_islink p (host w)), w, [EvIslink p (os_path_islink p (host w))]).

Definition rmtree (p : string) : M unit := fun w =>
  match shutil_rmtree p (host w) with
  | Some h => (Ret tt, mkWorld (status_file w) h, [EvRmtree p true])
  | None => (Raise OSError, w, [EvRmtree p false])
  end.

(** [for x in l: body(x)]; a [continue] is a [ret tt] of the body. *)
Fixpoint for_each {A} (l : list A) (body : A -> M unit) : M unit :=
  match l with
  | [] => ret tt
  | x :: l' => body x;; for_each l' body
  end.

(** *** The status store *)

(** [os.path.exists(STATUS_JSON_FILE)]. *)
Definition status_exists : M bool := fun w =>
  (Ret (match status_file w with NoFile => false | _ => true end), w, []).

(** [json.load] of the open status file. *)
Definition json_load : M (gmap string bool) := fun w =>
  match status_file w with
  | JsonObject statuses => (Ret statuses, w, [])
  | _ => (Raise ValueError, w, [])
  end.

(** [json.dump(statuses, status_file)] on the file opened with ['w']. *)
Definition json_dump (statuses : gmap string bool) : M unit := fun w =>
  (Ret tt, mkWorld (JsonObject statuses) (host w), []).

Definition get_stage_status (stage_name : string) : M bool :=
  present <- status_exists;;
  if negb present then ret false
  else
    statuses <- json_load;;
    ret (default false (statuses !! stage_name)).

Definition set_successful_stage_status (stage_name : string) : M unit :=
  present <- status_exists;;
  statuses <- (if present then json_load else ret ∅);;
  json_dump (<[stage_name := true]> statuses).

(** *** Environment probes *)

Definition get_os_version_and_name : M (Z * Z * string) :=
  d <- dist;;
  let '(os_name, os_version, _) := d in
  if decide (os_name = "") then ret (0, 0, "")
  else
    c0 <- lift_option IndexError (Py.index os_version 0);;
    major <- lift_option ValueError (Py.int_of_char c0);;
    c2 <- lift_option IndexError (Py.index os_version 2);;
    minor <- lift_option ValueError (Py.int_of_char c2);;
    ret (major, minor, os_name).

Definition is_efi_system : M bool := path_exists "/sys/firmware/efi".

Definition is_katello_satelite : M bool :=
  first <- check_call "rpm -q python-qpid-proton &> /dev/null";;
  if negb first then ret false
  else
    second <- check_call "rpm -q python2-qpid-proton &> /dev/null";;
    if negb second then ret false else ret true.

(** *** Entry checks *)

Definition is_conversion_completed : M unit :=
  completed <- get_stage_status "completed";;
  if completed then
    log INFO "The system is already migrated to CentOS 7" [];;
    exit 0
  else ret tt.

Definition is_run_under_root : M unit :=
  euid <- geteuid;;
  if negb (euid =? 0) then
    log INFO "This script should be run under any sudo user" [];;
    exit 0
  else ret tt.

(** *** Log messages shared by the stages *)

Definition msg_absent : string :=
  "Package " +^ Py.dq +^ "%s" +^ Py.dq +^ " is absent in system".
Definition msg_removed : string :=
  "Package " +^ Py.dq +^ "%s" +^ Py.dq +^ " is removed from system".
Definition msg_erase_failed : string :=
  "Some error is occurred while erasing rpm package " +^ Py.dq +^ "%s"
  +^ Py.dq +^ "." +^ Py.nl +^ "Please check the following output:"
  +^ Py.nl +^ "%s".
Definition msg_check_output : string :=
  "Please check the following output:" +^ Py.nl +^ "%s".

(** *** Stages *)

Definition remove_katello_satellite_packages : M unit :=
  done <- get_stage_status "remove_katello_satellite_packages";;
  if done then ret tt
  else
    let removed_pkgs := ["python-qpid-proton"; "katello-agent"] in
    log INFO "Removing katello-satellite packages: %s"
        [Py.join ", " removed_pkgs];;
    for_each removed_pkgs (fun removed_pkg =>
      installed <- check_call ("rpm -q " +^ removed_pkg +^ " &> /dev/null");;
      if negb installed then log WARNING msg_absent [removed_pkg]
      else
        erased <- check_output ("rpm -e --nodeps " +^ removed_pkg +^ " 2>&1");;
        match erased with
        | inl _ => log INFO msg_removed [removed_pkg]
        | inr output =>
            log ERROR msg_erase_failed [removed_pkg; output];;
            exit 1
        end);;
    set_successful_stage_status "remove_katello_satellite_packages".

Definition remove_redhat_packages : M unit :=
  done <- get_stage_status "remove_redhat_packages";;
  if done then ret tt
  else
    let removed_pkgs :=
      ["redhat-release-eula"; "redhat-release-server"; "redhat-logos"] in
    log INFO ("Remove Red Hat specific packages " +^ Py.dq +^ "%s" +^ Py.dq)
        [Py.repr_list removed_pkgs];;
    for_each removed_pkgs (fun removed_pkg =>
      installed <- check_call ("rpm -q " +^ removed_pkg +^ " &> /dev/null");;
      if negb installed then log WARNING msg_absent [removed_pkg]
      else
        erased <- check_output ("rpm -e --nodeps " +^ removed_pkg +^ " 2>&1");;
        match erased with
        | inl _ => log INFO msg_removed [removed_pkg]
        | inr output =>
            log ERROR msg_erase_failed [removed_pkg; output];;
            exit 1
        end);;
    set_successful_stage_status "remove_redhat_packages".

Definition remove_not_needed_dirs : M unit :=
  done <- get_stage_status "remove_not_needed_dirs";;
  if done then ret tt
  else
    let removed_dirs :=
      ["/usr/share/redhat-release"; "/usr/share/doc/redhat-release"] in
    log INFO ("Remove not needed Red Hat directories " +^ Py.dq +^ "%s" +^ Py.dq)
        [Py.repr_list removed_dirs];;
    for_each removed_dirs (fun removed_dir =>
      is_dir <- path_isdir removed_dir;;
      is_link <- (if is_dir then path_islink removed_dir else ret false);;
      if is_dir && negb is_link then rmtree removed_dir
      else
        log INFO ("Directory " +^ Py.dq +^ "%s" +^ Py.dq +^ " is absent in system")
            [removed_dir]);;
    set_successful_stage_status "remove_not_needed_dirs".

(** The dictionary literal of [install_centos_packages]. CPython 2 walks
    a dictionary in hash order; the embedding walks it in the order it is
    written, and no theorem below depends on that order. *)
Definition installed_pkgs : list (string * string) :=
  [("centos-release",
    "http://mirror.centos.org/centos/7/os/x86_64/Packages"
    +^ "/centos-release-7-9.2009.0.el7.centos.x86_64.rpm");
   ("centos-logos",
    "http://mirror.centos.org/centos/7/os/x86_64/Packages"
    +^ "/centos-logos-70.0.6-3.el7.centos.noarch.rpm")].

Definition install_centos_packages : M unit :=
  done <- get_stage_status "install_centos_packages";;
  if done then ret tt
  else
    for_each installed_pkgs (fun item =>
      let '(installed_pkg_name, installed_pkg_url) := item in
      log INFO ("Install CentOS package " +^ Py.dq +^ "%s" +^ Py.dq)
          [installed_pkg_name];;
      r <- check_output ("yum localinstall " +^ installed_pkg_url
                         +^ " -y &> /dev/null");;
      match r with
      | inl _ =>
          log INFO ("CentOS package " +^ Py.dq +^ "%s" +^ Py.dq +^ " is installed")
              [installed_pkg_name]
      | inr output =>
          log ERROR ("Some error is occurred while installing CentOS package "
                     +^ Py.dq +^ "%s" +^ Py.dq +^ "." +^ Py.nl)
              [msg_check_output; installed_pkg_name; output];;
          exit 1
      end);;
    set_successful_stage_status "install_centos_packages".

Definition update_the_system : M unit :=
  done <- get_stage_status "update_the_system";;
  if done then ret tt
  else
    log INFO "Run updating of system" [];;
    updated <- check_call "yum update -y";;
    (if negb updated then
       log ERROR "Some error is occurred while updating system." [];;
       exit 1
     else ret tt);;
    log INFO "Updating of system is completed successful" [];;
    set_successful_stage_status "update_the_system".

Definition synchronization_of_distribution : M unit :=
  done <- get_stage_status "synchronization_of_distribution";;
  if done then ret tt
  else
    log INFO "Run synchronization of distribution" [];;
    synced <- check_call "yum distro-sync -y";;
    (if negb synced then
       log ERROR "Some error is occurred while synchronization of distribution." [];;
       exit 1
     else ret tt);;
    log INFO "Synchronization of distribution is completed successful" [];;
    set_successful_stage_status "synchronization_of_distribution".

Definition recreate_grub_config (grub_config_path : string) : M unit :=
  done <- get_stage_status "recreate_grub_config";;
  if done then ret tt
  else
    r <- check_output ("grub2-mkconfig -o " +^ grub_config_path +^ " 2>&1");;
    match r with
    | inl _ => ret tt
    | inr output =>
        log ERROR ("Some error is occurred while recreating grub config by path "
                   +^ Py.dq +^ "%s" +^ Py.dq +^ "." +^ Py.nl)
            [msg_check_output; grub_config_path; output];;
        exit 1
    end;;
    log INFO ("The grub config is recreated by path " +^ Py.dq +^ "%s"
              +^ Py.dq +^ " successful")
        [grub_config_path];;
    set_successful_stage_status "recreate_grub_config".

(** *** Secure Boot packages *)

(** A Python dictionary from package to vendor, as an association list
    with one entry per key; [d[k] = v] overwrites in place. The list is
    walked in insertion order where CPython 2 walks in hash order; no
    theorem below depends on the order. *)
Fixpoint dict_set (k v : string) (d : list (string * string))
  : list (string * string) :=
  match d with
  | [] => [(k, v)]
  | (k', v') :: d' =>
      if String.eqb k' k then (k, v) :: d' else (k', v') :: dict_set k v d'
  end.

Definition dict_update (d other : list (string * string))
  : list (string * string) :=
  fold_left (fun acc kv => dict_set (fst kv) (snd kv) acc) other d.

(** [for x in l] with a variable the body updates. *)
Fixpoint for_fold {A S} (l : list A) (s : S) (body : A -> S -> M S) : M S :=
  match l with
  | [] => ret s
  | x :: l' => s' <- body x s;; for_fold l' s' body
  end.

Definition get_pkgs_related_to_secure_boot : M (list (string * string)) :=
  let pkg_prefixes := ["shim"; "fwupd"; "grub2"; "kernel-"] in
  r <- check_output
         ("rpm -qa --queryformat " +^ Py.dq +^ "%{name}" +^ Py.tab
          +^ "%{name}-%{version}-%{release}.%{arch}" +^ Py.tab
          +^ "%{vendor}" +^ Py.nl +^ Py.dq +^ " 2>&1");;
  match r with
  | inl output =>
      for_fold (Py.split_on "010"%char (Py.strip output)) []
        (fun line result =>
           match Py.split_on "009"%char (Py.strip line) with
           | [pkg_name; pkg; vendor] =>
               if existsb (Py.startswith pkg_name) pkg_prefixes then
                 log INFO ("The package " +^ Py.dq +^ "%s" +^ Py.dq
                           +^ " relates to Secure Boot and released by "
                           +^ Py.dq +^ "%s" +^ Py.dq)
                     [pkg; vendor];;
                 ret (dict_set pkg (Py.lower vendor) result)
               else ret result
           | _ => raise ValueError
           end)
  | inr output =>
      log ERROR ("Some error is occurred while getting list "
                 +^ "of secure boot related packages." +^ Py.nl
                 +^ msg_check_output)
          [output];;
      exit 1
  end.

Definition msg_default_kernel_failed : string :=
  "Some error is occurred while getting "
  +^ "a kernel package name for default boot record." +^ Py.nl
  +^ msg_check_output.

Definition get_kernel_pkg_name_for_default_boot_record
  : M (list (string * string)) :=
  r1 <- check_output "grubby --default-kernel 2>&1";;
  match r1 with
  | inr output => log ERROR msg_default_kernel_failed [output];; exit 1
  | inl out1 =>
      let kernel_path := Py.strip out1 in
      r2 <- check_output
              ("rpm -qf " +^ Py.dq +^ kernel_path +^ Py.dq
               +^ " --queryformat " +^ Py.dq
               +^ "%{name}-%{version}-%{release}.%{arch}" +^ Py.tab
               +^ "%{vendor}" +^ Py.nl +^ Py.dq);;
      match r2 with
      | inr output => log ERROR msg_default_kernel_failed [output];; exit 1
      | inl out2 =>
          match Py.split_ws (Py.strip out2) with
          | [kernel_pkg_name; vendor] =>
              log INFO ("Kernel package name " +^ Py.dq +^ "%s" +^ Py.dq
                        +^ " is set for default boot record and released by "
                        +^ Py.dq +^ "%s" +^ Py.dq)
                  [kernel_pkg_name; vendor];;
              ret [(kernel_pkg_name, Py.lower vendor)]
          | _ => raise ValueError
          end
      end
  end.

Definition reinstall_secure_boot_related_packages : M unit :=
  done <- get_stage_status "reinstall_secure_boot_related_packages";;
  if done then ret tt
  else
    pkgs <- get_pkgs_related_to_secure_boot;;
    kernel <- get_kernel_pkg_name_for_default_boot_record;;
    for_each (dict_update pkgs kernel) (fun item =>
      let '(pkg, vendor) := item in
      if String.eqb vendor "centos" then ret tt
      else
        log INFO ("Package " +^ Py.dq +^ "%s" +^ Py.dq
                  +^ " is released not by CentOS and should reinstalled")
            [pkg];;
        r <- check_output ("yum reinstall -y " +^ Py.dq +^ pkg +^ Py.dq);;
        match r with
        | inl _ => ret tt
        | inr output =>
            log ERROR ("Some error is occurred while reinstalling "
                       +^ "a secure boot related package." +^ Py.nl
                       +^ msg_check_output)
                [output];;
            exit 1
        end);;
    set_successful_stage_status "reinstall_secure_boot_related_packages".

Definition add_boot_record_by_efibootmgr : M unit :=
  done <- get_stage_status "add_boot_record_by_efibootmgr";;
  if done then ret tt
  else
    let bootloader_path := "/EFI/centos/shimx64.efi" in
    r <- check_output ("efibootmgr -c -L " +^ Py.dq +^ "CentOS Linux" +^ Py.dq
                       +^ " -l " +^ Py.dq +^ bootloader_path +^ Py.dq);;
    match r with
    | inl _ =>
        log INFO ("The new EFI boot record is added for bootloader "
                  +^ Py.dq +^ "%s" +^ Py.dq)
            [bootloader_path]
    | inr output =>
        log ERROR ("Some error is occurred while adding a new boot EFI record."
                   +^ Py.nl +^ msg_check_output)
            [output];;
        exit 1
    end;;
    set_successful_stage_status "add_boot_record_by_efibootmgr".

Definition check_and_set_default_grub_record : M unit :=
  done <- get_stage_status "check_and_set_default_grub_record";;
  if done then ret tt
  else
    has_default <- check_call "grubby --info=DEFAULT &> /dev/null";;
    if has_default then
      set_successful_stage_status "check_and_set_default_grub_record"
    else
      r <- check_output "grubby --set-default=`grubby --default-kernel`";;
      match r with
      | inl _ =>
          log INFO "The default GRUB boot record is set for CentOS kernel" []
      | inr output =>
          log ERROR ("Some error is occurred while set a default GRUB record."
                     +^ Py.nl +^ msg_check_output)
              [output];;
          exit 1
      end;;
      set_successful_stage_status "check_and_set_default_grub_record".

Definition check_supported_os : M unit :=
  done <- get_stage_status "check_supported_os";;
  if done then ret tt
  else
    identity <- get_os_version_and_name;;
    let '(major_version, minor_version, os_name) := identity in
    (if negb (major_version =? SUPPORTED_MAJOR_VERSION_OS) then
       log INFO ("Current major version " +^ Py.dq +^ "%s" +^ Py.dq
                 +^ " is not supported by this script." +^ Py.nl
                 +^ "One is applicable only for major version "
                 +^ Py.dq +^ "%" +^ Py.dq)
           [pretty major_version; pretty SUPPORTED_MAJOR_VERSION_OS];;
       exit 0
     else ret tt);;
    (if negb (String.eqb os_name SUPPORTED_NAME_OS) then
       log INFO ("Current OS " +^ Py.dq +^ "%s" +^ Py.dq
                 +^ " is not supported by this script." +^ Py.nl
                 +^ "One is applicable only for " +^ Py.dq +^ "%s" +^ Py.dq)
           [os_name; SUPPORTED_NAME_OS];;
       exit 0
     else ret tt);;
    set_successful_stage_status "check_supported_os".

(** *** The orchestrator *)

Definition main : M unit :=
  is_conversion_completed;;
  is_run_under_root;;
  check_supported_os;;
  remove_redhat_packages;;
  remove_not_needed_dirs;;
  katello <- is_katello_satelite;;
  (if katello then remove_katello_satellite_packages else ret tt);;
  install_centos_packages;;
  update_the_system;;
  synchronization_of_distribution;;
  efi <- is_efi_system;;
  (if efi then
     recreate_grub_config "/boot/efi/EFI/centos/grub.cfg";;
     reinstall_secure_boot_related_packages;;
     add_boot_record_by_efibootmgr
   else
     recreate_grub_config "/boot/grub2/grub.cfg");;
  check_and_set_default_grub_record;;
  set_successful_stage_status "completed";;
  log INFO "The system is migrated to CentOS 7" [].

(** *** Named parts of [main]

    [main] above is the source; the parts below name its last steps so
    that statements can speak of them. [main_parts] in the proofs shows
    that [main] is these parts put together. *)

Definition finish : M unit :=
  check_and_set_default_grub_record;;
  set_successful_stage_status "completed";;
  log INFO "The system is migrated to CentOS 7" [].

Definition boot_branch (efi : bool) : M unit :=
  if efi then
    recreate_grub_config "/boot/efi/EFI/centos/grub.cfg";;
    reinstall_secure_boot_related_packages;;
    add_boot_record_by_efibootmgr
  else
    recreate_grub_config "/boot/grub2/grub.cfg".

Definition install_onwards : M unit :=
  install_centos_packages;;
  update_the_system;;
  synchronization_of_distribution;;
  efi <- is_efi_system;;
  boot_branch efi;;
  finish.

End Script.

(** ** Stages, and which events belong to which stage *)

Inductive stage :=
| CheckOS
| RemoveRedhat
| RemoveDirs
| RemoveAgent
| InstallCentos
| UpdateSystem
| SyncDistro
| RecreateGrub
| ReinstallSecureBoot
| AddBootRecord
| DefaultGrubRecord.

(** The key each stage function guards on and sets. *)
Definition stage_key (s : stage) : string :=
  match s with
  | CheckOS => "check_supported_os"
  | RemoveRedhat => "remove_redhat_packages"
  | RemoveDirs => "remove_not_needed_dirs"
  | RemoveAgent => "remove_katello_satellite_packages"
  | InstallCentos => "install_centos_packages"
  | UpdateSystem => "update_the_system"
  | SyncDistro => "synchronization_of_distribution"
  | RecreateGrub => "recreate_grub_config"
  | ReinstallSecureBoot => "reinstall_secure_boot_related_packages"
  | AddBootRecord => "add_boot_record_by_efibootmgr"
  | DefaultGrubRecord => "check_and_set_default_grub_record"
  end.

(** The value [get_stage_status] reads for a key from a readable file. *)
Definition flag (k : string) (f : file_state) : bool :=
  match f with
  | JsonObject statuses => default false (statuses !! k)
  | _ => false
  end.

(** The file after [set_successful_stage_status k] on a readable file. *)
Definition mark (k : string) (f : file_state) : file_state :=
  match f with
  | NoFile => JsonObject (<[k := true]> ∅)
  | JsonObject statuses => JsonObject (<[k := true]> statuses)
  | NotJson => NotJson
  end.

(** Where in [main] a host call comes from: the privilege check, the
    package query the agent detection and the agent removal share, the
    second detection query, the firmware probe, or the body of a stage. *)
Inductive site :=
| Privilege
| AgentQuery
| Detect
| Firmware
| Body (s : stage).

(** What the script does when a command returns non-zero: a presence
    check is an expected negative; a failed query or mutation is fatal. *)
Inductive cmd_kind := PresenceCheck | Query | Mutation.

Definition classify (cmd : string) : option (site * cmd_kind) :=
  if String.eqb cmd "rpm -q python-qpid-proton &> /dev/null"
  then Some (AgentQuery, PresenceCheck)
  else if String.eqb cmd "rpm -q python2-qpid-proton &> /dev/null"
  then Some (Detect, PresenceCheck)
  else if String.eqb cmd "rpm -q katello-agent &> /dev/null"
  then Some (Body RemoveAgent, PresenceCheck)
  else if Py.has_prefix "rpm -q redhat-" cmd
  then Some (Body RemoveRedhat, PresenceCheck)
  else if Py.has_prefix "rpm -e --nodeps redhat-" cmd
  then Some (Body RemoveRedhat, Mutation)
  else if Py.has_prefix "rpm -e --nodeps " cmd
  then Some (Body RemoveAgent, Mutation)
  else if Py.has_prefix "yum localinstall " cmd
  then Some (Body InstallCentos, Mutation)
  else if String.eqb cmd "yum update -y"
  then Some (Body UpdateSystem, Mutation)
  else if String.eqb cmd "yum distro-sync -y"
  then Some (Body SyncDistro, Mutation)
  else if Py.has_prefix "grub2-mkconfig -o " cmd
  then Some (Body RecreateGrub, Mutation)
  else if Py.has_prefix "rpm -qa " cmd
  then Some (Body ReinstallSecureBoot, Query)
  else if String.eqb cmd "grubby --default-kernel 2>&1"
  then Some (Body ReinstallSecureBoot, Query)
  else if Py.has_prefix "rpm -qf " cmd
  then Some (Body ReinstallSecureBoot, Query)
  else if Py.has_prefix "yum reinstall -y " cmd
  then Some (Body ReinstallSecureBoot, Mutation)
  else if Py.has_prefix "efibootmgr -c " cmd
  then Some (Body AddBootRecord, Mutation)
  else if String.eqb cmd "grubby --info=DEFAULT &> /dev/null"
  then Some (Body DefaultGrubRecord, PresenceCheck)
  else if Py.has_prefix "grubby --set-default=" cmd
  then Some (Body DefaultGrubRecord, Mutation)
  else None.

Definition site_of (e : event) : option site :=
  match e with
  | EvShell cmd _ => fst <$> classify cmd
  | EvLog _ msg _ =>
      if String.eqb msg "Removing katello-satellite packages: %s"
      then Some (Body RemoveAgent) else None
  | EvGeteuid _ => Some Privilege
  | EvDist _ _ => Some (Body CheckOS)
  | EvExists path _ =>
      if String.eqb path "/sys/firmware/efi" then Some Firmware else None
  | EvIsdir _ _ | EvIslink _ _ | EvRmtree _ _ => Some (Body RemoveDirs)
  end.

(** An action of the body of stage [s]. *)
Definition action_of (s : stage) (e : event) : Prop := site_of e = Some (Body s).

(** A failure the script does not survive: a command other than a
    presence check returned non-zero, or [shutil.rmtree] raised. *)
Definition fatal (e : event) : bool :=
  match e with
  | EvShell cmd rc =>
      negb (rc =? 0) &&
      match classify cmd with
      | Some (_, Query) | Some (_, Mutation) => true
      | _ => false
      end
  | EvRmtree _ ok => negb ok
  | _ => false
  end.

(** A hard failure of a mutating operation. *)
Definition hard_failure (e : event) : bool :=
  match e with
  | EvShell cmd rc =>
      negb (rc =? 0) &&
      match classify cmd with
      | Some (_, Mutation) => true
      | _ => false
      end
  | EvRmtree _ ok => negb ok
  | _ => false
  end.

Definition is_log (e : event) : bool :=
  match e with EvLog _ _ _ => true | _ => false end.

(** Nothing but logging follows a fatal event. *)
Fixpoint stops_at_failure (tr : list event) : Prop :=
  match tr with
  | [] => True
  | e :: tr' => (fatal e = true -> Forall (fun x => is_log x = true) tr')
                /\ stops_at_failure tr'
  end.

(** The command line [recreate_grub_config] runs for a path. *)
Definition mkconfig_cmd (grub_config_path : string) : string :=
  "grub2-mkconfig -o " +^ grub_config_path +^ " 2>&1".

Definition is_ret {A} (r : Res A) : Prop :=
  match r with Ret _ => True | _ => False end.

Arguments World Host : clear implicits.
Arguments M Host A : clear implicits.

#[global] Instance stage_eq_dec : EqDecision stage.
Proof. solve_decision. Defined.

#[global] Instance site_eq_dec : EqDecision site.
Proof. solve_decision. Defined.

(** The sites and keys of the whole pipeline. *)
Definition all_stages : list stage :=
  [CheckOS; RemoveRedhat; RemoveDirs; RemoveAgent; InstallCentos; UpdateSystem;
   SyncDistro; RecreateGrub; ReinstallSecureBoot; AddBootRecord;
   DefaultGrubRecord].

Definition all_sites : list site :=
  [Privilege; AgentQuery; Detect; Firmware] ++ map Body all_stages.

Definition all_keys : list string := "completed" :: map stage_key all_stages.

(** The two agent detection queries and the firmware probe. *)
Definition agent_query_cmd : string := "rpm -q python-qpid-proton &> /dev/null".
Definition detect_cmd : string := "rpm -q python2-qpid-proton &> /dev/null".
Definition efi_path : string := "/sys/firmware/efi".
Definition efi_grub_cfg : string := "/boot/efi/EFI/centos/grub.cfg".
Definition legacy_grub_cfg : string := "/boot/grub2/grub.cfg".



(** Whether the run whose events are [tr] took the path stage [s] lies on:
    the agent removal needs the second detection query to have succeeded,
    the two EFI-only stages need the firmware probe to have answered yes;
    the other stages lie on every path. *)
Definition on_path (s : stage) (tr : list event) : Prop :=
  match s with
  | RemoveAgent => In (EvShell detect_cmd 0) tr
  | ReinstallSecureBoot | AddBootRecord => In (EvExists efi_path true) tr
  | _ => True
  end.

(** The sites and keys of the last parts of [main]. *)
Definition finish_sites : list site := [Body DefaultGrubRecord].
Definition finish_keys : list string :=
  [stage_key DefaultGrubRecord; "completed"].
Definition boot_sites : list site :=
  [Body RecreateGrub; Body ReinstallSecureBoot; Body AddBootRecord].
Definition boot_keys : list string :=
  [stage_key RecreateGrub; stage_key ReinstallSecureBoot;
   stage_key AddBootRecord].
Definition boot_finish_sites : list site := boot_sites ++ finish_sites.
Definition boot_finish_keys : list string := boot_keys ++ finish_keys.
Definition onwards_sites : list site :=
  [Body InstallCentos; Body UpdateSystem; Body SyncDistro; Firmware]
  ++ boot_finish_sites.
Definition onwards_keys : list string :=
  [stage_key InstallCentos; stage_key UpdateSystem; stage_key SyncDistro]
  ++ boot_finish_keys.

(** ** What the proofs establish about pieces of the script *)

Section Specs.

Context {Host : Type} `{HostOps Host}.

(** Every event comes from one of the sites [S]. *)
Definition allowed (S : list site) (e : event) : Prop :=
  forall x, site_of e = Some x -> x ∈ S.

(** A piece of a stage body that leaves the status file alone. *)
Definition ok_pure (S : list site) {A} (m : M Host A) : Prop :=
  forall w : World Host,
    match m w with
    | (r, w', tr) =>
        status_file w' = status_file w
        /\ Forall (allowed S) tr
        /\ stops_at_failure tr
        /\ (forall e, In e tr -> fatal e = true -> exit_code r = 1)
    end.

(** The rest of a stage body: it sets [key] exactly when it returns. *)
Definition ok_tail (S : list site) (key : string) (m : M Host unit) : Prop :=
  forall (w : World Host) (d : option (gmap string bool)),
    status_file w = of_document d ->
    match m w with
    | (r, w', tr) =>
        (is_ret r -> status_file w' = mark key (status_file w))
        /\ (~ is_ret r -> status_file w' = status_file w)
        /\ Forall (allowed S) tr
        /\ stops_at_failure tr
        /\ (forall e, In e tr -> fatal e = true -> exit_code r = 1)
    end.

(** An error handler: it logs and leaves with code 1. *)
Definition aborts {A} (m : M Host A) : Prop :=
  forall w : World Host,
    match m w with
    | (r, w', tr) =>
        exit_code r = 1 /\ ~ is_ret r /\ w' = w
        /\ Forall (fun e => is_log e = true /\ site_of e = None) tr
    end.

(** A piece of [main]: it keeps the status file readable, only turns
    keys of [K] on, only acts from the sites [S], never acts for a stage
    whose key is true, and stops at the first fatal failure with code 1
    and the failing stage's key still false. *)
Definition sound (S : list site) (K : list string) {A} (m : M Host A) : Prop :=
  forall (w : World Host) (d : option (gmap string bool)),
    status_file w = of_document d ->
    match m w with
    | (r, w', tr) =>
        (exists d', status_file w' = of_document d')
        /\ (forall k, flag k (status_file w) = true ->
                      flag k (status_file w') = true)
        /\ (forall k, flag k (status_file w') = true ->
                      flag k (status_file w) = true \/ k ∈ K)
        /\ Forall (allowed S) tr
        /\ (forall e s, In e tr -> action_of s e ->
                        flag (stage_key s) (status_file w) = false)
        /\ stops_at_failure tr
        /\ (forall e, In e tr -> fatal e = true ->
              exit_code r = 1
              /\ forall s, action_of s e ->
                           flag (stage_key s) (status_file w') = false)
    end.

(** [s] is the only stage with a site in [S]. *)
Definition only_stage (S : list site) (s : stage) : Prop :=
  forall s', Body s' ∈ S -> s' = s.

(** A stage body that does not return without an action of its own. *)
Definition enters (s : stage) {A} (m : M Host A) : Prop :=
  forall w : World Host,
    is_ret (fst (fst (m w))) -> Exists (action_of s) (snd (m w)).

(** When [m] returns with [cond] true of its events, the body of [s] was
    entered, provided its key was false. *)
Definition executed (cond : list event -> Prop) (s : stage) {A} (m : M Host A)
  : Prop :=
  forall (w : World Host) (d : option (gmap string bool)),
    status_file w = of_document d ->
    flag (stage_key s) (status_file w) = false ->
    match m w with
    | (r, w', tr) => is_ret r -> cond tr -> Exists (action_of s) tr
    end.

(** Every event of [m] satisfies [P]. *)
Definition only_events (P : event -> Prop) {A} (m : M Host A) : Prop :=
  forall (w : World Host) (d : option (gmap string bool)),
    status_file w = of_document d -> Forall P (snd (m w)).

(** Agent removal happens only after both detection queries succeeded,
    one right after the other. *)
Definition agent_guarded {A} (m : M Host A) : Prop :=
  forall (w : World Host) (d : option (gmap string bool)),
    status_file w = of_document d ->
    match m w with
    | (r, w', tr) =>
        forall e, In e tr -> action_of RemoveAgent e ->
          exists pre post,
            tr = pre ++ EvShell agent_query_cmd 0 :: EvShell detect_cmd 0 :: post
            /\ In e post
    end.


End Specs.

(** ** Further vocabulary: stage order and guarded operations *)

(** The place of a stage in [main]. *)
Definition stage_position (s : stage) : nat :=
  match s with
  | CheckOS => 0
  | RemoveRedhat => 1
  | RemoveDirs => 2
  | RemoveAgent => 3
  | InstallCentos => 4
  | UpdateSystem => 5
  | SyncDistro => 6
  | RecreateGrub => 7
  | ReinstallSecureBoot => 8
  | AddBootRecord => 9
  | DefaultGrubRecord => 10
  end%nat.

(** The stages [main] calls on every path. *)
Definition always_run (s : stage) : bool :=
  match s with
  | RemoveAgent | ReinstallSecureBoot | AddBootRecord => false
  | _ => true
  end.

(** The command lines of the two removal stages. *)
Definition query_cmd (pkg : string) : string := "rpm -q " +^ pkg +^ " &> /dev/null".
Definition erase_cmd (pkg : string) : string := "rpm -e --nodeps " +^ pkg +^ " 2>&1".

Definition redhat_pkgs : list string :=
  ["redhat-release-eula"; "redhat-release-server"; "redhat-logos"].
Definition agent_pkgs : list string := ["python-qpid-proton"; "katello-agent"].

(** The packages the two removal stages may erase. *)
Definition erased_pkgs : list string := redhat_pkgs ++ agent_pkgs.

(** The presence check of [check_and_set_default_grub_record]. *)
Definition grubby_info_cmd : string := "grubby --info=DEFAULT &> /dev/null".

(** The two queries of [get_kernel_pkg_name_for_default_boot_record] and
    the one of [get_pkgs_related_to_secure_boot]. *)
Definition default_kernel_cmd : string := "grubby --default-kernel 2>&1".
Definition rpm_qf_cmd (kernel_path : string) : string :=
  "rpm -qf " +^ Py.dq +^ kernel_path +^ Py.dq
  +^ " --queryformat " +^ Py.dq
  +^ "%{name}-%{version}-%{release}.%{arch}" +^ Py.tab
  +^ "%{vendor}" +^ Py.nl +^ Py.dq.
Definition rpm_qa_cmd : string :=
  "rpm -qa --queryformat " +^ Py.dq +^ "%{name}" +^ Py.tab
  +^ "%{name}-%{version}-%{release}.%{arch}" +^ Py.tab
  +^ "%{vendor}" +^ Py.nl +^ Py.dq +^ " 2>&1".



(** The dictionary has one entry per package and lower-case vendors. *)
Definition wellformed_dict (dict : list (string * string)) : Prop :=
  List.NoDup (map fst dict)
  /\ List.Forall (fun kv => Py.lower (snd kv) = snd kv) dict.

(** The command of the reinstallation loop, the packages of a dictionary
    whose vendor is not [centos], and the commands of a trace. *)
Definition reinstall_cmd (pkg : string) : string :=
  "yum reinstall -y " +^ Py.dq +^ pkg +^ Py.dq.

Definition foreign_pkgs (dict : list (string * string)) : list string :=
  map fst (List.filter (fun kv => negb (String.eqb (snd kv) "centos")) dict).

Definition shell_cmds (tr : list event) : list string :=
  flat_map (fun e => match e with EvShell cmd _ => [cmd] | _ => [] end) tr.

(** No character of the string is white space. *)
Fixpoint no_space (str : string) : bool :=
  match str with
  | EmptyString => true
  | String c str' => negb (Py.is_space c) && no_space str'
  end.

(** The directories [remove_not_needed_dirs] walks through. *)
Definition removed_dirs : list string :=
  ["/usr/share/redhat-release"; "/usr/share/doc/redhat-release"].

(** [each_guarded ok seen tr]: every event of [tr] passes [ok], which sees
    the events in front of it, latest first ([seen] holds those in front of
    [tr]). *)
Fixpoint each_guarded (ok : list event -> event -> bool)
         (seen tr : list event) : bool :=
  match tr with
  | [] => true
  | e :: tr' => ok seen e && each_guarded ok (e :: seen) tr'
  end.

(** [shutil.rmtree] comes right after [isdir] said yes and [islink] said
    no for the same path, one of [removed_dirs]. *)
Definition rmtree_guard (seen : list event) (e : event) : bool :=
  match e with
  | EvRmtree p _ =>
      match seen with
      | EvIslink q false :: EvIsdir r true :: _ =>
          String.eqb q p && String.eqb r p
          && existsb (String.eqb p) removed_dirs
      | _ => false
      end
  | _ => true
  end.

(** An [rpm -e --nodeps] comes right after the [rpm -q] of the same
    package, one of [pkgs], returned 0. *)
Definition erase_guard (pkgs : list string) (seen : list event) (e : event)
  : bool :=
  match e with
  | EvShell cmd _ =>
      if Py.has_prefix "rpm -e --nodeps " cmd then
        match seen with
        | EvShell q 0 :: _ =>
            existsb (fun pkg => String.eqb cmd (erase_cmd pkg)
                                && String.eqb q (query_cmd pkg)) pkgs
        | _ => false
        end
      else true
  | _ => true
  end.

(** [grubby --set-default] comes right after [grubby --info=DEFAULT]
    returned non-zero. *)
Definition set_default_guard (seen : list event) (e : event) : bool :=
  match e with
  | EvShell cmd _ =>
      if Py.has_prefix "grubby --set-default=" cmd then
        match seen with
        | EvShell q rc :: _ =>
            String.eqb q "grubby --info=DEFAULT &> /dev/null" && negb (rc =? 0)
        | _ => false
        end
      else true
  | _ => true
  end.

Section MoreSpecs.

Context {Host : Type} `{HostOps Host}.

(** The stage functions by stage; [grub_config_path] is the argument of
    [recreate_grub_config]. *)
Definition stage_fun (s : stage) (grub_config_path : string) : M Host unit :=
  match s with
  | CheckOS => check_supported_os
  | RemoveRedhat => remove_redhat_packages
  | RemoveDirs => remove_not_needed_dirs
  | RemoveAgent => remove_katello_satellite_packages
  | InstallCentos => install_centos_packages
  | UpdateSystem => update_the_system
  | SyncDistro => synchronization_of_distribution
  | RecreateGrub => recreate_grub_config grub_config_path
  | ReinstallSecureBoot => reinstall_secure_boot_related_packages
  | AddBootRecord => add_boot_record_by_efibootmgr
  | DefaultGrubRecord => check_and_set_default_grub_record
  end.

(** [m] sets key [k] by the time it returns. *)
Definition marks (k : string) {A} (m : M Host A) : Prop :=
  forall (w : World Host) (d : option (gmap string bool)),
    status_file w = of_document d ->
    match m w with
    | (r, w', tr) => is_ret r -> flag k (status_file w') = true
    end.

(** [m] sets [completed] when it returns, and at no other end than an
    [IOError]. *)
Definition completes {A} (m : M Host A) : Prop :=
  forall (w : World Host) (d : option (gmap string bool)),
    status_file w = of_document d ->
    match m w with
    | (r, w', tr) =>
        (is_ret r -> flag "completed" (status_file w') = true)
        /\ (flag "completed" (status_file w') = true ->
            flag "completed" (status_file w) = true
            \/ is_ret r \/ r = Raise IOError)
    end.

(** While the key of [s'] is false at the end of [m], no stage placed
    after [s'] has acted. *)
Definition blocked (s' : stage) {A} (m : M Host A) : Prop :=
  forall (w : World Host) (d : option (gmap string bool)),
    status_file w = of_document d ->
    match m w with
    | (r, w', tr) =>
        flag (stage_key s') (status_file w') = false ->
        forall e s, In e tr -> action_of s e ->
                    (stage_position s <= stage_position s')%nat
    end.

(** Every event of every run of [m] passes [ok], given the events of the
    run in front of it. *)
Definition respects (ok : list event -> event -> bool) {A} (m : M Host A)
  : Prop :=
  forall (w : World Host) (seen : list event),
    each_guarded ok seen (snd (m w)) = true.




(** What can be called on its own: [main], or one stage function. *)
Definition entry_point (m : M Host unit) : Prop :=
  m = main \/ exists s grub_config_path, m = stage_fun s grub_config_path.

(** The same for the runs that start on a readable status file. *)
Definition respects_readable (ok : list event -> event -> bool) {A}
           (m : M Host A) : Prop :=
  forall (w : World Host) (d : option (gmap string bool)),
    status_file w = of_document d ->
    forall seen, each_guarded ok seen (snd (m w)) = true.

End MoreSpecs.

(** ** A scripted host for concrete runs *)

(** A host whose answers are fixed in advance: the effective user, the
    distribution, the firmware, the commands that return 1 (all others
    return 0) and what each command prints. Its state never changes. The
    log file can be opened by the super-user and by nobody else. *)
Record SimHost := mkSim {
  sim_euid : Z;
  sim_dist : string * string * string;
  sim_efi : bool;
  sim_failing : list string;
  sim_output : string -> string;
}.

#[export] Instance sim_ops : HostOps SimHost := {|
  run_shell cmd h :=
    (if existsb (String.eqb cmd) (sim_failing h) then 1 else 0,
     sim_output h cmd, h);
  os_geteuid := sim_euid;
  platform_dist := sim_dist;
  os_path_exists p h := String.eqb p "/sys/firmware/efi" && sim_efi h;
  os_path_isdir _ _ := false;
  os_path_islink _ _ := false;
  shutil_rmtree _ h := Some h;
  logging_FileHandler h := sim_euid h =? 0;
  root_opens_log h := proj2 (Z.eqb_eq (sim_euid h) 0);
|}.

Definition no_output : string -> string := fun _ => "".

(** A RHEL 7.9 host with legacy boot where every command succeeds. *)
Definition rhel_bios : SimHost :=
  mkSim 0 ("redhat", "7.9", "Maipo") false [] no_output.


(** The same host when [yum update -y] fails. *)
Definition update_fails : SimHost :=
  mkSim 0 ("redhat", "7.9", "Maipo") false ["yum update -y"] no_output.

(** A CentOS 7 host with legacy boot, as a RHEL host looks once the
    CentOS release package is in. *)
Definition centos_bios : SimHost :=
  mkSim 0 ("centos", "7.9.2009", "Core") false [] no_output.

(** A Debian host. *)
Definition debian_bios : SimHost :=
  mkSim 0 ("debian", "9.1", "") false [] no_output.

(** What the query commands print on the EFI host below. *)
Definition efi_output (cmd : string) : string :=
  if Py.has_prefix "rpm -qa " cmd then
    "shim-x64" +^ Py.tab +^ "shim-x64-15-8.el7.x86_64" +^ Py.tab
    +^ "Red Hat, Inc." +^ Py.nl
    +^ "bash" +^ Py.tab +^ "bash-4.2.46-35.el7_9.x86_64" +^ Py.tab
    +^ "CentOS" +^ Py.nl
  else if String.eqb cmd "grubby --default-kernel 2>&1" then
    "/boot/vmlinuz-3.10.0-1160.el7.x86_64" +^ Py.nl
  else if Py.has_prefix "rpm -qf " cmd then
    "kernel-3.10.0-1160.el7.x86_64" +^ Py.tab +^ "CentOS" +^ Py.nl
  else "".

(** A RHEL 7.9 host with EFI firmware where every command succeeds. *)
Definition rhel_efi : SimHost :=
  mkSim 0 ("redhat", "7.9", "Maipo") true [] efi_output.

(** Status documents for the concrete runs. *)
Definition only_done (k : string) : file_state := mark k NoFile.

(** A RHEL 7.9 host with legacy boot and without the conflicting agent. *)
Definition rhel_bios_no_agent : SimHost :=
  mkSim 0 ("redhat", "7.9", "Maipo") false [agent_query_cmd] no_output.

(** The worlds the concrete runs start from. *)
Definition fresh_rhel : World SimHost := mkWorld NoFile rhel_bios.
Definition fresh_rhel_efi : World SimHost := mkWorld NoFile rhel_efi.
Definition fresh_update_fails : World SimHost := mkWorld NoFile update_fails.
Definition fresh_debian : World SimHost := mkWorld NoFile debian_bios.
Definition grub_done_rhel : World SimHost :=
  mkWorld (only_done "recreate_grub_config") rhel_bios.
(** Red Hat packages already removed, on a legacy host without agent. *)
Definition resumed_no_agent : World SimHost :=
  mkWorld (only_done "remove_redhat_packages") rhel_bios_no_agent.
(** The OS check passed in an earlier run; the host now reports CentOS. *)
Definition resumed_centos : World SimHost :=
  mkWorld (only_done "check_supported_os") centos_bios.

(** Hosts for the edge cases: run by an ordinary user; a platform that
    reports no distribution name; a version string of one character; no
    default boot record; a status file that is not JSON. *)
Definition rhel_user : SimHost :=
  mkSim 1000 ("redhat", "7.9", "Maipo") false [] no_output.
Definition nameless : SimHost := mkSim 0 ("", "", "") false [] no_output.
Definition rhel_short_version : SimHost :=
  mkSim 0 ("redhat", "7", "Maipo") false [] no_output.
Definition rhel_no_default : SimHost :=
  mkSim 0 ("redhat", "7.9", "Maipo") false [grubby_info_cmd] no_output.

Definition fresh_user : World SimHost := mkWorld NoFile rhel_user.
Definition fresh_nameless : World SimHost := mkWorld NoFile nameless.
Definition fresh_short_version : World SimHost :=
  mkWorld NoFile rhel_short_version.
Definition fresh_no_default : World SimHost := mkWorld NoFile rhel_no_default.
Definition unreadable_rhel : World SimHost := mkWorld NotJson rhel_bios.

(** The EFI host while its default kernel is still the one Red Hat
    shipped. *)
Definition stock_kernel_output (cmd : string) : string :=
  if Py.has_prefix "rpm -qf " cmd then
    "kernel-3.10.0-1160.el7.x86_64" +^ Py.tab +^ "Red Hat, Inc." +^ Py.nl
  else efi_output cmd.

Definition rhel_efi_stock : SimHost :=
  mkSim 0 ("redhat", "7.9", "Maipo") true [] stock_kernel_output.
Definition fresh_rhel_efi_stock : World SimHost := mkWorld NoFile rhel_efi_stock.

(** A host with a file system: the paths that are directories and the
    paths that are symbolic links; [shutil.rmtree] takes the directory
    away. Every command succeeds and prints nothing. *)
Record DirHost := mkDirHost {
  dir_names : list string;
  link_names : list string;
}.

#[export] Instance dir_ops : HostOps DirHost := {|
  run_shell cmd h := (0, "", h);
  os_geteuid _ := 0;
  platform_dist _ := ("redhat", "7.9", "Maipo");
  os_path_exists _ _ := false;
  os_path_isdir p h := existsb (String.eqb p) (dir_names h);
  os_path_islink p h := existsb (String.eqb p) (link_names h);
  shutil_rmtree p h :=
    Some (mkDirHost
            (List.filter (fun q => negb (String.eqb q p)) (dir_names h))
            (link_names h));
  logging_FileHandler _ := true;
  root_opens_log _ _ := eq_refl;
|}.

(** The release directory of Red Hat is there, the documentation directory
    is not. *)
Definition release_dir : string := "/usr/share/redhat-release".
Definition with_release_dir : World DirHost :=
  mkWorld NoFile (mkDirHost [release_dir] []).

(** [n] events in front of the failure, the failure, and what follows. *)
Definition before {A} (n : nat) (l : list A) : list A := firstn n l.
Definition after {A} (n : nat) (l : list A) : list A := skipn (S n) l.


(** * Proofs *)

Section Proofs.

Context {Host : Type} `{HostOps Host}.

Notation "x <- m ;; k" := (bind m (fun x => k))
  (at level 100, m at next level, right associativity).
Notation "m ;; k" := (bind m (fun _ => k))
  (at level 100, right associativity).

Implicit Types (w : World Host) (d : option (gmap string bool)).
Implicit Types (tr : list event) (k : string) (s : stage).

(** ** Running a [bind] *)

Lemma bind_ret_run {A B} (m : M Host A) (f : A -> M Host B) w a w1 t1 :
  m w = (Ret a, w1, t1) ->
  bind m f w = (let '(r, w2, t2) := f a w1 in (r, w2, t1 ++ t2)).
Proof. intros E. unfold bind. rewrite E. reflexivity. Qed.

Lemma bind_exit_run {A B} (m : M Host A) (f : A -> M Host B) w c w1 t1 :
  m w = (Exit c, w1, t1) -> bind m f w = (Exit c, w1, t1).
Proof. intros E. unfold bind. rewrite E. reflexivity. Qed.

Lemma bind_raise_run {A B} (m : M Host A) (f : A -> M Host B) w e w1 t1 :
  m w = (Raise e, w1, t1) -> bind m f w = (Raise e, w1, t1).
Proof. intros E. unfold bind. rewrite E. reflexivity. Qed.

(** A run of [bind m f] either stops inside [m] or continues with [f]. *)
Lemma bind_inv {A B} (m : M Host A) (f : A -> M Host B) w r w' tr :
  bind m f w = (r, w', tr) ->
  (exists a w1 t1 t2,
      m w = (Ret a, w1, t1) /\ f a w1 = (r, w', t2) /\ tr = t1 ++ t2)
  \/ (~ is_ret (fst (fst (m w))) /\ snd (fst (m w)) = w' /\ snd (m w) = tr
      /\ exit_code (fst (fst (m w))) = exit_code r /\ ~ is_ret r).
Proof.
  unfold bind. destruct (m w) as [[[a|c|e] w1] t1]; simpl.
  - destruct (f a w1) as [[r2 w2] t2] eqn:E. intros [= <- <- <-].
    left. exists a, w1, t1, t2. auto.
  - intros [= <- <- <-]. right. simpl. tauto.
  - intros [= <- <- <-]. right. simpl. tauto.
Qed.

(** ** The status store *)

Lemma world_eta w : mkWorld (status_file w) (host w) = w.
Proof. destruct w; reflexivity. Qed.

Lemma get_stage_status_readable k w d :
  status_file w = of_document d ->
  get_stage_status k w = (Ret (flag k (status_file w)), w, []).
Proof.
  destruct w as [f h]. simpl. intros ->. destruct d; reflexivity.
Qed.

Lemma set_successful_stage_status_readable k w d :
  status_file w = of_document d ->
  set_successful_stage_status k w
  = (Ret tt, mkWorld (mark k (status_file w)) (host w), []).
Proof.
  destruct w as [f h]. simpl. intros ->. destruct d; reflexivity.
Qed.

Lemma get_stage_status_unreadable k w :
  status_file w = NotJson -> get_stage_status k w = (Raise ValueError, w, []).
Proof.
  destruct w as [f h]. simpl. intros ->. reflexivity.
Qed.

Lemma mark_readable k d : exists m, mark k (of_document d) = of_document (Some m).
Proof. destruct d; simpl; eauto. Qed.

Lemma flag_mark_eq k d : flag k (mark k (of_document d)) = true.
Proof. destruct d; simpl; rewrite lookup_insert_eq; reflexivity. Qed.

Lemma flag_mark_ne k k' d :
  k <> k' -> flag k' (mark k (of_document d)) = flag k' (of_document d).
Proof.
  intros Hne. destruct d; simpl.
  - rewrite lookup_insert_ne by done. reflexivity.
  - rewrite lookup_insert_ne by done. rewrite lookup_empty. reflexivity.
Qed.

Lemma flag_mark_mono k k' d :
  flag k' (of_document d) = true -> flag k' (mark k (of_document d)) = true.
Proof.
  intros E. destruct (decide (k = k')) as [->|Hne].
  - apply flag_mark_eq.
  - rewrite flag_mark_ne; done.
Qed.

Lemma flag_mark_inv k k' d :
  flag k' (mark k (of_document d)) = true ->
  flag k' (of_document d) = true \/ k' = k.
Proof.
  intros E. destruct (decide (k = k')) as [->|Hne]; [by right|].
  left. rewrite flag_mark_ne in E; done.
Qed.

Lemma mark_idempotent k d :
  mark k (mark k (of_document d)) = mark k (of_document d).
Proof. destruct d; simpl; rewrite insert_insert_eq; reflexivity. Qed.

(** C4. Status persistence round trip: whatever the status document was
    (absent, or any mapping), after [set_successful_stage_status X] a read
    of [X] gives [True], also from a later process on any host state; the
    write leaves every other key as it was; and a key that was never
    written reads [False], with or without a status document. *)
Theorem status_round_trip (X : string) d (h : Host) :
  exists f',
    set_successful_stage_status X (mkWorld (of_document d) h)
    = (Ret tt, mkWorld f' h, [])
    /\ (forall h' : Host, get_stage_status X (mkWorld f' h')
                   = (Ret true, mkWorld f' h', []))
    /\ (forall Y (h' : Host), Y <> X ->
          get_stage_status Y (mkWorld f' h')
          = (Ret (flag Y (of_document d)), mkWorld f' h', []))
    /\ (forall Y (h' : Host),
          (forall m, d = Some m -> m !! Y = None) ->
          get_stage_status Y (mkWorld (of_document d) h')
          = (Ret false, mkWorld (of_document d) h', [])).
Proof.
  exists (mark X (of_document d)). repeat split.
  - rewrite (set_successful_stage_status_readable X _ d) by reflexivity.
    reflexivity.
  - intros h'. destruct (mark_readable X d) as [m Em].
    rewrite (get_stage_status_readable X _ (Some m)) by (simpl; exact Em).
    simpl status_file. rewrite flag_mark_eq. reflexivity.
  - intros Y h' Hne. destruct (mark_readable X d) as [m Em].
    rewrite (get_stage_status_readable Y _ (Some m)) by (simpl; exact Em).
    simpl status_file. rewrite flag_mark_ne by done. reflexivity.
  - intros Y h' Hnever.
    rewrite (get_stage_status_readable Y _ d) by reflexivity.
    simpl status_file. destruct d as [m|]; simpl; [|reflexivity].
    rewrite (Hnever m eq_refl). reflexivity.
Qed.

(** C8. [get_stage_status] never fails on a status document: with no
    document, or a document with or without the key, it returns a boolean
    and changes nothing; the boolean is [False] when the document does not
    exist or lacks the key, and the stored value otherwise. *)
Theorem get_stage_status_total (stage_name : string) d (h : Host) :
  exists b : bool,
    get_stage_status stage_name (mkWorld (of_document d) h)
    = (Ret b, mkWorld (of_document d) h, [])
    /\ (d = None -> b = false)
    /\ (forall m, d = Some m -> m !! stage_name = None -> b = false)
    /\ (forall m v, d = Some m -> m !! stage_name = Some v -> b = v).
Proof.
  exists (flag stage_name (of_document d)). repeat split.
  - rewrite (get_stage_status_readable stage_name _ d) by reflexivity.
    reflexivity.
  - intros ->. reflexivity.
  - intros m -> E. simpl. rewrite E. reflexivity.
  - intros m v -> E. simpl. rewrite E. reflexivity.
Qed.

(** ** The OS identity probe *)

Lemma int_of_char_range c v : Py.int_of_char c = Some v -> 0 <= v <= 9.
Proof.
  unfold Py.int_of_char.
  destruct (48 <=? nat_of_ascii c)%nat eqn:E1; simpl; [|discriminate].
  destruct (nat_of_ascii c <=? 57)%nat eqn:E2; simpl; [|discriminate].
  intros [= <-]. apply Nat.leb_le in E1, E2. lia.
Qed.

Lemma get_os_version_and_name_run w os_name os_version id :
  platform_dist (host w) = (os_name, os_version, id) ->
  os_name <> "" ->
  get_os_version_and_name w
  = (match Py.index os_version 0 with
     | None => Raise IndexError
     | Some c0 =>
         match Py.int_of_char c0 with
         | None => Raise ValueError
         | Some major =>
             match Py.index os_version 2 with
             | None => Raise IndexError
             | Some c2 =>
                 match Py.int_of_char c2 with
                 | None => Raise ValueError
                 | Some minor => Ret (major, minor, os_name)
                 end
             end
         end
     end, w, [EvDist os_name os_version]).
Proof.
  intros E Hne. unfold get_os_version_and_name, bind, dist. rewrite E.
  destruct (decide (os_name = "")) as [|_]; [contradiction|].
  destruct (Py.index os_version 0) as [c0|]; simpl; [|reflexivity].
  destruct (Py.int_of_char c0) as [major|]; simpl; [|reflexivity].
  destruct (Py.index os_version 2) as [c2|]; simpl; [|reflexivity].
  destruct (Py.int_of_char c2) as [minor|]; simpl; reflexivity.
Qed.

(** C10. For a distribution with a non-empty name,
    [get_os_version_and_name] reports [int] of character 0 of the version
    string as the major version and [int] of character 2 as the minor
    version. So both reported numbers are single digits, and a version
    whose major or minor number is 10 or more is never reported as it is;
    and a character at position 0 or 2 that is not a digit makes the
    function raise instead of returning. *)
Theorem get_os_version_and_name_digits w os_name os_version id :
  platform_dist (host w) = (os_name, os_version, id) ->
  os_name <> "" ->
  (forall c0 c2 major minor,
      Py.index os_version 0 = Some c0 -> Py.int_of_char c0 = Some major ->
      Py.index os_version 2 = Some c2 -> Py.int_of_char c2 = Some minor ->
      get_os_version_and_name w
      = (Ret (major, minor, os_name), w, [EvDist os_name os_version]))
  /\ (forall major minor n,
        fst (fst (get_os_version_and_name w)) = Ret (major, minor, n) ->
        0 <= major <= 9 /\ 0 <= minor <= 9)
  /\ (forall true_major true_minor n,
        10 <= true_major \/ 10 <= true_minor ->
        fst (fst (get_os_version_and_name w))
        <> Ret (true_major, true_minor, n))
  /\ (forall c,
        Py.index os_version 0 = Some c \/ Py.index os_version 2 = Some c ->
        Py.int_of_char c = None ->
        exists e, get_os_version_and_name w
                  = (Raise e, w, [EvDist os_name os_version])).
Proof.
  intros E Hne.
  pose proof (get_os_version_and_name_run w _ _ _ E Hne) as Run.
  assert (Bound : forall major minor n,
             fst (fst (get_os_version_and_name w)) = Ret (major, minor, n) ->
             0 <= major <= 9 /\ 0 <= minor <= 9).
  { intros major minor n. rewrite Run. simpl.
    destruct (Py.index os_version 0) as [c0|]; [|discriminate].
    destruct (Py.int_of_char c0) as [a|] eqn:Ea; [|discriminate].
    destruct (Py.index os_version 2) as [c2|]; [|discriminate].
    destruct (Py.int_of_char c2) as [b|] eqn:Eb; [|discriminate].
    intros [= <- <- <-]. eauto using int_of_char_range. }
  split; [|split; [|split]].
  - intros c0 c2 major minor E0 Ea E2 Eb. rewrite Run, E0, Ea, E2, Eb.
    reflexivity.
  - exact Bound.
  - intros true_major true_minor n Hbig Hret.
    destruct (Bound _ _ _ Hret). lia.
  - intros c [E0|E2] Ec; rewrite Run.
    + rewrite E0, Ec. eauto.
    + destruct (Py.index os_version 0) as [c0|]; [|eauto].
      destruct (Py.int_of_char c0) as [a|]; [|eauto].
      rewrite E2, Ec. eauto.
Qed.

(** ** The logger *)

Lemma log_run lvl msg args w :
  log lvl msg args w
  = if logging_FileHandler (host w) then (Ret tt, w, [EvLog lvl msg args])
    else (Raise IOError, w, []).
Proof.
  unfold log, bind, get_logger, emit.
  destruct (logging_FileHandler (host w)); reflexivity.
Qed.

Lemma log_exit_run {A} lvl msg args c w :
  (log lvl msg args;; exit c : M Host A) w
  = if logging_FileHandler (host w) then (Exit c, w, [EvLog lvl msg args])
    else (Raise IOError, w, []).
Proof.
  unfold bind at 1. rewrite log_run.
  destruct (logging_FileHandler (host w)); reflexivity.
Qed.

(** ** The completion check *)

Lemma is_conversion_completed_done w m :
  status_file w = JsonObject m -> m !! "completed" = Some true ->
  is_conversion_completed w
  = if logging_FileHandler (host w)
    then (Exit 0, w,
          [EvLog INFO "The system is already migrated to CentOS 7" []])
    else (Raise IOError, w, []).
Proof.
  intros E Hc. unfold is_conversion_completed.
  rewrite (bind_ret_run _ _ _ _ _ _ (get_stage_status_readable _ w (Some m) E)).
  rewrite E. cbn [flag]. rewrite Hc.
  change (default false (Some true)) with true. cbv iota.
  rewrite log_exit_run.
  destruct (logging_FileHandler (host w)); reflexivity.
Qed.

Lemma main_migrated w m :
  status_file w = JsonObject m -> m !! "completed" = Some true ->
  main w
  = if logging_FileHandler (host w)
    then (Exit 0, w,
          [EvLog INFO "The system is already migrated to CentOS 7" []])
    else (Raise IOError, w, []).
Proof.
  intros E Hc. unfold main. unfold bind at 1.
  rewrite (is_conversion_completed_done w m E Hc).
  destruct (logging_FileHandler (host w)); reflexivity.
Qed.


(** ** The boot configuration stage *)

Lemma recreate_grub_config_skip p w d :
  status_file w = of_document d ->
  flag "recreate_grub_config" (status_file w) = true ->
  recreate_grub_config p w = (Ret tt, w, []).
Proof.
  intros E Hf. unfold recreate_grub_config.
  rewrite (bind_ret_run _ _ _ _ _ _ (get_stage_status_readable _ w d E)).
  rewrite Hf. reflexivity.
Qed.

Lemma recreate_grub_config_body p w d :
  status_file w = of_document d ->
  flag "recreate_grub_config" (status_file w) = false ->
  recreate_grub_config p w
  = (let '(rc, out, h1) := run_shell (mkconfig_cmd p) (host w) in
     if logging_FileHandler h1 then
       if rc =? 0 then
         (Ret tt, mkWorld (mark "recreate_grub_config" (status_file w)) h1,
          [EvShell (mkconfig_cmd p) rc;
           EvLog INFO ("The grub config is recreated by path " +^ Py.dq +^ "%s"
                       +^ Py.dq +^ " successful") [p]])
       else
         (Exit 1, mkWorld (status_file w) h1,
          [EvShell (mkconfig_cmd p) rc;
           EvLog ERROR ("Some error is occurred while recreating grub config by path "
                        +^ Py.dq +^ "%s" +^ Py.dq +^ "." +^ Py.nl)
                 [msg_check_output; p; out]])
     else
       (Raise IOError, mkWorld (status_file w) h1,
        [EvShell (mkconfig_cmd p) rc])).
Proof.
  intros E Hf. unfold recreate_grub_config.
  rewrite (bind_ret_run _ _ _ _ _ _ (get_stage_status_readable _ w d E)).
  rewrite Hf. cbv beta iota.
  unfold bind at 1. unfold bind at 1. unfold check_output.
  fold (mkconfig_cmd p).
  destruct (run_shell (mkconfig_cmd p) (host w)) as [[rc out] h1].
  destruct (rc =? 0); cbv beta iota.
  - unfold ret at 1. unfold bind at 1. rewrite log_run. cbn [host].
    destruct (logging_FileHandler h1); [|reflexivity].
    erewrite set_successful_stage_status_readable by (simpl; exact E).
    reflexivity.
  - rewrite log_exit_run. cbn [host].
    destruct (logging_FileHandler h1); reflexivity.
Qed.

(** C9. [recreate_grub_config] guards on and sets the one key
    [recreate_grub_config] whatever path it is given: a successful run on
    any path sets that key, and once the key is true a call with any path,
    the other branch's path included, returns at once without running
    [grub2-mkconfig]. Such successful runs exist: with the key false and
    [grub2-mkconfig] returning 0, the call returns with the key set as
    soon as its success line can be logged; when the logger cannot open
    its file the call raises [IOError] after the configuration was
    regenerated, and the key stays as it was. *)
Theorem recreate_grub_config_single_key (grub_config_path : string) w d :
  status_file w = of_document d ->
  (flag "recreate_grub_config" (status_file w) = true ->
   forall other_path : string, recreate_grub_config other_path w = (Ret tt, w, []))
  /\ (forall w' tr,
        recreate_grub_config grub_config_path w = (Ret tt, w', tr) ->
        flag "recreate_grub_config" (status_file w') = true
        /\ forall (other_path : string) (h' : Host),
            recreate_grub_config other_path (mkWorld (status_file w') h')
            = (Ret tt, mkWorld (status_file w') h', []))
  /\ (flag "recreate_grub_config" (status_file w) = false ->
      forall out h1,
        run_shell (mkconfig_cmd grub_config_path) (host w) = (0, out, h1) ->
        (logging_FileHandler h1 = true ->
         exists tr,
           recreate_grub_config grub_config_path w
           = (Ret tt,
              mkWorld (mark "recreate_grub_config" (status_file w)) h1, tr)
           /\ In (EvShell (mkconfig_cmd grub_config_path) 0) tr)
        /\ (logging_FileHandler h1 = false ->
            recreate_grub_config grub_config_path w
            = (Raise IOError, mkWorld (status_file w) h1,
               [EvShell (mkconfig_cmd grub_config_path) 0]))).
Proof.
  intros E. split; [|split].
  - intros Hf other_path. eapply recreate_grub_config_skip; eauto.
  - intros w' tr Run.
    assert (Hw' : flag "recreate_grub_config" (status_file w') = true
                  /\ exists d', status_file w' = of_document d').
    { destruct (flag "recreate_grub_config" (status_file w)) eqn:Hf.
      - rewrite (recreate_grub_config_skip _ _ _ E Hf) in Run.
        injection Run as <- _. eauto.
      - rewrite (recreate_grub_config_body _ _ _ E Hf) in Run.
        destruct (run_shell _ _) as [[rc out] h1].
        destruct (logging_FileHandler h1); [|discriminate].
        destruct (rc =? 0); [|discriminate].
        injection Run as <- _. simpl. rewrite E.
        split; [apply flag_mark_eq|].
        destruct (mark_readable "recreate_grub_config" d) as [m' Em]. eauto. }
    destruct Hw' as [Hf' [d' E']]. split; [exact Hf'|].
    intros other_path h'.
    eapply recreate_grub_config_skip; simpl; eauto.
  - intros Hf out h1 Run.
    rewrite (recreate_grub_config_body _ _ _ E Hf), Run. simpl.
    split; intros ->; [|reflexivity].
    eexists. split; [reflexivity|]. left. reflexivity.
Qed.

(** ** Traces *)

Lemma fatal_not_log e : is_log e = true -> fatal e = false.
Proof. destruct e; simpl; congruence. Qed.

Lemma stops_at_failure_logs tr :
  Forall (fun e => is_log e = true) tr -> stops_at_failure tr.
Proof.
  induction 1 as [|e tr He Htr IH]; simpl; [exact I|].
  split; [|exact IH]. rewrite (fatal_not_log e He). discriminate.
Qed.

Lemma stops_at_failure_app t1 t2 :
  stops_at_failure t1 ->
  (forall e, In e t1 -> fatal e = false) ->
  stops_at_failure t2 ->
  stops_at_failure (t1 ++ t2).
Proof.
  induction t1 as [|e t1 IH]; simpl; [tauto|].
  intros [_ H1] Hno H2. split.
  - rewrite (Hno e) by auto. discriminate.
  - apply IH; auto.
Qed.

Lemma stops_at_failure_split tr pre e post :
  stops_at_failure tr -> tr = pre ++ e :: post -> fatal e = true ->
  Forall (fun x => is_log x = true) post.
Proof.
  intros Hs -> He. induction pre as [|x pre IH]; simpl in Hs.
  - tauto.
  - apply IH. tauto.
Qed.

Lemma no_fatal_when_ret {A} (r : Res A) tr :
  is_ret r ->
  (forall e, In e tr -> fatal e = true -> exit_code r = 1) ->
  forall e, In e tr -> fatal e = false.
Proof.
  intros Hr Hf e He. destruct (fatal e) eqn:E; [|reflexivity].
  specialize (Hf e He E). destruct r; simpl in *; [discriminate|tauto|tauto].
Qed.

(** ** Pieces of a stage body *)

Lemma ok_pure_ret S {A} (a : A) : ok_pure S (ret a : M Host A).
Proof. intros w. simpl. repeat split; auto; try (intros e []). Qed.

Lemma ok_pure_exit S {A} c : ok_pure S (exit c : M Host A).
Proof. intros w. simpl. repeat split; auto; try (intros e []). Qed.

Lemma ok_pure_raise S {A} x : ok_pure S (raise x : M Host A).
Proof. intros w. simpl. repeat split; auto; try (intros e []). Qed.

Lemma ok_pure_lift_option S {A} x (o : option A) :
  ok_pure S (lift_option x o : M Host A).
Proof. destruct o; [apply ok_pure_ret|apply ok_pure_raise]. Qed.

Lemma ok_pure_event S {A} (m : M Host A) :
  (forall w, exists a w' e,
        m w = (Ret a, w', [e]) /\ status_file w' = status_file w
        /\ allowed S e /\ fatal e = false) ->
  ok_pure S m.
Proof.
  intros Hm w. destruct (Hm w) as (a & w' & e & -> & Hw & Ha & Hf).
  split; [exact Hw|]. split; [auto|]. split.
  - simpl. rewrite Hf. split; [discriminate|exact I].
  - intros e' [<-|[]]. congruence.
Qed.

Lemma ok_pure_log S lvl msg args :
  site_of (EvLog lvl msg args) = None ∨ allowed S (EvLog lvl msg args) ->
  ok_pure S (log lvl msg args : M Host unit).
Proof.
  intros Ha w. rewrite log_run.
  destruct (logging_FileHandler (host w)).
  - split; [reflexivity|]. split.
    + constructor; [|constructor].
      destruct Ha as [Ha|Ha]; [|exact Ha]. intros x. rewrite Ha. discriminate.
    + split; [simpl; split; [discriminate|exact I]|].
      intros e [<-|[]]. discriminate.
  - split; [reflexivity|]. split; [constructor|]. split; [exact I|].
    intros e [].
Qed.

Lemma ok_pure_bind S {A B} (m : M Host A) (f : A -> M Host B) :
  ok_pure S m -> (forall a, ok_pure S (f a)) -> ok_pure S (bind m f).
Proof.
  intros Hm Hf w. unfold bind. specialize (Hm w).
  destruct (m w) as [[[a|c|x] w1] t1]; try exact Hm.
  destruct Hm as (E1 & A1 & S1 & F1).
  specialize (Hf a w1). destruct (f a w1) as [[r2 w2] t2].
  destruct Hf as (E2 & A2 & S2 & F2).
  assert (N1 := no_fatal_when_ret (Ret a) t1 I F1).
  split; [congruence|]. split; [apply Forall_app; auto|]. split.
  - apply stops_at_failure_app; auto.
  - intros e He Hfat. apply in_app_or in He as [He|He]; [|eauto].
    rewrite (N1 e He) in Hfat. discriminate.
Qed.

Lemma aborts_log_exit {A} lvl msg args :
  site_of (EvLog lvl msg args) = None ->
  aborts (log lvl msg args;; exit 1 : M Host A).
Proof.
  intros Hs w. rewrite log_exit_run.
  destruct (logging_FileHandler (host w)).
  - split; [reflexivity|]. split; [simpl; tauto|].
    split; [reflexivity|]. repeat constructor. exact Hs.
  - split; [reflexivity|]. split; [simpl; tauto|].
    split; [reflexivity|]. constructor.
Qed.

Lemma aborts_bind {A B} (m : M Host A) (f : A -> M Host B) :
  aborts m -> aborts (bind m f).
Proof.
  intros Hm w. unfold bind. specialize (Hm w).
  destruct (m w) as [[[a|c|x] w1] t1]; try exact Hm.
  simpl in Hm. tauto.
Qed.

Lemma aborts_logs {A} (m : M Host A) w :
  aborts m ->
  Forall (fun e => is_log e = true) (snd (m w))
  /\ forall S, Forall (allowed S) (snd (m w)).
Proof.
  intros Hm. specialize (Hm w). destruct (m w) as [[r w1] t1].
  destruct Hm as (_ & _ & _ & Hl). simpl. split.
  - eapply Forall_impl; [exact Hl|]. simpl. tauto.
  - intros S. eapply Forall_impl; [exact Hl|]. simpl.
    intros e [_ Hs] x. rewrite Hs. discriminate.
Qed.

(** A command whose failure the continuation answers with an error
    handler. *)
Lemma ok_pure_check_output S {A} cmd (f : string + string -> M Host A) :
  (forall rc, allowed S (EvShell cmd rc)) ->
  (forall out, ok_pure S (f (inl out))) ->
  (forall out, aborts (f (inr out))) ->
  ok_pure S (bind (check_output cmd) f).
Proof.
  intros Ha Hok Hab w. unfold bind, check_output.
  destruct (run_shell cmd (host w)) as [[rc out] h1].
  destruct (rc =? 0) eqn:Erc.
  - specialize (Hok out (mkWorld (status_file w) h1)).
    destruct (f (inl out) _) as [[r2 w2] t2].
    destruct Hok as (E2 & A2 & S2 & F2). simpl in E2.
    split; [exact E2|]. split; [constructor; auto|]. split.
    + simpl. rewrite Erc. simpl. split; [discriminate|exact S2].
    + intros e [<-|He]; [|eauto]. simpl. rewrite Erc. discriminate.
  - pose proof (aborts_logs _ (mkWorld (status_file w) h1) (Hab out)) as [L1 L2].
    specialize (Hab out (mkWorld (status_file w) h1)).
    destruct (f (inr out) _) as [[r2 w2] t2]. simpl in L1, L2.
    destruct Hab as (Ec & _ & -> & _).
    split; [reflexivity|]. split; [constructor; auto|]. split.
    + simpl. split; [intros _; exact L1|].
      apply stops_at_failure_logs; exact L1.
    + intros e _ _. exact Ec.
Qed.

Lemma ok_pure_check_call S {A} cmd (f : bool -> M Host A) :
  (forall rc, allowed S (EvShell cmd rc)) ->
  ok_pure S (f true) ->
  aborts (f false) ->
  ok_pure S (bind (check_call cmd) f).
Proof.
  intros Ha Hok Hab w.
  pose proof (ok_pure_check_output S cmd
                (fun r => f (match r with inl _ => true | inr _ => false end))
                Ha (fun _ => Hok) (fun _ => Hab) w) as P.
  unfold check_call, bind in *. unfold check_output in *.
  destruct (run_shell cmd (host w)) as [[rc out] h1].
  destruct (rc =? 0); simpl in *;
    destruct (f _ _) as [[r2 w2] t2]; exact P.
Qed.

(** A presence check: its failure is an expected negative. *)
Lemma ok_pure_presence_check S {A} cmd (f : bool -> M Host A) :
  (forall rc, allowed S (EvShell cmd rc)) ->
  (forall rc, fatal (EvShell cmd rc) = false) ->
  (forall b, ok_pure S (f b)) ->
  ok_pure S (bind (check_call cmd) f).
Proof.
  intros Ha Hnf Hok. apply ok_pure_bind; [|exact Hok].
  apply ok_pure_event. intros w. unfold check_call, bind, check_output.
  destruct (run_shell cmd (host w)) as [[rc out] h1]. simpl.
  destruct (rc =? 0); eexists _, _, _; (split; [reflexivity|]); auto.
Qed.

Lemma ok_pure_dist S :
  Body CheckOS ∈ S -> ok_pure S (dist : M Host _).
Proof.
  intros HS. apply ok_pure_event. intros w. unfold dist.
  destruct (platform_dist (host w)) as [[n v] i].
  eexists _, _, _. split; [reflexivity|]. split; [reflexivity|].
  split; [|reflexivity]. intros x [= <-]. exact HS.
Qed.

Lemma ok_pure_path_isdir S p :
  Body RemoveDirs ∈ S -> ok_pure S (path_isdir p : M Host _).
Proof.
  intros HS. apply ok_pure_event. intros w.
  eexists _, _, _. split; [reflexivity|]. split; [reflexivity|].
  split; [|reflexivity]. intros x [= <-]. exact HS.
Qed.

Lemma ok_pure_path_islink S p :
  Body RemoveDirs ∈ S -> ok_pure S (path_islink p : M Host _).
Proof.
  intros HS. apply ok_pure_event. intros w.
  eexists _, _, _. split; [reflexivity|]. split; [reflexivity|].
  split; [|reflexivity]. intros x [= <-]. exact HS.
Qed.

Lemma ok_pure_rmtree S p :
  Body RemoveDirs ∈ S -> ok_pure S (rmtree p : M Host _).
Proof.
  intros HS w. unfold rmtree.
  assert (Ha : forall b, allowed S (EvRmtree p b)).
  { intros b x [= <-]. exact HS. }
  destruct (shutil_rmtree p (host w)) as [h1|]; simpl.
  - split; [reflexivity|]. split; [auto|]. split; [split; [discriminate|exact I]|].
    intros e [<-|[]]. discriminate.
  - split; [reflexivity|]. split; [auto|]. split; [split; [constructor|exact I]|].
    reflexivity.
Qed.

Lemma ok_pure_for_each S {A} (l : list A) (body : A -> M Host unit) :
  (forall x, ok_pure S (body x)) -> ok_pure S (for_each l body).
Proof.
  intros Hb. induction l as [|x l IH]; simpl.
  - apply ok_pure_ret.
  - apply ok_pure_bind; auto.
Qed.

Lemma ok_pure_for_fold S {A St} (l : list A) (body : A -> St -> M Host St) :
  (forall x st, ok_pure S (body x st)) ->
  forall st, ok_pure S (for_fold l st body).
Proof.
  intros Hb. induction l as [|x l IH]; intros st; simpl.
  - apply ok_pure_ret.
  - apply ok_pure_bind; auto.
Qed.


Lemma ok_pure_for_each_in S {A} (l : list A) (body : A -> M Host unit) :
  Forall (fun x => ok_pure S (body x)) l -> ok_pure S (for_each l body).
Proof.
  induction 1 as [|x l Hx Hl IH]; simpl.
  - apply ok_pure_ret.
  - apply ok_pure_bind; auto.
Qed.

Lemma ok_tail_set S key :
  ok_tail S key (set_successful_stage_status key : M Host unit).
Proof.
  intros w d E. rewrite (set_successful_stage_status_readable key w d E).
  simpl. split; [reflexivity|]. split; [tauto|]. split; [constructor|].
  split; [exact I|]. intros e [].
Qed.

Lemma ok_tail_aborts S key (m : M Host unit) : aborts m -> ok_tail S key m.
Proof.
  intros Hm w d E. pose proof (aborts_logs m w Hm) as [L1 L2].
  specialize (Hm w). destruct (m w) as [[r w1] t1]. simpl in L1, L2.
  destruct Hm as (Ec & Hr & -> & _).
  split; [tauto|]. split; [reflexivity|]. split; [apply L2|].
  split; [apply stops_at_failure_logs; exact L1|]. intros e _ _. exact Ec.
Qed.

Lemma ok_tail_bind S key {A} (m : M Host A) (f : A -> M Host unit) :
  ok_pure S m -> (forall a, ok_tail S key (f a)) -> ok_tail S key (bind m f).
Proof.
  intros Hm Hf w d E. unfold bind. specialize (Hm w).
  destruct (m w) as [[[a|c|x] w1] t1].
  - destruct Hm as (E1 & A1 & S1 & F1).
    assert (E1' : status_file w1 = of_document d) by congruence.
    specialize (Hf a w1 d E1'). destruct (f a w1) as [[r2 w2] t2].
    destruct Hf as (M2 & E2 & A2 & S2 & F2).
    assert (N1 := no_fatal_when_ret (Ret a) t1 I F1).
    split; [intros Hr; rewrite (M2 Hr); congruence|].
    split; [intros Hr; rewrite (E2 Hr); congruence|].
    split; [apply Forall_app; auto|]. split.
    + apply stops_at_failure_app; auto.
    + intros e He Hfat. apply in_app_or in He as [He|He]; [|eauto].
      rewrite (N1 e He) in Hfat. discriminate.
  - destruct Hm as (E1 & A1 & S1 & F1). simpl. tauto.
  - destruct Hm as (E1 & A1 & S1 & F1). simpl. tauto.
Qed.

Lemma ok_tail_check_output S key cmd (f : string + string -> M Host unit) :
  (forall rc, allowed S (EvShell cmd rc)) ->
  (forall out, ok_tail S key (f (inl out))) ->
  (forall out, aborts (f (inr out))) ->
  ok_tail S key (bind (check_output cmd) f).
Proof.
  intros Ha Hok Hab w d E. unfold bind, check_output.
  destruct (run_shell cmd (host w)) as [[rc out] h1].
  destruct (rc =? 0) eqn:Erc.
  - specialize (Hok out (mkWorld (status_file w) h1) d E).
    destruct (f (inl out) _) as [[r2 w2] t2].
    destruct Hok as (M2 & E2 & A2 & S2 & F2). simpl in M2, E2.
    split; [exact M2|]. split; [exact E2|].
    split; [constructor; auto|]. split.
    + simpl. rewrite Erc. simpl. split; [discriminate|exact S2].
    + intros e [<-|He]; [|eauto]. simpl. rewrite Erc. discriminate.
  - pose proof (aborts_logs _ (mkWorld (status_file w) h1) (Hab out)) as [L1 L2].
    specialize (Hab out (mkWorld (status_file w) h1)).
    destruct (f (inr out) _) as [[r2 w2] t2]. simpl in L1, L2.
    destruct Hab as (Ec & Hr & -> & _).
    split; [tauto|]. split; [reflexivity|].
    split; [constructor; auto|]. split.
    + simpl. split; [intros _; exact L1|].
      apply stops_at_failure_logs; exact L1.
    + intros e _ _. exact Ec.
Qed.

Lemma ok_tail_check_call S key cmd (f : bool -> M Host unit) :
  (forall rc, allowed S (EvShell cmd rc)) ->
  ok_tail S key (f true) ->
  aborts (f false) ->
  ok_tail S key (bind (check_call cmd) f).
Proof.
  intros Ha Hok Hab w d E.
  pose proof (ok_tail_check_output S key cmd
                (fun r => f (match r with inl _ => true | inr _ => false end))
                Ha (fun _ => Hok) (fun _ => Hab) w d E) as P.
  unfold check_call, bind in *. unfold check_output in *.
  destruct (run_shell cmd (host w)) as [[rc out] h1].
  destruct (rc =? 0); simpl in *;
    destruct (f _ _) as [[r2 w2] t2]; exact P.
Qed.

Lemma ok_pure_check_call_event S cmd :
  (forall rc, allowed S (EvShell cmd rc)) ->
  (forall rc, fatal (EvShell cmd rc) = false) ->
  ok_pure S (check_call cmd : M Host bool).
Proof.
  intros Ha Hnf. apply ok_pure_event. intros w.
  unfold check_call, bind, check_output.
  destruct (run_shell cmd (host w)) as [[rc out] h1]. simpl.
  destruct (rc =? 0); eexists _, _, _; (split; [reflexivity|]); auto.
Qed.

(** ** From a stage body to the stage *)

Lemma stage_sound S s (body : M Host unit) :
  only_stage S s ->
  ok_tail S (stage_key s) body ->
  sound S [stage_key s]
        (done <- get_stage_status (stage_key s);;
         if done then ret tt else body).
Proof.
  intros HS Hb w d E.
  rewrite (bind_ret_run _ _ _ _ _ _ (get_stage_status_readable _ w d E)).
  destruct (flag (stage_key s) (status_file w)) eqn:Hf.
  - simpl. split; [eauto|]. split; [auto|]. split; [auto|].
    split; [constructor|]. split; [intros e s' []|]. split; [exact I|].
    intros e [].
  - specialize (Hb w d E). destruct (body w) as [[r w'] tr].
    destruct Hb as (M2 & E2 & A2 & S2 & F2). simpl.
    assert (Hst : status_file w' = status_file w
                  \/ (is_ret r /\ status_file w' = mark (stage_key s) (status_file w))).
    { destruct r; simpl in *; auto. }
    assert (Hown : forall e s', In e tr -> action_of s' e -> s' = s).
    { intros e s' He Hact. apply HS.
      rewrite Forall_forall in A2. apply (A2 e); [|exact Hact].
      apply list_elem_of_In. exact He. }
    split; [|split; [|split; [|split; [|split; [|split]]]]].
    + destruct Hst as [->|[_ ->]]; [eauto|]. rewrite E.
      destruct (mark_readable (stage_key s) d) as [m Em]. eauto.
    + intros k Hk. destruct Hst as [->|[_ ->]]; [exact Hk|].
      rewrite E in *. apply flag_mark_mono. exact Hk.
    + intros k Hk. destruct Hst as [Hs|[_ Hs]]; rewrite Hs in Hk; [auto|].
      rewrite E in *. apply flag_mark_inv in Hk as [Hk| ->]; [auto|].
      right. set_solver.
    + exact A2.
    + intros e s' He Hact. rewrite (Hown e s' He Hact). exact Hf.
    + exact S2.
    + intros e He Hfat. pose proof (F2 e He Hfat) as Ec.
      split; [exact Ec|]. intros s' Hact. rewrite (Hown e s' He Hact).
      rewrite E2; [exact Hf|]. destruct r; simpl in *; [discriminate|tauto|tauto].
Qed.

Ltac solve_allowed :=
  let x := fresh "x" in
  let Hx := fresh "Hx" in
  intros; intros x Hx; vm_compute in Hx;
  first [discriminate Hx | injection Hx as <-; set_solver].

Ltac solve_nonfatal :=
  intros; unfold fatal; apply andb_false_intro2; vm_compute; reflexivity.

Ltac solve_log :=
  first [left; vm_compute; reflexivity | right; solve_allowed].

Ltac solve_only_stage :=
  let s' := fresh "s" in
  let Hs := fresh "Hs" in
  intros s' Hs;
  repeat (apply elem_of_cons in Hs as [Hs|Hs]; [congruence|]);
  apply elem_of_nil in Hs; contradiction.

Ltac ok_step :=
  cbv beta zeta iota; cbn [negb];
  lazymatch goal with
  | |- Forall _ [] => constructor
  | |- Forall _ (_ :: _) => constructor
  | |- ok_pure _ (ret _) => apply ok_pure_ret
  | |- ok_pure _ (exit _) => apply ok_pure_exit
  | |- ok_pure _ (raise _) => apply ok_pure_raise
  | |- ok_pure _ (lift_option _ _) => apply ok_pure_lift_option
  | |- ok_pure _ (log _ _ _) => apply ok_pure_log; solve_log
  | |- ok_pure _ dist => apply ok_pure_dist; set_solver
  | |- ok_pure _ (path_isdir _) => apply ok_pure_path_isdir; set_solver
  | |- ok_pure _ (path_islink _) => apply ok_pure_path_islink; set_solver
  | |- ok_pure _ (rmtree _) => apply ok_pure_rmtree; set_solver
  | |- ok_pure _ (for_each (_ :: _) _) => apply ok_pure_for_each_in
  | |- ok_pure _ (for_each _ _) => apply ok_pure_for_each; intros ?
  | |- ok_pure _ (for_fold _ _ _) => apply ok_pure_for_fold; intros ? ?
  | |- ok_pure _ (bind (check_output _) _) =>
      apply ok_pure_check_output; [solve_allowed | intros ? | intros ?]
  | |- ok_pure _ (bind (check_call _) _) =>
      first [ apply ok_pure_bind;
              [apply ok_pure_check_call_event; [solve_allowed | solve_nonfatal]
              | intros [|]]
            | apply ok_pure_check_call; [solve_allowed | | ] ]
  | |- ok_pure _ (bind _ _) => apply ok_pure_bind; [| intros ?]
  | |- ok_pure _ (if ?b then _ else _) => destruct b
  | |- ok_pure _ (match ?x with _ => _ end) => destruct x
  | |- ok_tail _ _ (set_successful_stage_status _) => apply ok_tail_set
  | |- ok_tail _ _ (bind (check_output _) _) =>
      apply ok_tail_check_output; [solve_allowed | intros ? | intros ?]
  | |- ok_tail _ _ (bind (check_call _) _) =>
      first [ apply ok_tail_bind;
              [apply ok_pure_check_call_event; [solve_allowed | solve_nonfatal]
              | intros [|]]
            | apply ok_tail_check_call; [solve_allowed | | ] ]
  | |- ok_tail _ _ (bind _ _) => apply ok_tail_bind; [| intros ?]
  | |- ok_tail _ _ (if ?b then _ else _) => destruct b
  | |- ok_tail _ _ (match ?x with _ => _ end) => destruct x
  | |- aborts (bind (log _ _ _) (fun _ => exit 1)) =>
      apply aborts_log_exit; vm_compute; reflexivity
  | |- aborts (bind _ _) => apply aborts_bind
  end.

Lemma check_supported_os_sound :
  sound [Body CheckOS] [stage_key CheckOS] (check_supported_os : M Host unit).
Proof.
  unfold check_supported_os.
  apply (stage_sound _ CheckOS); [solve_only_stage|].
  unfold get_os_version_and_name. repeat ok_step.
Qed.

Lemma remove_redhat_packages_sound :
  sound [Body RemoveRedhat] [stage_key RemoveRedhat]
        (remove_redhat_packages : M Host unit).
Proof.
  unfold remove_redhat_packages.
  apply (stage_sound _ RemoveRedhat); [solve_only_stage|].
  repeat ok_step.
Qed.

Lemma remove_not_needed_dirs_sound :
  sound [Body RemoveDirs] [stage_key RemoveDirs]
        (remove_not_needed_dirs : M Host unit).
Proof.
  unfold remove_not_needed_dirs.
  apply (stage_sound _ RemoveDirs); [solve_only_stage|].
  repeat ok_step.
Qed.

Lemma remove_katello_satellite_packages_sound :
  sound [AgentQuery; Body RemoveAgent] [stage_key RemoveAgent]
        (remove_katello_satellite_packages : M Host unit).
Proof.
  unfold remove_katello_satellite_packages.
  apply (stage_sound _ RemoveAgent); [solve_only_stage|].
  repeat ok_step.
Qed.

Lemma install_centos_packages_sound :
  sound [Body InstallCentos] [stage_key InstallCentos]
        (install_centos_packages : M Host unit).
Proof.
  unfold install_centos_packages, installed_pkgs.
  apply (stage_sound _ InstallCentos); [solve_only_stage|].
  repeat ok_step.
Qed.

Lemma update_the_system_sound :
  sound [Body UpdateSystem] [stage_key UpdateSystem]
        (update_the_system : M Host unit).
Proof.
  unfold update_the_system.
  apply (stage_sound _ UpdateSystem); [solve_only_stage|].
  repeat ok_step.
Qed.

Lemma synchronization_of_distribution_sound :
  sound [Body SyncDistro] [stage_key SyncDistro]
        (synchronization_of_distribution : M Host unit).
Proof.
  unfold synchronization_of_distribution.
  apply (stage_sound _ SyncDistro); [solve_only_stage|].
  repeat ok_step.
Qed.

Lemma recreate_grub_config_sound p :
  sound [Body RecreateGrub] [stage_key RecreateGrub]
        (recreate_grub_config p : M Host unit).
Proof.
  unfold recreate_grub_config.
  apply (stage_sound _ RecreateGrub); [solve_only_stage|].
  repeat ok_step.
Qed.

Lemma reinstall_secure_boot_related_packages_sound :
  sound [Body ReinstallSecureBoot] [stage_key ReinstallSecureBoot]
        (reinstall_secure_boot_related_packages : M Host unit).
Proof.
  unfold reinstall_secure_boot_related_packages.
  apply (stage_sound _ ReinstallSecureBoot); [solve_only_stage|].
  unfold get_pkgs_related_to_secure_boot,
    get_kernel_pkg_name_for_default_boot_record.
  repeat ok_step.
Qed.

Lemma add_boot_record_by_efibootmgr_sound :
  sound [Body AddBootRecord] [stage_key AddBootRecord]
        (add_boot_record_by_efibootmgr : M Host unit).
Proof.
  unfold add_boot_record_by_efibootmgr.
  apply (stage_sound _ AddBootRecord); [solve_only_stage|].
  repeat ok_step.
Qed.

Lemma check_and_set_default_grub_record_sound :
  sound [Body DefaultGrubRecord] [stage_key DefaultGrubRecord]
        (check_and_set_default_grub_record : M Host unit).
Proof.
  unfold check_and_set_default_grub_record.
  apply (stage_sound _ DefaultGrubRecord); [solve_only_stage|].
  repeat ok_step.
Qed.

(** ** Pieces of [main] *)

Lemma sound_weaken S S' K K' {A} (m : M Host A) :
  (forall x, x ∈ S -> x ∈ S') -> (forall k, k ∈ K -> k ∈ K') ->
  sound S K m -> sound S' K' m.
Proof.
  intros HS HK Hm w d E. specialize (Hm w d E).
  destruct (m w) as [[r w'] tr].
  destruct Hm as (W & Mo & Fr & Al & Re & St & Fa).
  split; [exact W|]. split; [exact Mo|]. split.
  { intros k Hk. destruct (Fr k Hk); auto. }
  split; [|auto].
  eapply Forall_impl; [exact Al|]. intros e He x Hx. auto.
Qed.

Lemma sound_bind S K {A B} (m : M Host A) (f : A -> M Host B) :
  sound S K m -> (forall a, sound S K (f a)) -> sound S K (bind m f).
Proof.
  intros Hm Hf w d E. unfold bind. specialize (Hm w d E).
  destruct (m w) as [[[a|c|x] w1] t1]; try exact Hm.
  destruct Hm as ([d1 W1] & Mo1 & Fr1 & Al1 & Re1 & St1 & Fa1).
  specialize (Hf a w1 d1 W1). destruct (f a w1) as [[r2 w2] t2].
  destruct Hf as (W2 & Mo2 & Fr2 & Al2 & Re2 & St2 & Fa2).
  assert (N1 : forall e, In e t1 -> fatal e = false).
  { intros e He. destruct (fatal e) eqn:Ef; [|reflexivity].
    destruct (Fa1 e He Ef) as [Ec _]. discriminate Ec. }
  split; [exact W2|]. split; [auto|]. split.
  { intros k Hk. destruct (Fr2 k Hk) as [Hk1|]; auto. }
  split; [apply Forall_app; auto|]. split.
  { intros e s He Hact. apply in_app_or in He as [He|He]; [eauto|].
    destruct (flag (stage_key s) (status_file w)) eqn:Hfl; [|reflexivity].
    pose proof (Re2 e s He Hact) as Hf2. rewrite (Mo1 _ Hfl) in Hf2.
    discriminate Hf2. }
  split; [apply stops_at_failure_app; auto|].
  intros e He Ef. apply in_app_or in He as [He|He]; [|eauto].
  rewrite (N1 e He) in Ef. discriminate.
Qed.

Lemma pure_sound S {A} (m : M Host A) :
  (forall s, Body s ∉ S) -> ok_pure S m -> sound S [] m.
Proof.
  intros HS Hm w d E. specialize (Hm w). destruct (m w) as [[r w'] tr].
  destruct Hm as (E1 & A1 & S1 & F1).
  assert (Hno : forall e s, In e tr -> ~ action_of s e).
  { intros e s He Hact. apply (HS s).
    rewrite Forall_forall in A1. apply (A1 e); [|exact Hact].
    apply list_elem_of_In. exact He. }
  rewrite E1. split; [eauto|]. split; [auto|]. split; [auto|].
  split; [exact A1|]. split; [intros e s He Hact; destruct (Hno e s He Hact)|].
  split; [exact S1|]. intros e He Ef. split; [eauto|].
  intros s Hact. destruct (Hno e s He Hact).
Qed.

Ltac no_body :=
  let s' := fresh "s" in
  let Hs := fresh "Hs" in
  intros s' Hs;
  repeat (apply elem_of_cons in Hs as [Hs|Hs]; [discriminate Hs|]);
  apply elem_of_nil in Hs; contradiction.

Lemma is_conversion_completed_sound :
  sound [] [] (is_conversion_completed : M Host unit).
Proof.
  intros w d E. unfold is_conversion_completed.
  rewrite (bind_ret_run _ _ _ _ _ _ (get_stage_status_readable _ w d E)).
  assert (Hlog : allowed [] (EvLog INFO "The system is already migrated to CentOS 7" [])).
  { intros x Hx. vm_compute in Hx. discriminate. }
  destruct (flag "completed" (status_file w)); cbv beta iota;
    [rewrite log_exit_run; destruct (logging_FileHandler (host w))|];
    simpl.
  - split; [eauto|]. split; [auto|]. split; [auto|].
    split; [repeat constructor; exact Hlog|].
    split; [intros e s [<-|[]] Hact; vm_compute in Hact; discriminate|].
    split; [split; [discriminate|exact I]|].
    intros e [<-|[]]. discriminate.
  - split; [eauto|]. split; [auto|]. split; [auto|].
    split; [constructor|]. split; [intros e s []|]. split; [exact I|].
    intros e [].
  - split; [eauto|]. split; [auto|]. split; [auto|].
    split; [constructor|]. split; [intros e s []|]. split; [exact I|].
    intros e [].
Qed.

Lemma is_run_under_root_sound :
  sound [Privilege] [] (is_run_under_root : M Host unit).
Proof.
  apply pure_sound; [no_body|]. unfold is_run_under_root.
  apply ok_pure_bind.
  - apply ok_pure_event. intros w. eexists _, _, _.
    split; [reflexivity|]. split; [reflexivity|]. split; [|reflexivity].
    intros x [= <-]. set_solver.
  - intros euid. repeat ok_step.
Qed.

Lemma is_katello_satelite_sound :
  sound [AgentQuery; Detect] [] (is_katello_satelite : M Host bool).
Proof.
  apply pure_sound; [no_body|]. unfold is_katello_satelite. repeat ok_step.
Qed.

Lemma is_efi_system_sound :
  sound [Firmware] [] (is_efi_system : M Host bool).
Proof.
  apply pure_sound; [no_body|]. unfold is_efi_system.
  apply ok_pure_event. intros w. eexists _, _, _.
  split; [reflexivity|]. split; [reflexivity|]. split; [|reflexivity].
  intros x Hx. vm_compute in Hx. injection Hx as <-. set_solver.
Qed.

Lemma mark_completed_sound :
  sound [] ["completed"]
        (set_successful_stage_status "completed" : M Host unit).
Proof.
  intros w d E. rewrite (set_successful_stage_status_readable _ w d E).
  simpl. rewrite E.
  split; [destruct (mark_readable "completed" d) as [m Em]; eauto|].
  split; [intros k; apply flag_mark_mono|]. split.
  { intros k Hk. apply flag_mark_inv in Hk as [Hk| ->]; [auto|].
    right. set_solver. }
  split; [constructor|]. split; [intros e s []|]. split; [exact I|].
  intros e [].
Qed.

Lemma log_sound lvl msg args :
  site_of (EvLog lvl msg args) = None ->
  sound [] [] (log lvl msg args : M Host unit).
Proof.
  intros Hs. apply pure_sound; [no_body|]. apply ok_pure_log. auto.
Qed.

Lemma ret_sound S K {A} (a : A) : sound S K (ret a : M Host A).
Proof.
  intros w d E. simpl. split; [eauto|]. split; [auto|]. split; [auto|].
  split; [constructor|]. split; [intros e s []|]. split; [exact I|].
  intros e [].
Qed.

(** Weakening to the sites and keys of the whole pipeline. *)
Lemma sound_all S K {A} (m : M Host A) :
  (forall x, x ∈ S -> x ∈ all_sites) -> (forall k, k ∈ K -> k ∈ all_keys) ->
  sound S K m -> sound all_sites all_keys m.
Proof. apply sound_weaken. Qed.

Ltac in_all :=
  let x := fresh "x" in
  let Hx := fresh "Hx" in
  intros x Hx;
  repeat (apply elem_of_cons in Hx as [->|Hx];
          [apply list_elem_of_In; vm_compute; tauto|]);
  apply elem_of_nil in Hx; contradiction.

Ltac use_sound L := eapply sound_all; [| |apply L]; in_all.

Lemma main_sound : sound all_sites all_keys (main : M Host unit).
Proof.
  unfold main.
  apply sound_bind; [use_sound is_conversion_completed_sound|intros _].
  apply sound_bind; [use_sound is_run_under_root_sound|intros _].
  apply sound_bind; [use_sound check_supported_os_sound|intros _].
  apply sound_bind; [use_sound remove_redhat_packages_sound|intros _].
  apply sound_bind; [use_sound remove_not_needed_dirs_sound|intros _].
  apply sound_bind; [use_sound is_katello_satelite_sound|intros katello].
  apply sound_bind.
  { destruct katello; [use_sound remove_katello_satellite_packages_sound|].
    apply ret_sound. }
  intros _.
  apply sound_bind; [use_sound install_centos_packages_sound|intros _].
  apply sound_bind; [use_sound update_the_system_sound|intros _].
  apply sound_bind; [use_sound synchronization_of_distribution_sound|intros _].
  apply sound_bind; [use_sound is_efi_system_sound|intros efi].
  apply sound_bind.
  { destruct efi.
    - apply sound_bind; [use_sound recreate_grub_config_sound|intros _].
      apply sound_bind;
        [use_sound reinstall_secure_boot_related_packages_sound|intros _].
      use_sound add_boot_record_by_efibootmgr_sound.
    - use_sound recreate_grub_config_sound. }
  intros _.
  apply sound_bind; [use_sound check_and_set_default_grub_record_sound|intros _].
  apply sound_bind; [use_sound mark_completed_sound|intros _].
  eapply sound_all; [| |apply log_sound; vm_compute; reflexivity]; in_all.
Qed.

(** ** Fail-fast *)

Lemma hard_failure_fatal e : hard_failure e = true -> fatal e = true.
Proof.
  destruct e; simpl; try discriminate; [|auto].
  destruct (negb (rc =? 0)); simpl; [|discriminate].
  destruct (classify cmd) as [[x [| |]]|]; auto.
Qed.

Lemma hard_failure_stage e : hard_failure e = true -> exists s, action_of s e.
Proof.
  unfold action_of. destruct e; simpl; try discriminate; [|eauto].
  destruct (negb (rc =? 0)); simpl; [|discriminate].
  unfold classify.
  repeat match goal with
         | |- context [if ?b then _ else _] => destruct b
         end; simpl; try discriminate; eauto.
Qed.

(** C2. When a mutating operation of a stage fails hard during a run of
    [main] (a mutating command returns non-zero, or [shutil.rmtree]
    raises), the process leaves with exit code 1, nothing but logging
    follows the failure (so no later stage runs), and the key of the stage
    the operation belongs to, false when the run started, is still false
    in the status document the run leaves. *)
Theorem fail_fast w d r w' tr :
  status_file w = of_document d ->
  main w = (r, w', tr) ->
  forall pre e post,
    tr = pre ++ e :: post ->
    hard_failure e = true ->
    exit_code r = 1
    /\ Forall (fun x => is_log x = true) post
    /\ exists s,
        action_of s e
        /\ flag (stage_key s) (status_file w) = false
        /\ flag (stage_key s) (status_file w') = false.
Proof.
  intros E Run pre e post Htr Hhard.
  pose proof (main_sound w d E) as Hs. rewrite Run in Hs.
  destruct Hs as (_ & _ & _ & _ & Re & St & Fa).
  pose proof (hard_failure_fatal e Hhard) as Hfat.
  assert (He : In e tr) by (rewrite Htr; apply in_elt).
  destruct (Fa e He Hfat) as [Ec Hflag].
  split; [exact Ec|]. split; [eapply stops_at_failure_split; eauto|].
  destruct (hard_failure_stage e Hhard) as [s Hact].
  exists s. eauto.
Qed.

(** ** Entering a stage body *)

Lemma enters_bind_l s {A B} (m : M Host A) (f : A -> M Host B) :
  enters s m -> enters s (bind m f).
Proof.
  intros Hm w. unfold bind. specialize (Hm w).
  destruct (m w) as [[[a|c|x] w1] t1]; simpl in *; try (intros []).
  destruct (f a w1) as [[r2 w2] t2]. simpl. intros _.
  apply Exists_app. left. apply Hm. exact I.
Qed.

Lemma enters_after_log s {B} lvl msg args (f : unit -> M Host B) :
  enters s (f tt) -> enters s (bind (log lvl msg args) f).
Proof.
  intros Hf w. unfold bind. rewrite log_run. specialize (Hf w).
  destruct (logging_FileHandler (host w)); [|intros []].
  destruct (f tt w) as [[r2 w2] t2]. simpl in *. intros Hr.
  apply Exists_cons. auto.
Qed.

Lemma enters_event s {A} (m : M Host A) :
  (forall w, exists e, snd (m w) = [e] /\ action_of s e) -> enters s m.
Proof.
  intros Hm w _. destruct (Hm w) as (e & -> & He). apply Exists_cons. auto.
Qed.

Lemma enters_check_output s cmd :
  (forall rc, action_of s (EvShell cmd rc)) ->
  enters s (check_output cmd : M Host _).
Proof.
  intros Ha. apply enters_event. intros w. unfold check_output.
  destruct (run_shell cmd (host w)) as [[rc out] h1]. simpl. eauto.
Qed.

Lemma enters_check_call s cmd :
  (forall rc, action_of s (EvShell cmd rc)) ->
  enters s (check_call cmd : M Host _).
Proof.
  intros Ha. apply enters_event. intros w. unfold check_call, bind, check_output.
  destruct (run_shell cmd (host w)) as [[rc out] h1]. simpl. eauto.
Qed.

Lemma enters_dist : enters CheckOS (dist : M Host _).
Proof.
  apply enters_event. intros w. unfold dist.
  destruct (platform_dist (host w)) as [[n v] i]. simpl. eexists. split; reflexivity.
Qed.

Lemma enters_path_isdir p : enters RemoveDirs (path_isdir p : M Host _).
Proof.
  apply enters_event. intros w. simpl. eexists. split; reflexivity.
Qed.

Lemma enters_log s lvl msg args :
  action_of s (EvLog lvl msg args) -> enters s (log lvl msg args : M Host _).
Proof.
  intros Ha w. rewrite log_run.
  destruct (logging_FileHandler (host w)); simpl; [|intros []].
  intros _. apply Exists_cons. auto.
Qed.

Lemma stage_executed s (body : M Host unit) :
  enters s body ->
  executed (fun _ => True) s
           (done <- get_stage_status (stage_key s);;
            if done then ret tt else body).
Proof.
  intros He w d E Hf.
  rewrite (bind_ret_run _ _ _ _ _ _ (get_stage_status_readable _ w d E)).
  rewrite Hf. specialize (He w). destruct (body w) as [[r w'] tr].
  simpl in *. auto.
Qed.

Ltac solve_action := intros; unfold action_of; vm_compute; reflexivity.

Ltac enter_step :=
  cbv beta zeta iota; cbn [for_each];
  lazymatch goal with
  | |- enters _ (bind (log _ _ _) _) =>
      first [ apply enters_bind_l; apply enters_log; solve_action
            | apply enters_after_log ]
  | |- enters _ (bind (check_output _) _) =>
      apply enters_bind_l; apply enters_check_output; solve_action
  | |- enters _ (bind (check_call _) _) =>
      apply enters_bind_l; apply enters_check_call; solve_action
  | |- enters _ (bind dist _) => apply enters_bind_l; apply enters_dist
  | |- enters _ (bind (path_isdir _) _) =>
      apply enters_bind_l; apply enters_path_isdir
  | |- enters _ (bind _ _) => apply enters_bind_l
  end.

Lemma check_supported_os_executed :
  executed (fun _ => True) CheckOS (check_supported_os : M Host unit).
Proof.
  unfold check_supported_os, get_os_version_and_name.
  apply (stage_executed CheckOS). repeat enter_step.
Qed.

Lemma remove_redhat_packages_executed :
  executed (fun _ => True) RemoveRedhat (remove_redhat_packages : M Host unit).
Proof.
  unfold remove_redhat_packages.
  apply (stage_executed RemoveRedhat). repeat enter_step.
Qed.

Lemma remove_not_needed_dirs_executed :
  executed (fun _ => True) RemoveDirs (remove_not_needed_dirs : M Host unit).
Proof.
  unfold remove_not_needed_dirs.
  apply (stage_executed RemoveDirs). repeat enter_step.
Qed.

Lemma remove_katello_satellite_packages_executed :
  executed (fun _ => True) RemoveAgent
           (remove_katello_satellite_packages : M Host unit).
Proof.
  unfold remove_katello_satellite_packages.
  apply (stage_executed RemoveAgent). repeat enter_step.
Qed.

Lemma install_centos_packages_executed :
  executed (fun _ => True) InstallCentos (install_centos_packages : M Host unit).
Proof.
  unfold install_centos_packages, installed_pkgs.
  apply (stage_executed InstallCentos). repeat enter_step.
Qed.

Lemma update_the_system_executed :
  executed (fun _ => True) UpdateSystem (update_the_system : M Host unit).
Proof.
  unfold update_the_system.
  apply (stage_executed UpdateSystem). repeat enter_step.
Qed.

Lemma synchronization_of_distribution_executed :
  executed (fun _ => True) SyncDistro
           (synchronization_of_distribution : M Host unit).
Proof.
  unfold synchronization_of_distribution.
  apply (stage_executed SyncDistro). repeat enter_step.
Qed.

Lemma recreate_grub_config_executed p :
  executed (fun _ => True) RecreateGrub (recreate_grub_config p : M Host unit).
Proof.
  unfold recreate_grub_config.
  apply (stage_executed RecreateGrub). repeat enter_step.
Qed.

Lemma reinstall_secure_boot_related_packages_executed :
  executed (fun _ => True) ReinstallSecureBoot
           (reinstall_secure_boot_related_packages : M Host unit).
Proof.
  unfold reinstall_secure_boot_related_packages,
    get_pkgs_related_to_secure_boot,
    get_kernel_pkg_name_for_default_boot_record.
  apply (stage_executed ReinstallSecureBoot). repeat enter_step.
Qed.

Lemma add_boot_record_by_efibootmgr_executed :
  executed (fun _ => True) AddBootRecord
           (add_boot_record_by_efibootmgr : M Host unit).
Proof.
  unfold add_boot_record_by_efibootmgr.
  apply (stage_executed AddBootRecord). repeat enter_step.
Qed.

Lemma check_and_set_default_grub_record_executed :
  executed (fun _ => True) DefaultGrubRecord
           (check_and_set_default_grub_record : M Host unit).
Proof.
  unfold check_and_set_default_grub_record.
  apply (stage_executed DefaultGrubRecord). repeat enter_step.
Qed.

(** ** The parts of [main] *)

Lemma main_parts :
  (main : M Host unit)
  = (is_conversion_completed;;
     is_run_under_root;;
     check_supported_os;;
     remove_redhat_packages;;
     remove_not_needed_dirs;;
     katello <- is_katello_satelite;;
     (if katello then remove_katello_satellite_packages else ret tt);;
     install_onwards).
Proof. reflexivity. Qed.

Ltac weaken_sound L := eapply sound_weaken; [| |apply L]; in_all.

Lemma finish_sound : sound finish_sites finish_keys (finish : M Host unit).
Proof.
  unfold finish.
  apply sound_bind;
    [weaken_sound check_and_set_default_grub_record_sound|intros _].
  apply sound_bind; [weaken_sound mark_completed_sound|intros _].
  eapply sound_weaken; [| |apply log_sound; vm_compute; reflexivity]; in_all.
Qed.

Lemma boot_branch_sound efi :
  sound boot_sites boot_keys (boot_branch efi : M Host unit).
Proof.
  unfold boot_branch. destruct efi.
  - apply sound_bind; [weaken_sound recreate_grub_config_sound|intros _].
    apply sound_bind;
      [weaken_sound reinstall_secure_boot_related_packages_sound|intros _].
    weaken_sound add_boot_record_by_efibootmgr_sound.
  - weaken_sound recreate_grub_config_sound.
Qed.

Lemma boot_finish_sound efi :
  sound boot_finish_sites boot_finish_keys
        (boot_branch efi;; finish : M Host unit).
Proof.
  apply sound_bind; [weaken_sound boot_branch_sound|intros _].
  weaken_sound finish_sound.
Qed.

Lemma install_onwards_sound :
  sound onwards_sites onwards_keys (install_onwards : M Host unit).
Proof.
  unfold install_onwards.
  apply sound_bind; [weaken_sound install_centos_packages_sound|intros _].
  apply sound_bind; [weaken_sound update_the_system_sound|intros _].
  apply sound_bind; [weaken_sound synchronization_of_distribution_sound|intros _].
  apply sound_bind; [weaken_sound is_efi_system_sound|intros efi].
  weaken_sound boot_finish_sound.
Qed.

Lemma agent_step_sound (katello : bool) :
  sound [AgentQuery; Body RemoveAgent] [stage_key RemoveAgent]
        (if katello then remove_katello_satellite_packages else ret tt
         : M Host unit).
Proof.
  destruct katello; [apply remove_katello_satellite_packages_sound|].
  apply ret_sound.
Qed.

(** ** The two probes *)

Lemma is_katello_satelite_run w :
  is_katello_satelite w
  = (let '(rc1, _, h1) := run_shell agent_query_cmd (host w) in
     if rc1 =? 0 then
       let '(rc2, _, h2) := run_shell detect_cmd h1 in
       (Ret (rc2 =? 0), mkWorld (status_file w) h2,
        [EvShell agent_query_cmd rc1; EvShell detect_cmd rc2])
     else
       (Ret false, mkWorld (status_file w) h1, [EvShell agent_query_cmd rc1])).
Proof.
  unfold is_katello_satelite, bind, check_call, bind, check_output, ret.
  fold agent_query_cmd. fold detect_cmd.
  destruct (run_shell agent_query_cmd (host w)) as [[rc1 out1] h1].
  destruct (rc1 =? 0); simpl; [|reflexivity].
  destruct (run_shell detect_cmd h1) as [[rc2 out2] h2].
  destruct (rc2 =? 0); reflexivity.
Qed.

Lemma is_katello_satelite_answer w :
  exists b w1 t1,
    is_katello_satelite w = (Ret b, w1, t1)
    /\ status_file w1 = status_file w
    /\ (In (EvShell detect_cmd 0) t1 -> b = true)
    /\ (b = true -> In (EvShell detect_cmd 0) t1)
    /\ (forall e, In e t1 -> ~ action_of RemoveAgent e).
Proof.
  rewrite is_katello_satelite_run.
  destruct (run_shell agent_query_cmd (host w)) as [[rc1 out1] h1].
  destruct (rc1 =? 0) eqn:E1.
  - destruct (run_shell detect_cmd h1) as [[rc2 out2] h2].
    eexists _, _, _. split; [reflexivity|]. split; [reflexivity|].
    split; [|split].
    + intros [Hin|[Hin|[]]]; [discriminate Hin|].
      injection Hin as ->. reflexivity.
    + intros Hb. apply Z.eqb_eq in Hb as ->. right. left. reflexivity.
    + intros e [<-|[<-|[]]] Hact; vm_compute in Hact; discriminate.
  - eexists _, _, _. split; [reflexivity|]. split; [reflexivity|].
    split; [|split].
    + intros [Hin|[]]. discriminate Hin.
    + discriminate.
    + intros e [<-|[]] Hact; vm_compute in Hact; discriminate.
Qed.

Lemma is_efi_system_run w :
  is_efi_system w
  = (Ret (os_path_exists efi_path (host w)), w,
     [EvExists efi_path (os_path_exists efi_path (host w))]).
Proof. reflexivity. Qed.

(** ** Events of a piece of [main] *)

Lemma only_events_sound (P : event -> Prop) S K {A} (m : M Host A) :
  sound S K m -> (forall e, allowed S e -> P e) -> only_events P m.
Proof.
  intros Hm HP w d E. specialize (Hm w d E). destruct (m w) as [[r w'] tr].
  destruct Hm as (_ & _ & _ & Al & _). simpl.
  eapply Forall_impl; [exact Al|]. exact HP.
Qed.


(** ** Which stage bodies a run enters *)

Lemma executed_here (cond : list event -> Prop) s {A B}
      (m : M Host A) (f : A -> M Host B) :
  executed (fun _ => True) s m -> executed cond s (bind m f).
Proof.
  intros Hm w d E Hf. unfold bind. specialize (Hm w d E Hf).
  destruct (m w) as [[[a|c|x] w1] t1]; simpl; try tauto.
  destruct (f a w1) as [[r2 w2] t2]. intros _ _.
  apply Exists_app. left. apply Hm; exact I.
Qed.

Lemma executed_later (cond cond' : list event -> Prop) S K s {A B}
      (m : M Host A) (f : A -> M Host B) :
  sound S K m ->
  stage_key s ∉ K ->
  (forall t1 t2, Forall (allowed S) t1 -> cond (t1 ++ t2) -> cond' t2) ->
  (forall a, executed cond' s (f a)) ->
  executed cond s (bind m f).
Proof.
  intros Hm HK Hc Hf w d E Hfl. unfold bind. specialize (Hm w d E).
  destruct (m w) as [[[a|c|x] w1] t1]; simpl; try tauto.
  destruct Hm as ([d1 W1] & _ & Fr & Al & _).
  assert (Hfl1 : flag (stage_key s) (status_file w1) = false).
  { destruct (flag (stage_key s) (status_file w1)) eqn:F1; [|reflexivity].
    destruct (Fr _ F1) as [F0|F0]; [congruence|contradiction]. }
  specialize (Hf a w1 d1 W1 Hfl1). destruct (f a w1) as [[r2 w2] t2].
  intros Hr Hcond. apply Exists_app. right. eauto.
Qed.

Ltac key_absent :=
  let Hin := fresh "Hin" in
  intros Hin; rewrite list_elem_of_In in Hin; vm_compute in Hin;
  intuition discriminate.

Ltac site_absent H :=
  rewrite list_elem_of_In in H; vm_compute in H; intuition discriminate.

Ltac keep_true := intros; exact I.

(** [keep_cond x]: the condition event has site [x], which the part of
    [main] in front does not act from. *)
Ltac keep_cond x :=
  let t1 := fresh "t1" in
  let t2 := fresh "t2" in
  let Hall := fresh "Hall" in
  let Hin := fresh "Hin" in
  let Hx := fresh "Hx" in
  intros t1 t2 Hall Hin; apply in_app_or in Hin as [Hin|Hin];
  [exfalso|exact Hin];
  rewrite Forall_forall in Hall; apply list_elem_of_In in Hin;
  pose proof (Hall _ Hin x eq_refl) as Hx; site_absent Hx.

Lemma executed_after_detection :
  executed (fun tr => In (EvShell detect_cmd 0) tr) RemoveAgent
           (katello <- is_katello_satelite;;
            (if katello then remove_katello_satellite_packages else ret tt);;
            install_onwards : M Host unit).
Proof.
  intros w d E Hfl.
  destruct (is_katello_satelite_answer w) as (b & w1 & t1 & Run & E1 & Hb & _).
  rewrite (bind_ret_run _ _ _ _ _ _ Run).
  assert (W1 : status_file w1 = of_document d) by congruence.
  destruct b.
  - pose proof (executed_here (fun _ => True) RemoveAgent
                  remove_katello_satellite_packages (fun _ => install_onwards)
                  remove_katello_satellite_packages_executed w1 d W1) as Hx.
    rewrite E1 in Hx. specialize (Hx Hfl).
    destruct (bind remove_katello_satellite_packages _ w1) as [[r2 w2] t2].
    intros Hr _. apply Exists_app. right. apply Hx; auto.
  - pose proof (only_events_sound
                  (fun e => site_of e <> Some Detect) _ _
                  (ret tt;; install_onwards)
                  (sound_bind onwards_sites onwards_keys _ _
                     (ret_sound _ _ tt) (fun _ => install_onwards_sound))) as Ho.
    specialize (Ho ltac:(intros e He Hs; specialize (He _ Hs); site_absent He)
                   w1 d W1).
    destruct (bind (ret tt) _ w1) as [[r2 w2] t2]. simpl in Ho.
    intros _ Hin. exfalso. apply in_app_or in Hin as [Hin|Hin].
    + specialize (Hb Hin). discriminate.
    + rewrite Forall_forall in Ho. apply list_elem_of_In in Hin.
      apply (Ho _ Hin). reflexivity.
Qed.

Lemma executed_efi_branch s :
  s = ReinstallSecureBoot \/ s = AddBootRecord ->
  executed (fun _ => True) s (boot_branch true;; finish : M Host unit).
Proof.
  intros Hs. apply executed_here. unfold boot_branch.
  eapply executed_later;
    [apply recreate_grub_config_sound
    |destruct Hs as [-> | ->]; key_absent|keep_true|intros _].
  destruct Hs as [-> | ->].
  - apply executed_here. apply reinstall_secure_boot_related_packages_executed.
  - eapply executed_later;
      [apply reinstall_secure_boot_related_packages_sound
      |key_absent|keep_true|intros _].
    apply add_boot_record_by_efibootmgr_executed.
Qed.

Lemma executed_after_probe s :
  s = ReinstallSecureBoot \/ s = AddBootRecord ->
  executed (fun tr => In (EvExists efi_path true) tr) s
           (efi <- is_efi_system;; boot_branch efi;; finish : M Host unit).
Proof.
  intros Hs w d E Hfl.
  rewrite (bind_ret_run _ _ _ _ _ _ (is_efi_system_run w)).
  destruct (os_path_exists efi_path (host w)).
  - pose proof (executed_efi_branch s Hs w d E Hfl) as Hx.
    destruct (bind (boot_branch true) _ w) as [[r2 w2] t2].
    intros Hr _. apply Exists_cons. right. apply Hx; auto.
  - pose proof (only_events_sound
                  (fun e => site_of e <> Some Firmware) _ _ _
                  (boot_finish_sound false)) as Ho.
    specialize (Ho ltac:(intros e He Hx; specialize (He _ Hx); site_absent He)
                   w d E).
    destruct (bind (boot_branch false) _ w) as [[r2 w2] t2]. simpl in Ho.
    intros _ [Hin|Hin]; [discriminate Hin|]. exfalso.
    rewrite Forall_forall in Ho. apply list_elem_of_In in Hin.
    apply (Ho _ Hin). reflexivity.
Qed.

Ltac later L c := eapply executed_later; [apply L | key_absent | c | intros ?].

(** Past the five steps of [main] in front of the agent detection. *)
Ltac past_early c :=
  later is_conversion_completed_sound c;
  later is_run_under_root_sound c;
  later check_supported_os_sound c;
  later remove_redhat_packages_sound c;
  later remove_not_needed_dirs_sound c.

Ltac past_agent c :=
  past_early c;
  later is_katello_satelite_sound c;
  later agent_step_sound c;
  unfold install_onwards.

Ltac past_sync c :=
  past_agent c;
  later install_centos_packages_sound c;
  later update_the_system_sound c;
  later synchronization_of_distribution_sound c.

Lemma main_executed s : executed (on_path s) s (main : M Host unit).
Proof.
  rewrite main_parts. destruct s; unfold on_path.
  - later is_conversion_completed_sound keep_true.
    later is_run_under_root_sound keep_true.
    apply executed_here, check_supported_os_executed.
  - later is_conversion_completed_sound keep_true.
    later is_run_under_root_sound keep_true.
    later check_supported_os_sound keep_true.
    apply executed_here, remove_redhat_packages_executed.
  - later is_conversion_completed_sound keep_true.
    later is_run_under_root_sound keep_true.
    later check_supported_os_sound keep_true.
    later remove_redhat_packages_sound keep_true.
    apply executed_here, remove_not_needed_dirs_executed.
  - past_early ltac:(keep_cond Detect). apply executed_after_detection.
  - past_agent keep_true.
    apply executed_here, install_centos_packages_executed.
  - past_agent keep_true.
    later install_centos_packages_sound keep_true.
    apply executed_here, update_the_system_executed.
  - past_agent keep_true.
    later install_centos_packages_sound keep_true.
    later update_the_system_sound keep_true.
    apply executed_here, synchronization_of_distribution_executed.
  - past_sync keep_true.
    later is_efi_system_sound keep_true.
    apply executed_here. unfold boot_branch.
    match goal with |- context [if ?b then _ else _] => destruct b end.
    + apply executed_here, recreate_grub_config_executed.
    + apply recreate_grub_config_executed.
  - past_sync ltac:(keep_cond Firmware).
    apply executed_after_probe. auto.
  - past_sync ltac:(keep_cond Firmware).
    apply executed_after_probe. auto.
  - past_sync keep_true.
    later is_efi_system_sound keep_true.
    later boot_branch_sound keep_true.
    unfold finish.
    apply executed_here, check_and_set_default_grub_record_executed.
Qed.

(** ** Agent detection guards agent removal *)

Lemma agent_guarded_later S K {A B} (m : M Host A) (f : A -> M Host B) :
  sound S K m -> Body RemoveAgent ∉ S ->
  (forall a, agent_guarded (f a)) -> agent_guarded (bind m f).
Proof.
  intros Hm HS Hf w d E. unfold bind. specialize (Hm w d E).
  destruct (m w) as [[r1 w1] t1].
  destruct Hm as ([d1 W1] & _ & _ & Al & _).
  assert (Hno : forall e, In e t1 -> ~ action_of RemoveAgent e).
  { intros e He Hact. apply HS. rewrite Forall_forall in Al.
    apply (Al e); [apply list_elem_of_In; exact He|exact Hact]. }
  destruct r1 as [a|c|x]; try (intros e He Hact; destruct (Hno e He Hact)).
  specialize (Hf a w1 d1 W1). destruct (f a w1) as [[r2 w2] t2].
  intros e He Hact. apply in_app_or in He as [He|He]; [destruct (Hno e He Hact)|].
  destruct (Hf e He Hact) as (pre & post & -> & Hin).
  exists (t1 ++ pre), post. rewrite <- app_assoc. auto.
Qed.

Lemma agent_guarded_detection :
  agent_guarded (katello <- is_katello_satelite;;
                 (if katello then remove_katello_satellite_packages else ret tt);;
                 install_onwards : M Host unit).
Proof.
  intros w d E. pose proof (is_katello_satelite_run w) as Run.
  destruct (run_shell agent_query_cmd (host w)) as [[rc1 out1] h1].
  destruct (rc1 =? 0) eqn:E1.
  - apply Z.eqb_eq in E1 as ->.
    destruct (run_shell detect_cmd h1) as [[rc2 out2] h2].
    rewrite (bind_ret_run _ _ _ _ _ _ Run). clear Run.
    destruct (rc2 =? 0) eqn:E2.
    + apply Z.eqb_eq in E2 as ->.
      destruct (bind remove_katello_satellite_packages _ _) as [[r2 w2] t2].
      intros e [<-|[<-|He]] Hact;
        [vm_compute in Hact; discriminate|vm_compute in Hact; discriminate|].
      exists [], t2. auto.
    + pose proof (only_events_sound
                    (fun e => ~ action_of RemoveAgent e) _ _
                    (ret tt;; install_onwards)
                    (sound_bind onwards_sites onwards_keys _ _
                       (ret_sound _ _ tt) (fun _ => install_onwards_sound))) as Ho.
      specialize (Ho ltac:(intros e He Hs; specialize (He _ Hs); site_absent He)
                     (mkWorld (status_file w) h2) d E).
      destruct (bind (ret tt) _ _) as [[r2 w2] t2]. simpl in Ho.
      intros e [<-|[<-|He]] Hact;
        [vm_compute in Hact; discriminate|vm_compute in Hact; discriminate|].
      rewrite Forall_forall in Ho. apply list_elem_of_In in He.
      destruct (Ho _ He Hact).
  - rewrite (bind_ret_run _ _ _ _ _ _ Run). clear Run.
    pose proof (only_events_sound
                  (fun e => ~ action_of RemoveAgent e) _ _
                  (ret tt;; install_onwards)
                  (sound_bind onwards_sites onwards_keys _ _
                     (ret_sound _ _ tt) (fun _ => install_onwards_sound))) as Ho.
    specialize (Ho ltac:(intros e He Hs; specialize (He _ Hs); site_absent He)
                   (mkWorld (status_file w) h1) d E).
    destruct (bind (ret tt) _ _) as [[r2 w2] t2]. simpl in Ho.
    intros e [<-|He] Hact; [vm_compute in Hact; discriminate|].
    rewrite Forall_forall in Ho. apply list_elem_of_In in He.
    destruct (Ho _ He Hact).
Qed.

Ltac guarded_later L :=
  eapply agent_guarded_later;
  [apply L | let Hin := fresh in intros Hin; site_absent Hin | intros ?].

Lemma main_agent_guarded : agent_guarded (main : M Host unit).
Proof.
  rewrite main_parts.
  guarded_later is_conversion_completed_sound.
  guarded_later is_run_under_root_sound.
  guarded_later check_supported_os_sound.
  guarded_later remove_redhat_packages_sound.
  guarded_later remove_not_needed_dirs_sound.
  apply agent_guarded_detection.
Qed.

(** ** The firmware probe selects the boot branch *)












(** A run that stops at [log ...;; exit c], with or without the line. *)
Ltac stop_at_log w :=
  match goal with
  | |- context [bind (bind (log ?l ?m ?a) (fun _ => exit ?c)) ?f w] =>
      let Hl := fresh "Hl" in
      pose proof (@log_exit_run unit l m a c w) as Hl;
      destruct (logging_FileHandler (host w));
      [rewrite (bind_exit_run _ f _ _ _ _ Hl)
      |rewrite (bind_raise_run _ f _ _ _ _ Hl)]
  end.

Lemma check_supported_os_run w d os_name os_version res :
  status_file w = of_document d ->
  flag "check_supported_os" (status_file w) = false ->
  get_os_version_and_name w = (res, w, [EvDist os_name os_version]) ->
  exists msg1 msg2,
  check_supported_os w
  = match res with
    | Ret (major, minor, name) =>
        if major =? SUPPORTED_MAJOR_VERSION_OS then
          if (name =? SUPPORTED_NAME_OS)%string then
            (Ret tt,
             mkWorld (mark "check_supported_os" (status_file w)) (host w),
             [EvDist os_name os_version])
          else if logging_FileHandler (host w) then
            (Exit 0, w,
             [EvDist os_name os_version;
              EvLog INFO msg2 [name; SUPPORTED_NAME_OS]])
          else (Raise IOError, w, [EvDist os_name os_version])
        else if logging_FileHandler (host w) then
          (Exit 0, w,
           [EvDist os_name os_version;
            EvLog INFO msg1
                  [pretty major; pretty SUPPORTED_MAJOR_VERSION_OS]])
        else (Raise IOError, w, [EvDist os_name os_version])
    | Exit c => (Exit c, w, [EvDist os_name os_version])
    | Raise x => (Raise x, w, [EvDist os_name os_version])
    end.
Proof.
  intros E Hf Hres. eexists _, _. unfold check_supported_os.
  rewrite (bind_ret_run _ _ _ _ _ _ (get_stage_status_readable _ w d E)).
  rewrite Hf. cbv beta iota.
  destruct res as [[[major minor] name]|c|x].
  2: { rewrite (bind_exit_run _ _ _ _ _ _ Hres). reflexivity. }
  2: { rewrite (bind_raise_run _ _ _ _ _ _ Hres). reflexivity. }
  rewrite (bind_ret_run _ _ _ _ _ _ Hres). cbv beta iota.
  destruct (major =? SUPPORTED_MAJOR_VERSION_OS); cbn [negb]; cbv iota.
  2: { stop_at_log w; reflexivity. }
  destruct (name =? SUPPORTED_NAME_OS)%string; cbn [negb]; cbv iota.
  2: { rewrite (bind_ret_run (ret tt) _ w tt w [] eq_refl).
       stop_at_log w; reflexivity. }
  assert (Hset := set_successful_stage_status_readable
                    "check_supported_os" w d E).
  unfold bind, ret. rewrite Hset. reflexivity.
Qed.

(** ** The entry checks *)

Lemma is_conversion_completed_pending w d :
  status_file w = of_document d ->
  flag "completed" (status_file w) = false ->
  is_conversion_completed w = (Ret tt, w, []).
Proof.
  intros E Hf. unfold is_conversion_completed.
  rewrite (bind_ret_run _ _ _ _ _ _ (get_stage_status_readable _ w d E)).
  rewrite Hf. reflexivity.
Qed.

Lemma is_run_under_root_root w :
  os_geteuid (host w) = 0 ->
  is_run_under_root w = (Ret tt, w, [EvGeteuid 0]).
Proof.
  intros E. unfold is_run_under_root, bind, geteuid. rewrite E. reflexivity.
Qed.

Lemma get_os_version_and_name_shape w os_name os_version id :
  platform_dist (host w) = (os_name, os_version, id) ->
  exists res, get_os_version_and_name w = (res, w, [EvDist os_name os_version]).
Proof.
  intros E. unfold get_os_version_and_name, bind, dist. rewrite E.
  destruct (decide (os_name = "")) as [|_]; [eexists; reflexivity|].
  destruct (Py.index os_version 0) as [c0|]; simpl; [|eexists; reflexivity].
  destruct (Py.int_of_char c0) as [major|]; simpl; [|eexists; reflexivity].
  destruct (Py.index os_version 2) as [c2|]; simpl; [|eexists; reflexivity].
  destruct (Py.int_of_char c2) as [minor|]; simpl; eexists; reflexivity.
Qed.

Lemma bind_trace_prefix {A B} (m : M Host A) (f : A -> M Host B) w :
  exists t2, snd (bind m f w) = snd (m w) ++ t2.
Proof.
  unfold bind. destruct (m w) as [[[a|c|x] w1] t1]; simpl.
  - destruct (f a w1) as [[r2 w2] t2]. simpl. eauto.
  - exists []. rewrite app_nil_r. reflexivity.
  - exists []. rewrite app_nil_r. reflexivity.
Qed.

(** [main] once it is past the completion and privilege checks. *)
Lemma main_past_entry w d :
  status_file w = of_document d ->
  flag "completed" (status_file w) = false ->
  os_geteuid (host w) = 0 ->
  exists rest : unit -> M Host unit,
    main w
    = (let '(r, w2, t2) := bind check_supported_os rest w in
       (r, w2, EvGeteuid 0 :: t2)).
Proof.
  intros E Hc Hroot.
  exists (fun _ =>
            remove_redhat_packages;;
            remove_not_needed_dirs;;
            katello <- is_katello_satelite;;
            (if katello then remove_katello_satellite_packages else ret tt);;
            install_onwards).
  rewrite main_parts.
  rewrite (bind_ret_run _ _ _ _ _ _ (is_conversion_completed_pending w d E Hc)).
  rewrite (bind_ret_run _ _ _ _ _ _ (is_run_under_root_root w Hroot)).
  destruct (bind check_supported_os _ w) as [[r2 w2] t2]. reflexivity.
Qed.

(** C5, as the code has it. On a run past the completion and privilege
    checks, [main] probes the OS identity and checks it only while the key
    [check_supported_os] is not set: then the probe is the first thing
    after the privilege check, and an identity whose major version is not
    7 or whose name is not [redhat] ends the run with exit code 0, the
    status document untouched and nothing else done. Once the key is set,
    a run does not probe the OS identity at all: the positive result of an
    earlier run is kept in the status document. *)
Theorem os_identity_checked_unless_recorded w d os_name os_version id :
  status_file w = of_document d ->
  flag "completed" (status_file w) = false ->
  os_geteuid (host w) = 0 ->
  platform_dist (host w) = (os_name, os_version, id) ->
  (flag "check_supported_os" (status_file w) = false ->
   (exists rest,
       snd (main w) = EvGeteuid 0 :: EvDist os_name os_version :: rest)
   /\ (forall major minor name,
         fst (fst (get_os_version_and_name w)) = Ret (major, minor, name) ->
         major <> SUPPORTED_MAJOR_VERSION_OS \/ name <> SUPPORTED_NAME_OS ->
         exists msg args,
           main w
           = (Exit 0, w,
              [EvGeteuid 0; EvDist os_name os_version; EvLog INFO msg args])))
  /\ (flag "check_supported_os" (status_file w) = true ->
      forall e, In e (snd (main w)) -> forall n v, e <> EvDist n v).
Proof.
  intros E Hc Hroot Hd. split.
  - intros Hf.
    destruct (main_past_entry w d E Hc Hroot) as [rest Hmain].
    destruct (get_os_version_and_name_shape w _ _ _ Hd) as [res Hres].
    destruct (check_supported_os_run w d _ _ res E Hf Hres)
      as (msg1 & msg2 & Hrun).
    rewrite (root_opens_log _ Hroot) in Hrun.
    split.
    + destruct (bind_trace_prefix check_supported_os rest w) as [t2 Ht].
      rewrite Hmain. destruct (bind check_supported_os rest w) as [[r b] t].
      simpl in *. subst t. rewrite Hrun.
      destruct res as [[[major minor] name]|c|x]; simpl; eauto.
      destruct (major =? _); [destruct (name =? _)%string|]; simpl; eauto.
    + intros major minor name Hret Hbad. rewrite Hres in Hret. simpl in Hret.
      subst res. rewrite Hmain.
      destruct (major =? SUPPORTED_MAJOR_VERSION_OS) eqn:Emaj.
      * destruct (name =? SUPPORTED_NAME_OS)%string eqn:Ename.
        { apply Z.eqb_eq in Emaj. apply String.eqb_eq in Ename. tauto. }
        rewrite (bind_exit_run _ _ _ _ _ _ Hrun). eauto.
      * rewrite (bind_exit_run _ _ _ _ _ _ Hrun). eauto.
  - intros Hf e He n v ->.
    pose proof (main_sound w d E) as Hs.
    destruct (main w) as [[r w'] tr]. simpl in He.
    destruct Hs as (_ & _ & _ & _ & Re & _).
    pose proof (Re _ CheckOS He eq_refl) as Hx. simpl in Hx. congruence.
Qed.

(** C1, as the code has it. Take a run of [main] on a readable status
    document. (1) For every stage whose key is true at the start, the run
    performs no action of that stage's body. (2) Every key that is true at
    the start is still true at the end, so the stage stays skipped in later
    runs until someone clears the key. (3) If the run reaches its end, it
    has entered the body of every stage whose key was false and that lies
    on the path the run took: every stage but the agent removal, which
    needs a positive detection, and the two EFI-only stages, which need an
    EFI host. *)
Theorem resumable_run w d r w' tr :
  status_file w = of_document d ->
  main w = (r, w', tr) ->
  (forall s, flag (stage_key s) (status_file w) = true ->
             forall e, In e tr -> ~ action_of s e)
  /\ (forall k, flag k (status_file w) = true ->
                flag k (status_file w') = true)
  /\ (is_ret r ->
      forall s, flag (stage_key s) (status_file w) = false ->
                on_path s tr -> Exists (action_of s) tr).
Proof.
  intros E Run. pose proof (main_sound w d E) as Hs. rewrite Run in Hs.
  destruct Hs as (_ & Mo & _ & _ & Re & _). split; [|split].
  - intros s Hf e He Hact. rewrite (Re e s He Hact) in Hf. discriminate.
  - exact Mo.
  - intros Hr s Hf Hpath.
    pose proof (main_executed s w d E Hf) as Hx. rewrite Run in Hx. auto.
Qed.

(** C6. [is_katello_satelite] answers [True] exactly when both of its
    package queries return 0, and [False] as soon as one of them does not;
    and in a run of [main] an action of the agent-removal body only ever
    comes after both queries succeeded, one right after the other: when
    the detection is negative the removal body is not entered, whatever
    its key says. *)
Theorem conflicting_agent_detection w :
  (exists b w1 t1,
      is_katello_satelite w = (Ret b, w1, t1)
      /\ status_file w1 = status_file w
      /\ (b = true <->
          t1 = [EvShell agent_query_cmd 0; EvShell detect_cmd 0])
      /\ (b = false <->
          exists rc, rc <> 0
                     /\ (t1 = [EvShell agent_query_cmd rc]
                         \/ t1 = [EvShell agent_query_cmd 0;
                                  EvShell detect_cmd rc])))
  /\ (forall d r w' tr,
        status_file w = of_document d ->
        main w = (r, w', tr) ->
        forall e, In e tr -> action_of RemoveAgent e ->
          exists pre post,
            tr = pre ++ EvShell agent_query_cmd 0 :: EvShell detect_cmd 0 :: post
            /\ In e post).
Proof.
  split.
  - rewrite is_katello_satelite_run.
    destruct (run_shell agent_query_cmd (host w)) as [[rc1 out1] h1].
    destruct (rc1 =? 0) eqn:E1.
    + apply Z.eqb_eq in E1 as ->.
      destruct (run_shell detect_cmd h1) as [[rc2 out2] h2].
      eexists _, _, _. split; [reflexivity|]. split; [reflexivity|].
      destruct (rc2 =? 0) eqn:E2.
      * apply Z.eqb_eq in E2 as ->. split; [tauto|]. split; [discriminate|].
        intros (rc & Hrc & [Hx|Hx]); [discriminate Hx|].
        injection Hx as <-. contradiction.
      * apply Z.eqb_neq in E2. split.
        { split; [discriminate|]. intros [= ->]. contradiction. }
        split; [|reflexivity]. intros _. exists rc2. auto.
    + apply Z.eqb_neq in E1.
      eexists _, _, _. split; [reflexivity|]. split; [reflexivity|]. split.
      * split; [discriminate|]. intros [=].
      * split; [|reflexivity]. intros _. exists rc1. auto.
  - intros d r w' tr E Run e He Hact.
    pose proof (main_agent_guarded w d E) as Hg. rewrite Run in Hg. eauto.
Qed.

(** ** The operations of the selected boot branch *)


















(** *** Regeneration on the selected file only *)








(** * Further properties of the script *)

(** ** The status store as a set of keys *)

Lemma mark_mark_comm k1 k2 d :
  mark k1 (mark k2 (of_document d)) = mark k2 (mark k1 (of_document d)).
Proof.
  destruct (decide (k1 = k2)) as [->|Hne]; [reflexivity|].
  destruct d; simpl; f_equal; apply insert_insert_ne; congruence.
Qed.

Lemma set_twice_run k1 k2 w d :
  status_file w = of_document d ->
  (set_successful_stage_status k1;; set_successful_stage_status k2) w
  = (Ret tt, mkWorld (mark k2 (mark k1 (status_file w))) (host w), []).
Proof.
  intros E.
  rewrite (bind_ret_run _ _ _ _ _ _
             (set_successful_stage_status_readable k1 w d E)).
  rewrite E. destruct (mark_readable k1 d) as [m Em].
  rewrite (set_successful_stage_status_readable k2 _ (Some m))
    by (simpl; exact Em).
  reflexivity.
Qed.

(** X1. Marking stages behaves like adding to a set: on a readable status
    document, marking the same stage twice leaves the same document as
    marking it once, and marking two stages in either order leaves the
    same document. *)
Theorem set_successful_stage_status_as_set (X Y : string) w d :
  status_file w = of_document d ->
  (set_successful_stage_status X;; set_successful_stage_status X) w
  = set_successful_stage_status X w
  /\ (set_successful_stage_status X;; set_successful_stage_status Y) w
     = (set_successful_stage_status Y;; set_successful_stage_status X) w.
Proof.
  intros E. split.
  - rewrite (set_twice_run X X w d E).
    rewrite (set_successful_stage_status_readable X w d E).
    rewrite E, mark_idempotent. reflexivity.
  - rewrite (set_twice_run X Y w d E), (set_twice_run Y X w d E).
    rewrite E, mark_mark_comm. reflexivity.
Qed.

(** ** An unreadable status file *)

Lemma guarded_unreadable k (body : M Host unit) w :
  status_file w = NotJson ->
  (done <- get_stage_status k;; if done then ret tt else body) w
  = (Raise ValueError, w, []).
Proof.
  intros E. apply bind_raise_run. apply get_stage_status_unreadable. exact E.
Qed.

(** X2. When the status file exists but does not hold JSON, nothing
    works and nothing is overwritten: [main] raises [ValueError] at its
    first check without a single call into the host, every stage function
    raises at its guard, and [set_successful_stage_status] raises before
    it opens the file for writing; the file stays as it is. *)
Theorem unreadable_status_stops_everything w :
  status_file w = NotJson ->
  main w = (Raise ValueError, w, [])
  /\ (forall s p, stage_fun s p w = (Raise ValueError, w, []))
  /\ (forall k, set_successful_stage_status k w = (Raise ValueError, w, [])).
Proof.
  intros E. split; [|split].
  - unfold main. apply bind_raise_run. unfold is_conversion_completed.
    apply bind_raise_run. apply get_stage_status_unreadable. exact E.
  - intros s p. destruct s; apply guarded_unreadable; exact E.
  - intros k. destruct w as [f h]. simpl in E. subst f. reflexivity.
Qed.

(** ** The privilege check *)

(** X3. Run by a user who is not root, on a host not yet migrated, [main]
    stops at the privilege check: it asks for the effective user id, no
    stage runs and the status document is untouched. When the log file can
    be opened it logs one line and exits with code 0. When it cannot, the
    usual case for such a user, [get_logger] raises [IOError] at that
    line: nothing is logged and the process ends with exit status 1. *)
Theorem not_root_stops_at_privilege_check w d :
  status_file w = of_document d ->
  flag "completed" (status_file w) = false ->
  os_geteuid (host w) <> 0 ->
  (logging_FileHandler (host w) = true ->
   main w
   = (Exit 0, w,
      [EvGeteuid (os_geteuid (host w));
       EvLog INFO "This script should be run under any sudo user" []]))
  /\ (logging_FileHandler (host w) = false ->
      main w = (Raise IOError, w, [EvGeteuid (os_geteuid (host w))])
      /\ exit_code (fst (fst (main w))) = 1).
Proof.
  intros E Hc Hroot. unfold main.
  rewrite (bind_ret_run _ _ _ _ _ _ (is_conversion_completed_pending w d E Hc)).
  assert (Run : is_run_under_root w
                = if logging_FileHandler (host w)
                  then (Exit 0, w,
                        [EvGeteuid (os_geteuid (host w));
                         EvLog INFO
                               "This script should be run under any sudo user"
                               []])
                  else (Raise IOError, w, [EvGeteuid (os_geteuid (host w))])).
  { unfold is_run_under_root. unfold bind at 1. unfold geteuid.
    apply Z.eqb_neq in Hroot. rewrite Hroot. cbn [negb]. cbv iota.
    rewrite log_exit_run.
    destruct (logging_FileHandler (host w)); reflexivity. }
  split; intros Hl; rewrite Hl in Run.
  - rewrite (bind_exit_run _ _ _ _ _ _ Run). reflexivity.
  - rewrite (bind_raise_run _ _ _ _ _ _ Run). split; reflexivity.
Qed.

(** ** Edge cases of the OS identity probe *)

(** X4. When the platform reports an empty distribution name,
    [get_os_version_and_name] returns [(0, 0, '')] without looking at the
    version string, and [main] (run as root, host not migrated, OS check
    not yet recorded) treats the host as unsupported: it exits with code 0
    right after the probe. *)
Theorem unknown_distribution_is_unsupported w d os_version id :
  status_file w = of_document d ->
  flag "completed" (status_file w) = false ->
  flag "check_supported_os" (status_file w) = false ->
  os_geteuid (host w) = 0 ->
  platform_dist (host w) = ("", os_version, id) ->
  get_os_version_and_name w = (Ret (0, 0, ""), w, [EvDist "" os_version])
  /\ exists msg args,
      main w
      = (Exit 0, w, [EvGeteuid 0; EvDist "" os_version; EvLog INFO msg args]).
Proof.
  intros E Hc Hf Hroot Hd.
  assert (Hos : get_os_version_and_name w
                = (Ret (0, 0, ""), w, [EvDist "" os_version])).
  { unfold get_os_version_and_name, bind, dist. rewrite Hd. reflexivity. }
  split; [exact Hos|].
  destruct (main_past_entry w d E Hc Hroot) as [rest Hmain].
  destruct (check_supported_os_run w d _ _ _ E Hf Hos) as (msg1 & msg2 & Hrun).
  simpl in Hrun. rewrite (root_opens_log _ Hroot) in Hrun.
  rewrite Hmain, (bind_exit_run _ _ _ _ _ _ Hrun). eauto.
Qed.

(** X5. When the distribution has a name but its version string has
    fewer than three characters, [get_os_version_and_name] raises instead
    of returning, so [main] (run as root, host not migrated, OS check not
    yet recorded) dies with an uncaught exception, exit status 1, instead
    of the clean exit for an unsupported host. *)
Theorem short_version_string_raises w d os_name os_version id :
  platform_dist (host w) = (os_name, os_version, id) ->
  os_name <> "" ->
  (String.length os_version < 3)%nat ->
  exists x,
    get_os_version_and_name w = (Raise x, w, [EvDist os_name os_version])
    /\ (status_file w = of_document d ->
        flag "completed" (status_file w) = false ->
        flag "check_supported_os" (status_file w) = false ->
        os_geteuid (host w) = 0 ->
        main w = (Raise x, w, [EvGeteuid 0; EvDist os_name os_version])
        /\ exit_code (fst (fst (main w))) = 1).
Proof.
  intros Hd Hne Hlen.
  pose proof (get_os_version_and_name_run w _ _ _ Hd Hne) as Run.
  assert (H2 : Py.index os_version 2 = None).
  { destruct os_version as [|a [|b [|c v]]]; simpl in *; try reflexivity; lia. }
  rewrite H2 in Run.
  assert (Hx : exists x, get_os_version_and_name w
                         = (Raise x, w, [EvDist os_name os_version])).
  { rewrite Run. destruct (Py.index os_version 0) as [c0|]; [|eauto].
    destruct (Py.int_of_char c0); eauto. }
  destruct Hx as [x Hx]. exists x. split; [exact Hx|].
  intros E Hc Hf Hroot.
  destruct (main_past_entry w d E Hc Hroot) as [rest Hmain].
  destruct (check_supported_os_run w d _ _ _ E Hf Hx) as (msg1 & msg2 & Hrun).
  simpl in Hrun.
  assert (Hm : main w = (Raise x, w, [EvGeteuid 0; EvDist os_name os_version])).
  { rewrite Hmain, (bind_raise_run _ _ _ _ _ _ Hrun). reflexivity. }
  split; [exact Hm|]. rewrite Hm. reflexivity.
Qed.

(** ** A stage is marked exactly when its function returns *)

Lemma guarded_stage_run S s (body : M Host unit) w d r w' tr :
  ok_tail S (stage_key s) body ->
  status_file w = of_document d ->
  (done <- get_stage_status (stage_key s);; if done then ret tt else body) w
  = (r, w', tr) ->
  (flag (stage_key s) (status_file w) = true -> (r, w', tr) = (Ret tt, w, []))
  /\ (flag (stage_key s) (status_file w) = false ->
      (is_ret r -> status_file w' = mark (stage_key s) (status_file w))
      /\ (~ is_ret r -> status_file w' = status_file w)).
Proof.
  intros Hb E.
  rewrite (bind_ret_run _ _ _ _ _ _ (get_stage_status_readable _ w d E)).
  destruct (flag (stage_key s) (status_file w)).
  - simpl. intros <-. split; [reflexivity|discriminate].
  - specialize (Hb w d E). destruct (body w) as [[r0 w0] t0].
    destruct Hb as (M2 & E2 & _). simpl. intros [= <- <- <-].
    split; [discriminate|auto].
Qed.

Lemma stage_fun_run s p w d r w' tr :
  status_file w = of_document d ->
  stage_fun s p w = (r, w', tr) ->
  (flag (stage_key s) (status_file w) = true -> (r, w', tr) = (Ret tt, w, []))
  /\ (flag (stage_key s) (status_file w) = false ->
      (is_ret r -> status_file w' = mark (stage_key s) (status_file w))
      /\ (~ is_ret r -> status_file w' = status_file w)).
Proof.
  destruct s; simpl stage_fun.
  - unfold check_supported_os, get_os_version_and_name.
    apply (guarded_stage_run [Body CheckOS] CheckOS). repeat ok_step.
  - unfold remove_redhat_packages.
    apply (guarded_stage_run [Body RemoveRedhat] RemoveRedhat). repeat ok_step.
  - unfold remove_not_needed_dirs.
    apply (guarded_stage_run [Body RemoveDirs] RemoveDirs). repeat ok_step.
  - unfold remove_katello_satellite_packages.
    apply (guarded_stage_run [AgentQuery; Body RemoveAgent] RemoveAgent).
    repeat ok_step.
  - unfold install_centos_packages, installed_pkgs.
    apply (guarded_stage_run [Body InstallCentos] InstallCentos).
    repeat ok_step.
  - unfold update_the_system.
    apply (guarded_stage_run [Body UpdateSystem] UpdateSystem). repeat ok_step.
  - unfold synchronization_of_distribution.
    apply (guarded_stage_run [Body SyncDistro] SyncDistro). repeat ok_step.
  - unfold recreate_grub_config.
    apply (guarded_stage_run [Body RecreateGrub] RecreateGrub). repeat ok_step.
  - unfold reinstall_secure_boot_related_packages,
      get_pkgs_related_to_secure_boot,
      get_kernel_pkg_name_for_default_boot_record.
    apply (guarded_stage_run [Body ReinstallSecureBoot] ReinstallSecureBoot).
    repeat ok_step.
  - unfold add_boot_record_by_efibootmgr.
    apply (guarded_stage_run [Body AddBootRecord] AddBootRecord).
    repeat ok_step.
  - unfold check_and_set_default_grub_record.
    apply (guarded_stage_run [Body DefaultGrubRecord] DefaultGrubRecord).
    repeat ok_step.
Qed.

(** X6. Every stage function, on a readable status document: with its
    key already true it returns at once and touches nothing; with its key
    false, the key is true afterwards exactly when the function returned,
    a return leaves the document with just that key added, and any other
    way out (an [exit], an uncaught exception) leaves the document exactly
    as it was. No stage is marked on partial success. *)
Theorem stage_marked_iff_returned s (grub_config_path : string) w d r w' tr :
  status_file w = of_document d ->
  stage_fun s grub_config_path w = (r, w', tr) ->
  (flag (stage_key s) (status_file w) = true -> (r, w', tr) = (Ret tt, w, []))
  /\ (flag (stage_key s) (status_file w) = false ->
      (is_ret r <-> flag (stage_key s) (status_file w') = true)
      /\ (is_ret r -> status_file w' = mark (stage_key s) (status_file w))
      /\ (~ is_ret r -> status_file w' = status_file w)).
Proof.
  intros E Run. destruct (stage_fun_run s _ w d r w' tr E Run) as [Skip Body].
  split; [exact Skip|]. intros Hf. destruct (Body Hf) as [Hret Hnot].
  split; [|auto]. split.
  - intros Hr. rewrite (Hret Hr), E. apply flag_mark_eq.
  - intros Hfl. destruct r; simpl; [exact I| |];
      rewrite Hnot in Hfl by (simpl; tauto); congruence.
Qed.

Lemma stage_fun_marks s p : marks (stage_key s) (stage_fun s p).
Proof.
  intros w d E. destruct (stage_fun s p w) as [[r w'] tr] eqn:Run.
  destruct (stage_fun_run s p w d r w' tr E Run) as [Skip Body].
  destruct (flag (stage_key s) (status_file w)) eqn:Hf.
  - injection (Skip eq_refl) as -> -> ->. auto.
  - intros Hr. rewrite (proj1 (Body eq_refl) Hr), E. apply flag_mark_eq.
Qed.

(** ** Completion *)

Lemma completes_later S K {A B} (m : M Host A) (f : A -> M Host B) :
  sound S K m -> "completed" ∉ K ->
  (forall a, completes (f a)) -> completes (bind m f).
Proof.
  intros Hm HK Hf w d E. unfold bind. specialize (Hm w d E).
  destruct (m w) as [[r1 w1] t1].
  destruct Hm as ([d1 W1] & Mo & Fr & _).
  assert (Hsame : flag "completed" (status_file w1) = true ->
                  flag "completed" (status_file w) = true).
  { intros F1. destruct (Fr _ F1) as [F|F]; [exact F|contradiction]. }
  destruct r1 as [a|c|x]; try (simpl; split; [tauto|auto]).
  specialize (Hf a w1 d1 W1). destruct (f a w1) as [[r2 w2] t2].
  destruct Hf as [Hr Hn]. split; [exact Hr|]. intros Hfl.
  destruct (Hn Hfl) as [F1|Hx]; [left; auto|right; exact Hx].
Qed.

Lemma completes_end :
  completes (set_successful_stage_status "completed";;
             log INFO "The system is migrated to CentOS 7" [] : M Host unit).
Proof.
  intros w d E.
  rewrite (bind_ret_run _ _ _ _ _ _
             (set_successful_stage_status_readable _ w d E)).
  rewrite log_run. cbn [host].
  destruct (logging_FileHandler (host w)); simpl; rewrite E.
  - split; [intros _; apply flag_mark_eq|tauto].
  - split; [intros []|]. intros _. right. right. reflexivity.
Qed.

Ltac completes_step L :=
  eapply completes_later; [apply L | key_absent | intros ?].

Lemma main_completes : completes (main : M Host unit).
Proof.
  rewrite main_parts.
  completes_step is_conversion_completed_sound.
  completes_step is_run_under_root_sound.
  completes_step check_supported_os_sound.
  completes_step remove_redhat_packages_sound.
  completes_step remove_not_needed_dirs_sound.
  completes_step is_katello_satelite_sound.
  completes_step agent_step_sound.
  unfold install_onwards.
  completes_step install_centos_packages_sound.
  completes_step update_the_system_sound.
  completes_step synchronization_of_distribution_sound.
  completes_step is_efi_system_sound.
  completes_step boot_branch_sound.
  unfold finish.
  completes_step check_and_set_default_grub_record_sound.
  apply completes_end.
Qed.

Lemma flag_true_document k f :
  flag k f = true -> exists m, f = JsonObject m /\ m !! k = Some true.
Proof.
  destruct f as [|m|]; simpl; try discriminate.
  destruct (m !! k) as [[|]|] eqn:E; simpl; try discriminate. eauto.
Qed.

(** X7. On a host not yet migrated, with a readable status document:
    a run of [main] that returns leaves [completed] true, and a run that
    leaves [completed] true has returned or has raised [IOError] (the
    marker is written before the last line is logged); so a run that stops
    with an exit or any other exception leaves [completed] false. Once
    [completed] is true, the next run, whatever the host then looks like,
    stops at its first check without changing anything: it logs one line
    and exits with code 0 when the log file can be opened, and raises
    [IOError] when it cannot. *)
Theorem completed_marks_the_end_of_a_run w d r w' tr :
  status_file w = of_document d ->
  flag "completed" (status_file w) = false ->
  main w = (r, w', tr) ->
  (is_ret r -> flag "completed" (status_file w') = true)
  /\ (flag "completed" (status_file w') = true ->
      is_ret r \/ r = Raise IOError)
  /\ (flag "completed" (status_file w') = true ->
      forall h' : Host,
        main (mkWorld (status_file w') h')
        = if logging_FileHandler h'
          then (Exit 0, mkWorld (status_file w') h',
                [EvLog INFO "The system is already migrated to CentOS 7" []])
          else (Raise IOError, mkWorld (status_file w') h', [])).
Proof.
  intros E Hc Run. pose proof (main_completes w d E) as Hm.
  rewrite Run in Hm. destruct Hm as [Hr Hn].
  split; [exact Hr|]. split.
  - intros Hfl. destruct (Hn Hfl) as [F|Hx]; [congruence|exact Hx].
  - intros Hfl h'.
    destruct (flag_true_document _ _ Hfl) as (m & Em & Hm).
    apply (main_migrated (mkWorld (status_file w') h') m); assumption.
Qed.

(** ** The order of the stages *)

Lemma events_within s' S K {A} (m : M Host A) w d :
  sound S K m ->
  (forall s, Body s ∈ S -> (stage_position s <= stage_position s')%nat) ->
  status_file w = of_document d ->
  forall e s, In e (snd (m w)) -> action_of s e ->
              (stage_position s <= stage_position s')%nat.
Proof.
  intros Hm HS E. specialize (Hm w d E). destruct (m w) as [[r w'] tr].
  destruct Hm as (_ & _ & _ & Al & _). rewrite Forall_forall in Al.
  intros e s He Hact. apply HS.
  apply (Al e); [apply list_elem_of_In; exact He|exact Hact].
Qed.

Lemma blocked_sound s' S K {A} (m : M Host A) :
  sound S K m ->
  (forall s, Body s ∈ S -> (stage_position s <= stage_position s')%nat) ->
  blocked s' m.
Proof.
  intros Hm HS w d E. pose proof (events_within s' S K m w d Hm HS E) as Hw.
  destruct (m w) as [[r w'] tr]. intros _. exact Hw.
Qed.

Lemma blocked_before s' S K {A B} (m : M Host A) (f : A -> M Host B) :
  sound S K m ->
  (forall s, Body s ∈ S -> (stage_position s <= stage_position s')%nat) ->
  (forall a, blocked s' (f a)) -> blocked s' (bind m f).
Proof.
  intros Hm HS Hf w d E. unfold bind.
  pose proof (events_within s' S K m w d Hm HS E) as H1.
  specialize (Hm w d E). destruct (m w) as [[r1 w1] t1].
  destruct Hm as ([d1 W1] & _). simpl in H1.
  destruct r1 as [a|c|x]; try (intros _; exact H1).
  specialize (Hf a w1 d1 W1). destruct (f a w1) as [[r2 w2] t2].
  intros Hfl e s He Hact. apply in_app_or in He as [He|He]; eauto.
Qed.

Lemma blocked_done s' S K S' K' {A B} (m : M Host A) (f : A -> M Host B) :
  blocked s' m -> marks (stage_key s') m -> sound S K m ->
  (forall a, sound S' K' (f a)) -> blocked s' (bind m f).
Proof.
  intros Hb Hmk Hm Hf w d E. unfold bind.
  specialize (Hb w d E). specialize (Hmk w d E). specialize (Hm w d E).
  destruct (m w) as [[r1 w1] t1]. destruct Hm as ([d1 W1] & _).
  destruct r1 as [a|c|x]; try exact Hb.
  specialize (Hf a w1 d1 W1). destruct (f a w1) as [[r2 w2] t2].
  destruct Hf as (_ & Mo & _). intros Hfl.
  rewrite (Mo _ (Hmk I)) in Hfl. discriminate.
Qed.

Lemma marks_then k S K S' K' {A B} (m : M Host A) (f : A -> M Host B) :
  marks k m -> sound S K m -> (forall a, sound S' K' (f a)) ->
  marks k (bind m f).
Proof.
  intros Hmk Hm Hf w d E. unfold bind.
  specialize (Hmk w d E). specialize (Hm w d E).
  destruct (m w) as [[r1 w1] t1]. destruct Hm as ([d1 W1] & _).
  destruct r1 as [a|c|x]; try (intros Hr; exact (False_ind _ Hr)).
  specialize (Hf a w1 d1 W1). destruct (f a w1) as [[r2 w2] t2].
  destruct Hf as (_ & Mo & _). intros _. apply Mo. apply Hmk. exact I.
Qed.

(** Soundness of any composition of the pieces of [main]. *)
Ltac sound_piece :=
  first
    [ use_sound is_conversion_completed_sound
    | use_sound is_run_under_root_sound
    | use_sound check_supported_os_sound
    | use_sound remove_redhat_packages_sound
    | use_sound remove_not_needed_dirs_sound
    | use_sound is_katello_satelite_sound
    | use_sound agent_step_sound
    | use_sound remove_katello_satellite_packages_sound
    | use_sound install_onwards_sound
    | use_sound install_centos_packages_sound
    | use_sound update_the_system_sound
    | use_sound synchronization_of_distribution_sound
    | use_sound is_efi_system_sound
    | use_sound boot_finish_sound
    | use_sound boot_branch_sound
    | use_sound recreate_grub_config_sound
    | use_sound reinstall_secure_boot_related_packages_sound
    | use_sound add_boot_record_by_efibootmgr_sound
    | use_sound finish_sound
    | use_sound check_and_set_default_grub_record_sound
    | use_sound mark_completed_sound
    | apply ret_sound ].

Ltac sound_auto :=
  intros;
  first [sound_piece | apply sound_bind; [sound_piece|sound_auto]].

Ltac within :=
  let s := fresh "s" in
  let Hs := fresh "Hs" in
  intros s Hs;
  repeat (apply elem_of_cons in Hs as [Hs|Hs];
          [first [discriminate Hs
                 |injection Hs as ->; cbn; lia]|]);
  apply elem_of_nil in Hs; contradiction.

Ltac before_step L := eapply blocked_before; [apply L | within | intros ?].

(** The stage function [L_sound] is the stage [s'] itself. *)
Ltac done_step L_sound Lmarks :=
  eapply (blocked_done _ _ _ all_sites all_keys);
  [eapply blocked_sound; [apply L_sound|within]
  |exact Lmarks
  |apply L_sound
  |sound_auto].

Lemma boot_branch_marks efi :
  marks (stage_key RecreateGrub) (boot_branch efi : M Host unit).
Proof.
  unfold boot_branch. destruct efi.
  - eapply (marks_then _ _ _ all_sites all_keys);
      [exact (stage_fun_marks RecreateGrub _)
      |apply recreate_grub_config_sound|sound_auto].
  - exact (stage_fun_marks RecreateGrub _).
Qed.

Lemma boot_branch_blocked efi :
  blocked RecreateGrub (boot_branch efi : M Host unit).
Proof.
  unfold boot_branch. destruct efi.
  - done_step recreate_grub_config_sound (stage_fun_marks RecreateGrub efi_grub_cfg).
  - eapply blocked_sound; [apply recreate_grub_config_sound|within].
Qed.

Lemma main_blocked s' : always_run s' = true -> blocked s' (main : M Host unit).
Proof.
  intros Hrun. rewrite main_parts. destruct s'; try discriminate Hrun.
  - before_step is_conversion_completed_sound.
    before_step is_run_under_root_sound.
    done_step check_supported_os_sound (stage_fun_marks CheckOS "").
  - before_step is_conversion_completed_sound.
    before_step is_run_under_root_sound.
    before_step check_supported_os_sound.
    done_step remove_redhat_packages_sound (stage_fun_marks RemoveRedhat "").
  - before_step is_conversion_completed_sound.
    before_step is_run_under_root_sound.
    before_step check_supported_os_sound.
    before_step remove_redhat_packages_sound.
    done_step remove_not_needed_dirs_sound (stage_fun_marks RemoveDirs "").
  - before_step is_conversion_completed_sound.
    before_step is_run_under_root_sound.
    before_step check_supported_os_sound.
    before_step remove_redhat_packages_sound.
    before_step remove_not_needed_dirs_sound.
    before_step is_katello_satelite_sound.
    before_step agent_step_sound.
    unfold install_onwards.
    done_step install_centos_packages_sound (stage_fun_marks InstallCentos "").
  - before_step is_conversion_completed_sound.
    before_step is_run_under_root_sound.
    before_step check_supported_os_sound.
    before_step remove_redhat_packages_sound.
    before_step remove_not_needed_dirs_sound.
    before_step is_katello_satelite_sound.
    before_step agent_step_sound.
    unfold install_onwards.
    before_step install_centos_packages_sound.
    done_step update_the_system_sound (stage_fun_marks UpdateSystem "").
  - before_step is_conversion_completed_sound.
    before_step is_run_under_root_sound.
    before_step check_supported_os_sound.
    before_step remove_redhat_packages_sound.
    before_step remove_not_needed_dirs_sound.
    before_step is_katello_satelite_sound.
    before_step agent_step_sound.
    unfold install_onwards.
    before_step install_centos_packages_sound.
    before_step update_the_system_sound.
    done_step synchronization_of_distribution_sound
              (stage_fun_marks SyncDistro "").
  - before_step is_conversion_completed_sound.
    before_step is_run_under_root_sound.
    before_step check_supported_os_sound.
    before_step remove_redhat_packages_sound.
    before_step remove_not_needed_dirs_sound.
    before_step is_katello_satelite_sound.
    before_step agent_step_sound.
    unfold install_onwards.
    before_step install_centos_packages_sound.
    before_step update_the_system_sound.
    before_step synchronization_of_distribution_sound.
    before_step is_efi_system_sound.
    eapply (blocked_done _ _ _ all_sites all_keys);
      [apply boot_branch_blocked|apply boot_branch_marks
      |apply boot_branch_sound|sound_auto].
  - eapply blocked_sound; [apply main_sound|].
    intros s _. destruct s; cbn; lia.
Qed.

(** X8. [main] never runs a stage past an unfinished one: if, after a run
    on a readable status document, the key of a stage that lies on every
    path is still false, then the run performed no action of any stage
    placed after it. Put the other way round, an action of a stage means
    that every always-run stage in front of it is marked complete. *)
Theorem stages_run_in_order w d r w' tr :
  status_file w = of_document d ->
  main w = (r, w', tr) ->
  forall s' s,
    always_run s' = true ->
    (stage_position s' < stage_position s)%nat ->
    Exists (action_of s) tr ->
    flag (stage_key s') (status_file w') = true.
Proof.
  intros E Run s' s Hrun Hlt Hex.
  pose proof (main_blocked s' Hrun w d E) as Hb. rewrite Run in Hb.
  destruct (flag (stage_key s') (status_file w')) eqn:Hf; [reflexivity|].
  apply List.Exists_exists in Hex as (e & He & Hact).
  pose proof (Hb eq_refl e s He Hact). lia.
Qed.

(** ** Destructive calls and the checks in front of them *)

Lemma each_guarded_app ok seen t1 t2 :
  each_guarded ok seen (t1 ++ t2)
  = each_guarded ok seen t1 && each_guarded ok (rev t1 ++ seen) t2.
Proof.
  revert seen. induction t1 as [|e t1 IH]; intros seen; simpl; [reflexivity|].
  rewrite IH. rewrite <- (app_assoc (rev t1) [e] seen). simpl.
  rewrite andb_assoc. reflexivity.
Qed.

Lemma each_guarded_split ok seen pre e post :
  each_guarded ok seen (pre ++ e :: post) = true ->
  ok (rev pre ++ seen) e = true.
Proof.
  rewrite each_guarded_app. simpl. intros Hg.
  apply andb_true_iff in Hg as [_ Hg]. apply andb_true_iff in Hg as [Hg _].
  exact Hg.
Qed.

Lemma each_guarded_all ok tr :
  (forall e, In e tr -> forall seen, ok seen e = true) ->
  forall seen, each_guarded ok seen tr = true.
Proof.
  induction tr as [|e tr IH]; intros Hall seen; simpl; [reflexivity|].
  rewrite (Hall e (or_introl eq_refl)). simpl.
  apply IH. intros e' He'. apply Hall. right. exact He'.
Qed.

Lemma rev_two {A} (pre : list A) a b rest :
  rev pre = a :: b :: rest -> pre = rev rest ++ [b; a].
Proof.
  intros Hr. rewrite <- (rev_involutive pre), Hr. simpl.
  rewrite <- app_assoc. reflexivity.
Qed.

Lemma rev_one {A} (pre : list A) a rest :
  rev pre = a :: rest -> pre = rev rest ++ [a].
Proof. intros Hr. rewrite <- (rev_involutive pre), Hr. reflexivity. Qed.

Lemma respects_bind ok {A B} (m : M Host A) (f : A -> M Host B) :
  respects ok m -> (forall a, respects ok (f a)) -> respects ok (bind m f).
Proof.
  intros Hm Hf w seen. unfold bind. specialize (Hm w seen).
  destruct (m w) as [[[a|c|x] w1] t1]; simpl in *; try exact Hm.
  specialize (Hf a w1 (rev t1 ++ seen)).
  destruct (f a w1) as [[r2 w2] t2]. simpl in *.
  rewrite each_guarded_app, Hm, Hf. reflexivity.
Qed.

Lemma respects_silent ok {A} (m : M Host A) :
  (forall w, snd (m w) = []) -> respects ok m.
Proof. intros Hm w seen. rewrite Hm. reflexivity. Qed.

Lemma get_stage_status_silent k (w : World Host) :
  snd (get_stage_status k w) = [].
Proof. destruct w as [[| |] h]; reflexivity. Qed.

Lemma set_successful_stage_status_silent k (w : World Host) :
  snd (set_successful_stage_status k w) = [].
Proof. destruct w as [[| |] h]; reflexivity. Qed.

Lemma respects_for_each ok {A} (l : list A) (body : A -> M Host unit) :
  (forall x, In x l -> respects ok (body x)) -> respects ok (for_each l body).
Proof.
  induction l as [|x l IH]; intros Hb; simpl.
  - intros w seen. reflexivity.
  - apply respects_bind; [apply Hb; left; reflexivity|intros _].
    apply IH. intros y Hy. apply Hb. right. exact Hy.
Qed.

Lemma respects_stage ok k (body : M Host unit) :
  respects ok body ->
  respects ok (done <- get_stage_status k;; if done then ret tt else body).
Proof.
  intros Hb. apply respects_bind.
  - apply respects_silent, get_stage_status_silent.
  - intros [|]; [intros w seen; reflexivity|exact Hb].
Qed.

Lemma respects_log ok lvl msg args :
  (forall seen, ok seen (EvLog lvl msg args) = true) ->
  respects ok (log lvl msg args : M Host unit).
Proof.
  intros Hok w seen. rewrite log_run.
  destruct (logging_FileHandler (host w)); simpl; [rewrite Hok|]; reflexivity.
Qed.

Lemma respects_is_readable ok {A} (m : M Host A) :
  respects ok m -> respects_readable ok m.
Proof. intros Hm w d _ seen. apply Hm. Qed.

Lemma respects_off_site ok (sites S : list site) K {A} (m : M Host A) :
  sound S K m ->
  (forall e seen, (forall x, x ∈ sites -> site_of e <> Some x) ->
                  ok seen e = true) ->
  (forall x, x ∈ sites -> x ∉ S) ->
  respects_readable ok m.
Proof.
  intros Hm Hok Hoff w d E. specialize (Hm w d E).
  destruct (m w) as [[r w'] tr]. destruct Hm as (_ & _ & _ & Al & _).
  simpl. apply each_guarded_all. intros e He seen. apply Hok.
  intros x Hx Hsite. apply (Hoff x Hx).
  rewrite Forall_forall in Al. apply (Al e); [|exact Hsite].
  apply list_elem_of_In. exact He.
Qed.

Lemma respects_readable_bind ok S K {A B} (m : M Host A) (f : A -> M Host B) :
  sound S K m -> respects_readable ok m ->
  (forall a, respects_readable ok (f a)) ->
  respects_readable ok (bind m f).
Proof.
  intros Hs Hm Hf w d E seen. unfold bind.
  specialize (Hm w d E seen). specialize (Hs w d E).
  destruct (m w) as [[[a|c|x] w1] t1]; simpl in *; try exact Hm.
  destruct Hs as ([d1 W1] & _).
  specialize (Hf a w1 d1 W1 (rev t1 ++ seen)).
  destruct (f a w1) as [[r2 w2] t2]. simpl in *.
  rewrite each_guarded_app, Hm, Hf. reflexivity.
Qed.

Lemma stage_fun_sound s p :
  sound [AgentQuery; Body s] [stage_key s] (stage_fun s p).
Proof.
  destruct s; simpl stage_fun;
    first [ apply remove_katello_satellite_packages_sound
          | weaken_sound check_supported_os_sound
          | weaken_sound remove_redhat_packages_sound
          | weaken_sound remove_not_needed_dirs_sound
          | weaken_sound install_centos_packages_sound
          | weaken_sound update_the_system_sound
          | weaken_sound synchronization_of_distribution_sound
          | weaken_sound recreate_grub_config_sound
          | weaken_sound reinstall_secure_boot_related_packages_sound
          | weaken_sound add_boot_record_by_efibootmgr_sound
          | weaken_sound check_and_set_default_grub_record_sound ].
Qed.

Section Guard.

Variable ok : list event -> event -> bool.
Variable sites : list site.

(** Only events from [sites] can fail [ok], [sites] are stage bodies, and
    those stages respect [ok]. *)
Hypothesis ok_off_site :
  forall e seen, (forall x, x ∈ sites -> site_of e <> Some x) ->
                 ok seen e = true.
Hypothesis sites_are_bodies : forall x, x ∈ sites -> exists s, x = Body s.
Hypothesis ok_in_stage :
  forall s p, Body s ∈ sites -> respects ok (stage_fun s p).

Lemma off_site_respects S K {A} (m : M Host A) :
  sound S K m -> (forall s, Body s ∉ S) -> respects_readable ok m.
Proof.
  intros Hm Hno. apply (respects_off_site ok sites S K m Hm ok_off_site).
  intros x Hx. destruct (sites_are_bodies x Hx) as [s ->]. apply Hno.
Qed.

Lemma stage_fun_respects s p : respects_readable ok (stage_fun s p).
Proof.
  destruct (decide (Body s ∈ sites)) as [Hin|Hout].
  - apply respects_is_readable, ok_in_stage, Hin.
  - apply (respects_off_site ok sites _ _ _ (stage_fun_sound s p) ok_off_site).
    intros x Hx Hx'. apply elem_of_cons in Hx' as [->|Hx'].
    + destruct (sites_are_bodies _ Hx) as [s' Hs']. discriminate Hs'.
    + apply elem_of_cons in Hx' as [->|Hx']; [exact (Hout Hx)|].
      apply elem_of_nil in Hx'. exact Hx'.
Qed.

Ltac stage_step s p :=
  eapply (respects_readable_bind ok);
  [apply (stage_fun_sound s p)|apply (stage_fun_respects s p)|intros ?].

Ltac plain_step L :=
  eapply (respects_readable_bind ok);
  [apply L|apply (off_site_respects _ _ _ L); no_body|intros ?].

Lemma main_respects : respects_readable ok (main : M Host unit).
Proof.
  rewrite main_parts.
  plain_step is_conversion_completed_sound.
  plain_step is_run_under_root_sound.
  stage_step CheckOS "".
  stage_step RemoveRedhat "".
  stage_step RemoveDirs "".
  plain_step is_katello_satelite_sound.
  eapply (respects_readable_bind ok); [apply agent_step_sound| |intros ?].
  { match goal with katello : bool |- _ => destruct katello end;
      [apply (stage_fun_respects RemoveAgent "")|].
    intros w d _ seen. reflexivity. }
  unfold install_onwards.
  stage_step InstallCentos "".
  stage_step UpdateSystem "".
  stage_step SyncDistro "".
  plain_step is_efi_system_sound.
  eapply (respects_readable_bind ok); [apply boot_branch_sound| |intros ?].
  { unfold boot_branch. match goal with efi : bool |- _ => destruct efi end.
    - stage_step RecreateGrub efi_grub_cfg.
      stage_step ReinstallSecureBoot "".
      apply (stage_fun_respects AddBootRecord "").
    - apply (stage_fun_respects RecreateGrub legacy_grub_cfg). }
  unfold finish.
  stage_step DefaultGrubRecord "".
  plain_step mark_completed_sound.
  apply (off_site_respects [] []); [|no_body].
  apply log_sound. vm_compute. reflexivity.
Qed.

Lemma main_guarded (w : World Host) :
  forall seen, each_guarded ok seen (snd (main w)) = true.
Proof.
  destruct (status_file w) as [|statuses|] eqn:E.
  - apply (main_respects w None E).
  - apply (main_respects w (Some statuses) E).
  - intros seen.
    replace (main w) with (Raise ValueError : Res unit, w, @nil event);
      [reflexivity|].
    symmetry. unfold main. apply bind_raise_run.
    unfold is_conversion_completed. apply bind_raise_run.
    apply get_stage_status_unreadable. exact E.
Qed.

End Guard.

Lemma stage_fun_guarded ok s p :
  respects_readable ok (stage_fun s p) ->
  forall (w : World Host) seen,
    each_guarded ok seen (snd (stage_fun s p w)) = true.
Proof.
  intros Hr w. destruct (status_file w) as [|statuses|] eqn:E.
  - apply (Hr w None E).
  - apply (Hr w (Some statuses) E).
  - intros seen.
    replace (stage_fun s p w) with (Raise ValueError : Res unit, w, @nil event);
      [reflexivity|].
    symmetry. destruct s; apply guarded_unreadable; exact E.
Qed.

(** *** [shutil.rmtree] *)

Lemma remove_not_needed_dirs_respects :
  respects rmtree_guard (remove_not_needed_dirs : M Host unit).
Proof.
  unfold remove_not_needed_dirs. apply respects_stage.
  apply respects_bind; [apply respects_log; reflexivity|intros _].
  apply respects_bind;
    [|intros _; apply respects_silent, set_successful_stage_status_silent].
  apply respects_for_each. intros p Hp w seen.
  unfold path_isdir, path_islink, rmtree, log, emit, ret, get_logger, bind.
  cbv beta.
  destruct Hp as [<-|[<-|[]]];
    (destruct (os_path_isdir _ (host w));
     [destruct (os_path_islink _ (host w))|];
     cbn [andb negb]; cbv beta iota;
     try (destruct (logging_FileHandler (host w)); reflexivity);
     destruct (shutil_rmtree _ (host w)); reflexivity).
Qed.

Lemma rmtree_guard_off_site e seen :
  (forall x, x ∈ [Body RemoveDirs] -> site_of e <> Some x) ->
  rmtree_guard seen e = true.
Proof.
  intros Hoff. destruct e; try reflexivity.
  exfalso. apply (Hoff (Body RemoveDirs)); [set_solver|reflexivity].
Qed.

Lemma one_body s0 x : x ∈ [Body s0] -> exists s, x = Body s.
Proof. intros Hx. apply list_elem_of_singleton in Hx. eauto. Qed.

Lemma rmtree_guarded (m : M Host unit) (w : World Host) :
  entry_point m -> each_guarded rmtree_guard [] (snd (m w)) = true.
Proof.
  assert (Hst : forall s p, Body s ∈ [Body RemoveDirs] ->
                            respects rmtree_guard (stage_fun s p)).
  { intros s p Hs. apply list_elem_of_singleton in Hs. injection Hs as ->.
    apply remove_not_needed_dirs_respects. }
  intros [->|(s & p & ->)].
  - apply (main_guarded rmtree_guard [Body RemoveDirs]
                        rmtree_guard_off_site (one_body RemoveDirs) Hst).
  - apply stage_fun_guarded.
    apply (stage_fun_respects rmtree_guard [Body RemoveDirs]
                              rmtree_guard_off_site (one_body RemoveDirs) Hst).
Qed.

(** X9. Whether [main] runs or a stage function is called on its own,
    [shutil.rmtree] is only ever called on one of the two Red Hat
    directories, and only directly after [os.path.isdir] answered yes and
    [os.path.islink] answered no for that same path: a symbolic link, a
    plain file or any other path is never removed. *)
Theorem rmtree_only_after_checks (m : M Host unit) w r w' tr pre p ok post :
  entry_point m ->
  m w = (r, w', tr) ->
  tr = pre ++ EvRmtree p ok :: post ->
  In p removed_dirs
  /\ exists pre', pre = pre' ++ [EvIsdir p true; EvIslink p false].
Proof.
  intros Hm Run ->. pose proof (rmtree_guarded m w Hm) as Hg.
  rewrite Run in Hg. simpl in Hg. apply each_guarded_split in Hg.
  rewrite app_nil_r in Hg. unfold rmtree_guard in Hg.
  destruct (rev pre) as [|e1 [|e2 rest]] eqn:Hrev; try discriminate Hg;
    [destruct e1 as [| | | | | |q [|]|]; discriminate Hg|].
  destruct e1 as [| | | | | |q [|]|]; try discriminate Hg.
  destruct e2 as [| | | | |r0 [|]| |]; try discriminate Hg.
  apply andb_true_iff in Hg as [Hg Hin].
  apply andb_true_iff in Hg as [Hq Hr].
  apply String.eqb_eq in Hq, Hr. subst q r0.
  split.
  - apply existsb_exists in Hin as (x & Hx & Heq).
    apply String.eqb_eq in Heq. subst x. exact Hx.
  - exists (rev rest). apply rev_two. exact Hrev.
Qed.

(** *** [rpm -e] *)

Lemma has_prefix_split (p str : string) :
  Py.has_prefix p str = true -> exists rest, str = p +^ rest.
Proof.
  revert str. induction p as [|a p IH]; intros str; simpl.
  - intros _. exists str. reflexivity.
  - destruct str as [|b str]; [discriminate|]. intros Hp.
    apply andb_true_iff in Hp as [Hab Hp]. apply Ascii.eqb_eq in Hab. subst b.
    destruct (IH str Hp) as [rest ->]. exists rest. reflexivity.
Qed.

Lemma erase_site cmd :
  Py.has_prefix "rpm -e --nodeps " cmd = true ->
  fst <$> classify cmd = Some (Body RemoveRedhat)
  \/ fst <$> classify cmd = Some (Body RemoveAgent).
Proof.
  intros Hp. destruct (has_prefix_split _ _ Hp) as [rest Hrest].
  assert (E1 : String.eqb cmd "rpm -q python-qpid-proton &> /dev/null" = false)
    by (rewrite Hrest; reflexivity).
  assert (E2 : String.eqb cmd "rpm -q python2-qpid-proton &> /dev/null" = false)
    by (rewrite Hrest; reflexivity).
  assert (E3 : String.eqb cmd "rpm -q katello-agent &> /dev/null" = false)
    by (rewrite Hrest; reflexivity).
  assert (E4 : Py.has_prefix "rpm -q redhat-" cmd = false)
    by (rewrite Hrest; reflexivity).
  unfold classify. rewrite E1, E2, E3, E4, Hp.
  destruct (Py.has_prefix "rpm -e --nodeps redhat-" cmd); [left|right];
    reflexivity.
Qed.

Lemma erase_guard_off_site e seen :
  (forall x, x ∈ [Body RemoveRedhat; Body RemoveAgent] -> site_of e <> Some x) ->
  erase_guard erased_pkgs seen e = true.
Proof.
  intros Hoff. destruct e as [cmd rc| | | | | | |]; try reflexivity.
  unfold erase_guard.
  destruct (Py.has_prefix "rpm -e --nodeps " cmd) eqn:Hp; [|reflexivity].
  exfalso. destruct (erase_site cmd Hp) as [Hs|Hs].
  - apply (Hoff (Body RemoveRedhat)); [set_solver|exact Hs].
  - apply (Hoff (Body RemoveAgent)); [set_solver|exact Hs].
Qed.

Ltac erase_case w seen :=
  cbv beta;
  unfold check_call, check_output, log, emit, ret, exit, get_logger, bind;
  cbv beta;
  destruct (run_shell _ (host w)) as [[?rc ?out] ?h];
  match goal with
  | |- context [?rc =? 0] => destruct (Z.eqb_spec rc 0) as [->|?]
  end;
  cbv beta iota delta [negb host status_file];
  [destruct (run_shell _ _) as [[?rc ?out] ?h];
   match goal with
   | |- context [?rc =? 0] => destruct (rc =? 0)
   end;
   cbv beta iota delta [host status_file];
   destruct (logging_FileHandler _); vm_compute; reflexivity
  |destruct (logging_FileHandler _); vm_compute; reflexivity].

Lemma remove_redhat_packages_respects :
  respects (erase_guard erased_pkgs) (remove_redhat_packages : M Host unit).
Proof.
  unfold remove_redhat_packages. apply respects_stage.
  apply respects_bind; [apply respects_log; reflexivity|intros _].
  apply respects_bind;
    [|intros _; apply respects_silent, set_successful_stage_status_silent].
  apply respects_for_each. intros p Hp w seen.
  destruct Hp as [<-|[<-|[<-|[]]]]; erase_case w seen.
Qed.

Lemma remove_katello_satellite_packages_respects :
  respects (erase_guard erased_pkgs)
           (remove_katello_satellite_packages : M Host unit).
Proof.
  unfold remove_katello_satellite_packages. apply respects_stage.
  apply respects_bind; [apply respects_log; reflexivity|intros _].
  apply respects_bind;
    [|intros _; apply respects_silent, set_successful_stage_status_silent].
  apply respects_for_each. intros p Hp w seen.
  destruct Hp as [<-|[<-|[]]]; erase_case w seen.
Qed.

Lemma removal_bodies x :
  x ∈ [Body RemoveRedhat; Body RemoveAgent] -> exists s, x = Body s.
Proof.
  intros Hx. apply elem_of_cons in Hx as [->|Hx]; [eauto|].
  apply list_elem_of_singleton in Hx. eauto.
Qed.

Lemma erase_guarded (m : M Host unit) (w : World Host) :
  entry_point m -> each_guarded (erase_guard erased_pkgs) [] (snd (m w)) = true.
Proof.
  assert (Hst : forall s p, Body s ∈ [Body RemoveRedhat; Body RemoveAgent] ->
                            respects (erase_guard erased_pkgs) (stage_fun s p)).
  { intros s p Hs. apply elem_of_cons in Hs as [Hs|Hs].
    - injection Hs as ->. apply remove_redhat_packages_respects.
    - apply list_elem_of_singleton in Hs. injection Hs as ->.
      apply remove_katello_satellite_packages_respects. }
  intros [->|(s & p & ->)].
  - apply (main_guarded _ _ erase_guard_off_site removal_bodies Hst).
  - apply stage_fun_guarded.
    apply (stage_fun_respects _ _ erase_guard_off_site removal_bodies Hst).
Qed.

(** X10. Whether [main] runs or a stage function is called on its own, an
    [rpm -e --nodeps] command is only ever run for one of the five packages
    the two removal stages name, and only directly after [rpm -q] of that
    same package returned 0: a package the query did not find is never
    erased. *)
Theorem erase_only_after_query (m : M Host unit) w r w' tr pre cmd rc post :
  entry_point m ->
  m w = (r, w', tr) ->
  tr = pre ++ EvShell cmd rc :: post ->
  Py.has_prefix "rpm -e --nodeps " cmd = true ->
  exists pkg pre',
    In pkg erased_pkgs /\ cmd = erase_cmd pkg
    /\ pre = pre' ++ [EvShell (query_cmd pkg) 0].
Proof.
  intros Hm Run -> Hp. pose proof (erase_guarded m w Hm) as Hg.
  rewrite Run in Hg. simpl in Hg. apply each_guarded_split in Hg.
  rewrite app_nil_r in Hg. unfold erase_guard in Hg. rewrite Hp in Hg.
  destruct (rev pre) as [|e1 rest] eqn:Hrev; [discriminate Hg|].
  destruct e1 as [q rc0| | | | | | |]; try discriminate Hg.
  destruct rc0; try discriminate Hg.
  apply existsb_exists in Hg as (pkg & Hin & Heq).
  apply andb_true_iff in Heq as [Hc Hq]. apply String.eqb_eq in Hc, Hq.
  subst cmd q. exists pkg, (rev rest). split; [exact Hin|].
  split; [reflexivity|]. apply rev_one. exact Hrev.
Qed.

(** *** [grubby --set-default] *)

Lemma set_default_site cmd :
  Py.has_prefix "grubby --set-default=" cmd = true ->
  fst <$> classify cmd = Some (Body DefaultGrubRecord).
Proof.
  intros Hp. apply has_prefix_split in Hp as [rest ->]. reflexivity.
Qed.

Lemma set_default_guard_off_site e seen :
  (forall x, x ∈ [Body DefaultGrubRecord] -> site_of e <> Some x) ->
  set_default_guard seen e = true.
Proof.
  intros Hoff. destruct e as [cmd rc| | | | | | |]; try reflexivity.
  unfold set_default_guard.
  destruct (Py.has_prefix "grubby --set-default=" cmd) eqn:Hp; [|reflexivity].
  exfalso. apply (Hoff (Body DefaultGrubRecord)); [set_solver|].
  exact (set_default_site cmd Hp).
Qed.

Lemma check_and_set_default_grub_record_respects :
  respects set_default_guard (check_and_set_default_grub_record : M Host unit).
Proof.
  unfold check_and_set_default_grub_record. apply respects_stage.
  intros w seen.
  unfold check_call, check_output, log, emit, ret, exit, get_logger, bind.
  cbv beta.
  destruct (run_shell _ (host w)) as [[rc out] h].
  destruct (Z.eqb_spec rc 0) as [->|Hne].
  - cbv beta iota.
    match goal with
    | |- context [set_successful_stage_status ?k ?w1] =>
        pose proof (set_successful_stage_status_silent k w1) as Hs;
        destruct (set_successful_stage_status k w1) as [[r2 w2] t2]
    end.
    simpl in Hs. subst t2. reflexivity.
  - cbv beta iota. cbn [host status_file].
    destruct (run_shell _ _) as [[rc2 out2] h2].
    assert (Hrc : negb (rc =? 0) = true).
    { apply negb_true_iff, Z.eqb_neq. exact Hne. }
    destruct (rc2 =? 0); cbv beta iota; cbn [host status_file];
      destruct (logging_FileHandler h2); cbv beta iota.
    + match goal with
      | |- context [set_successful_stage_status ?k ?w1] =>
          pose proof (set_successful_stage_status_silent k w1) as Hs;
          destruct (set_successful_stage_status k w1) as [[r2 w2] t2]
      end.
      simpl in Hs. subst t2. cbn. rewrite Hrc. reflexivity.
    + cbn. rewrite Hrc. reflexivity.
    + cbn. rewrite Hrc. reflexivity.
    + cbn. rewrite Hrc. reflexivity.
Qed.

Lemma set_default_guarded (m : M Host unit) (w : World Host) :
  entry_point m -> each_guarded set_default_guard [] (snd (m w)) = true.
Proof.
  assert (Hst : forall s p, Body s ∈ [Body DefaultGrubRecord] ->
                            respects set_default_guard (stage_fun s p)).
  { intros s p Hs. apply list_elem_of_singleton in Hs. injection Hs as ->.
    apply check_and_set_default_grub_record_respects. }
  intros [->|(s & p & ->)].
  - apply (main_guarded _ _ set_default_guard_off_site
                        (one_body DefaultGrubRecord) Hst).
  - apply stage_fun_guarded.
    apply (stage_fun_respects _ _ set_default_guard_off_site
                              (one_body DefaultGrubRecord) Hst).
Qed.

(** X11. Whether [main] runs or a stage function is called on its own,
    [grubby --set-default=...] is only ever run directly after
    [grubby --info=DEFAULT] returned non-zero: a default boot record
    that is there is never overwritten. *)
Theorem set_default_only_without_default (m : M Host unit) w r w' tr
        pre cmd rc post :
  entry_point m ->
  m w = (r, w', tr) ->
  tr = pre ++ EvShell cmd rc :: post ->
  Py.has_prefix "grubby --set-default=" cmd = true ->
  exists rc0 pre',
    rc0 <> 0 /\ pre = pre' ++ [EvShell grubby_info_cmd rc0].
Proof.
  intros Hm Run -> Hp. pose proof (set_default_guarded m w Hm) as Hg.
  rewrite Run in Hg. simpl in Hg. apply each_guarded_split in Hg.
  rewrite app_nil_r in Hg. unfold set_default_guard in Hg. rewrite Hp in Hg.
  destruct (rev pre) as [|e1 rest] eqn:Hrev; [discriminate Hg|].
  destruct e1 as [q rc0| | | | | | |]; try discriminate Hg.
  apply andb_true_iff in Hg as [Hq Hrc]. apply String.eqb_eq in Hq.
  apply negb_true_iff, Z.eqb_neq in Hrc. subst q.
  exists rc0, (rev rest). split; [exact Hrc|]. apply rev_one. exact Hrev.
Qed.

(** ** Which hosts pass the OS check *)

Lemma int_of_char_seven c : Py.int_of_char c = Some 7 <-> c = "7"%char.
Proof.
  split; [|intros ->; reflexivity].
  destruct c as [[|] [|] [|] [|] [|] [|] [|] [|]]; vm_compute;
    intros Hc; first [reflexivity | discriminate Hc].
Qed.

(** X12. On a readable status document that does not record the OS check
    yet, [check_supported_os] records it as passed exactly when the
    platform's distribution name is [redhat], character 0 of its version
    string is [7] and character 2 is a digit. The name is compared as it
    is, and the character at position 2 must be a digit although the minor
    version is not looked at afterwards. *)
Theorem check_supported_os_accepts_iff w d os_name os_version id :
  status_file w = of_document d ->
  flag "check_supported_os" (status_file w) = false ->
  platform_dist (host w) = (os_name, os_version, id) ->
  flag "check_supported_os"
       (status_file (snd (fst (check_supported_os w)))) = true
  <-> (os_name = "redhat"
       /\ Py.index os_version 0 = Some "7"%char
       /\ exists c minor, Py.index os_version 2 = Some c
                          /\ Py.int_of_char c = Some minor).
Proof.
  intros E Hf Hd.
  assert (Hos : exists res,
             get_os_version_and_name w = (res, w, [EvDist os_name os_version])
             /\ (forall major minor name, res = Ret (major, minor, name) ->
                   name = os_name
                   /\ ((os_name = "" /\ major = 0)
                       \/ (os_name <> ""
                           /\ exists c0 c2,
                               Py.index os_version 0 = Some c0
                               /\ Py.int_of_char c0 = Some major
                               /\ Py.index os_version 2 = Some c2
                               /\ Py.int_of_char c2 = Some minor)))
             /\ (os_name <> "" ->
                 forall c0 c2 major minor,
                   Py.index os_version 0 = Some c0 ->
                   Py.int_of_char c0 = Some major ->
                   Py.index os_version 2 = Some c2 ->
                   Py.int_of_char c2 = Some minor ->
                   res = Ret (major, minor, os_name))).
  { destruct (decide (os_name = "")) as [->|Hne].
    - exists (Ret (0, 0, "")). split; [|split].
      + unfold get_os_version_and_name, bind, dist. rewrite Hd. reflexivity.
      + intros major minor name [= <- <- <-]. split; [reflexivity|]. left. auto.
      + intros Hne. contradiction.
    - eexists. split; [apply (get_os_version_and_name_run w _ _ _ Hd Hne)|].
      split.
      + intros major minor name.
        destruct (Py.index os_version 0) as [c0|]; [|discriminate].
        destruct (Py.int_of_char c0) as [a|] eqn:Ea; [|discriminate].
        destruct (Py.index os_version 2) as [c2|]; [|discriminate].
        destruct (Py.int_of_char c2) as [b|] eqn:Eb; [|discriminate].
        intros [= <- <- <-]. split; [reflexivity|]. right.
        split; [exact Hne|]. exists c0, c2. auto.
      + intros _ c0 c2 major minor -> -> -> ->. reflexivity. }
  destruct Hos as (res & Hrun & Hret & Hgood).
  destruct (check_supported_os_run w d _ _ _ E Hf Hrun) as (msg1 & msg2 & Hc).
  rewrite Hc. clear Hc. split.
  - destruct res as [[[major minor] name]|c|x].
    + destruct (Hret _ _ _ eq_refl) as [-> Hshape].
      destruct (Z.eqb_spec major SUPPORTED_MAJOR_VERSION_OS) as [Hmaj|Hmaj];
        [|destruct (logging_FileHandler (host w)); simpl; rewrite Hf;
          discriminate].
      destruct (String.eqb_spec os_name SUPPORTED_NAME_OS) as [Hname|Hname];
        [|destruct (logging_FileHandler (host w)); simpl; rewrite Hf;
          discriminate].
      intros _. split; [exact Hname|].
      destruct Hshape as [[_ H0]|(_ & c0 & c2 & I0 & V0 & I2 & V2)].
      * subst major. discriminate Hmaj.
      * rewrite Hmaj in V0. apply int_of_char_seven in V0. subst c0.
        split; [exact I0|]. exists c2, minor. auto.
    + simpl. rewrite Hf. discriminate.
    + simpl. rewrite Hf. discriminate.
  - intros (Hname & I0 & c2 & minor & I2 & V2).
    assert (Hne : os_name <> "") by (rewrite Hname; discriminate).
    rewrite (Hgood Hne "7"%char c2 7 minor I0 eq_refl I2 V2).
    rewrite Hname. simpl. rewrite E. apply flag_mark_eq.
Qed.

(** ** The package queries of the Secure Boot stage *)

Lemma append_nil_r (a : string) : a +^ "" = a.
Proof.
  induction a as [|c a IH]; [reflexivity|].
  change (String c (a +^ "") = String c a). rewrite IH. reflexivity.
Qed.

Lemma append_assoc (a b c : string) : (a +^ b) +^ c = a +^ (b +^ c).
Proof.
  induction a as [|x a IH]; [reflexivity|].
  change (String x ((a +^ b) +^ c) = String x (a +^ b +^ c)).
  rewrite IH. reflexivity.
Qed.

Lemma split_ws_aux_cons cur c (str : string) :
  Py.split_ws_aux cur (String c str)
  = if Py.is_space c
    then match cur with
         | EmptyString => Py.split_ws_aux EmptyString str
         | _ => cur :: Py.split_ws_aux EmptyString str
         end
    else Py.split_ws_aux (cur +^ String c EmptyString) str.
Proof. reflexivity. Qed.

Lemma split_ws_aux_word cur (a b : string) :
  no_space a = true ->
  Py.split_ws_aux cur (a +^ b) = Py.split_ws_aux (cur +^ a) b.
Proof.
  revert cur. induction a as [|c a IH]; intros cur Ha.
  - rewrite append_nil_r. reflexivity.
  - simpl in Ha. apply andb_true_iff in Ha as [Hc Ha].
    apply negb_true_iff in Hc.
    change (String c a +^ b) with (String c (a +^ b)).
    rewrite split_ws_aux_cons, Hc, (IH _ Ha), append_assoc. reflexivity.
Qed.

Lemma split_ws_aux_nl cur (str : string) :
  Py.split_ws_aux cur (str +^ Py.nl) = Py.split_ws_aux cur str.
Proof.
  revert cur. induction str as [|c str IH]; intros cur.
  - destruct cur; reflexivity.
  - change (String c str +^ Py.nl) with (String c (str +^ Py.nl)).
    rewrite !split_ws_aux_cons, !IH. reflexivity.
Qed.

Lemma split_ws_lstrip (str : string) :
  Py.split_ws (Py.lstrip str) = Py.split_ws str.
Proof.
  induction str as [|c str IH]; [reflexivity|].
  unfold Py.split_ws in *. simpl Py.lstrip. rewrite split_ws_aux_cons.
  destruct (Py.is_space c) eqn:Hc; [exact IH|].
  rewrite split_ws_aux_cons, Hc. reflexivity.
Qed.

Lemma split_ws_aux_rstrip cur (str : string) :
  Py.split_ws_aux cur (Py.rstrip str) = Py.split_ws_aux cur str.
Proof.
  revert cur. induction str as [|c str IH]; intros cur; [reflexivity|].
  simpl Py.rstrip. destruct (Py.rstrip str) as [|a t] eqn:Er.
  - rewrite (split_ws_aux_cons cur c str).
    destruct (Py.is_space c) eqn:Hc.
    + rewrite <- (IH EmptyString). destruct cur; reflexivity.
    + rewrite split_ws_aux_cons, Hc. apply IH.
  - rewrite (split_ws_aux_cons cur c str),
            (split_ws_aux_cons cur c (String a t)), !IH.
    reflexivity.
Qed.

Lemma split_ws_strip (str : string) :
  Py.split_ws (Py.strip str) = Py.split_ws str.
Proof.
  unfold Py.strip, Py.split_ws at 1. rewrite split_ws_aux_rstrip.
  apply split_ws_lstrip.
Qed.

(** What [split] makes of a line [name TAB vendor NEWLINE]. *)
Lemma split_ws_name_vendor (name vendor : string) :
  name <> "" -> no_space name = true ->
  Py.split_ws (Py.strip (name +^ Py.tab +^ vendor +^ Py.nl))
  = name :: Py.split_ws vendor.
Proof.
  intros Hne Hns. rewrite split_ws_strip. unfold Py.split_ws.
  rewrite (split_ws_aux_word _ _ _ Hns). change (EmptyString +^ name) with name.
  change (Py.tab +^ vendor +^ Py.nl)
    with (String "009"%char (vendor +^ Py.nl)).
  rewrite split_ws_aux_cons. change (Py.is_space "009"%char) with true.
  cbv iota. rewrite split_ws_aux_nl.
  destruct name; [contradiction|reflexivity].
Qed.

(** X13. [get_kernel_pkg_name_for_default_boot_record], when both of its
    queries succeed and [rpm -qf] prints the line the query format asks
    for, a package name, a tab, the vendor and a newline: the unpacking of
    [split()] goes through exactly when the vendor is a single word. Then
    the function logs the package and returns the one-entry dictionary
    from the package to the lower-cased vendor ([IOError] instead, when
    the logger cannot open its file). A vendor of several words, such as
    [Red Hat, Inc.], or an empty vendor makes it raise [ValueError] after
    both queries have run. *)
Theorem kernel_vendor_must_be_one_word w out1 h1 name vendor h2 :
  run_shell default_kernel_cmd (host w) = (0, out1, h1) ->
  run_shell (rpm_qf_cmd (Py.strip out1)) h1
  = (0, name +^ Py.tab +^ vendor +^ Py.nl, h2) ->
  name <> "" -> no_space name = true ->
  fst (fst (get_kernel_pkg_name_for_default_boot_record w))
  = match Py.split_ws vendor with
    | [word] =>
        if logging_FileHandler h2 then Ret [(name, Py.lower word)]
        else Raise IOError
    | _ => Raise ValueError
    end
  /\ snd (fst (get_kernel_pkg_name_for_default_boot_record w))
     = mkWorld (status_file w) h2
  /\ firstn 2 (snd (get_kernel_pkg_name_for_default_boot_record w))
     = [EvShell default_kernel_cmd 0;
        EvShell (rpm_qf_cmd (Py.strip out1)) 0].
Proof.
  intros R1 R2 Hne Hns.
  unfold get_kernel_pkg_name_for_default_boot_record, bind, check_output.
  fold default_kernel_cmd. rewrite R1. cbv beta iota.
  cbn [host status_file Z.eqb].
  fold (rpm_qf_cmd (Py.strip out1)). rewrite R2. cbv beta iota.
  cbn [host status_file Z.eqb].
  rewrite (split_ws_name_vendor name vendor Hne Hns).
  destruct (Py.split_ws vendor) as [|word [|word2 rest]];
    [simpl; auto| |simpl; auto].
  rewrite log_run. cbn [host].
  destruct (logging_FileHandler h2); simpl; auto.
Qed.

(** *** The dictionary of Secure Boot packages *)

Lemma lower_char_idempotent c : Py.lower_char (Py.lower_char c) = Py.lower_char c.
Proof.
  destruct c as [[|] [|] [|] [|] [|] [|] [|] [|]]; vm_compute; reflexivity.
Qed.

Lemma lower_idempotent (str : string) : Py.lower (Py.lower str) = Py.lower str.
Proof.
  induction str as [|c str IH]; simpl; [reflexivity|].
  rewrite lower_char_idempotent, IH. reflexivity.
Qed.

Lemma dict_set_keys (k v x : string) (dict : list (string * string)) :
  In x (map fst (dict_set k v dict)) -> x = k \/ In x (map fst dict).
Proof.
  induction dict as [|[k' v'] dict IH]; simpl.
  - intros [<-|[]]. left. reflexivity.
  - destruct (String.eqb_spec k' k) as [->|Hne]; simpl.
    + intros [<-|Hin]; auto.
    + intros [<-|Hin]; [auto|]. destruct (IH Hin); auto.
Qed.

Lemma dict_set_nodup (k v : string) (dict : list (string * string)) :
  List.NoDup (map fst dict) -> List.NoDup (map fst (dict_set k v dict)).
Proof.
  induction dict as [|[k' v'] dict IH]; simpl; intros Hnd.
  - constructor; [intros []|constructor].
  - inversion Hnd as [|? ? Hnot Hrest]; subst.
    destruct (String.eqb_spec k' k) as [->|Hne]; simpl.
    + constructor; assumption.
    + constructor; [|apply IH; exact Hrest].
      intros Hin. apply dict_set_keys in Hin as [->|Hin]; [|exact (Hnot Hin)].
      apply Hne. reflexivity.
Qed.

Lemma dict_set_forall (P : string * string -> Prop) (k v : string)
      (dict : list (string * string)) :
  P (k, v) -> List.Forall P dict -> List.Forall P (dict_set k v dict).
Proof.
  intros Hkv. induction dict as [|[k' v'] dict IH]; simpl; intros Hall.
  - constructor; [exact Hkv|constructor].
  - inversion Hall as [|? ? Hhd Htl]; subst.
    destruct (String.eqb k' k); constructor; auto.
Qed.

Lemma for_fold_invariant {A St} (P : St -> Prop) (body : A -> St -> M Host St)
      (l : list A) :
  (forall x st w r w' tr, P st -> body x st w = (Ret r, w', tr) -> P r) ->
  forall st w r w' tr,
    P st -> for_fold l st body w = (Ret r, w', tr) -> P r.
Proof.
  intros Hbody. induction l as [|x l IH]; intros st w r w' tr Hst; simpl.
  - intros [= <- _ _]. exact Hst.
  - intros Hrun. apply bind_inv in Hrun
      as [(st1 & w1 & t1 & t2 & Hb & Hrest & _)|(_ & _ & _ & _ & Hno)].
    + apply (IH st1 w1 r w' t2); [|exact Hrest].
      apply (Hbody x st w st1 w1 t1 Hst Hb).
    + exfalso. apply Hno. exact I.
Qed.

(** X15. When [rpm -qa] succeeds but prints nothing, or white space only,
    [get_pkgs_related_to_secure_boot] does not return an empty dictionary:
    the one empty line cannot be unpacked into three fields and the
    function raises [ValueError]. *)
Theorem blank_package_list_raises w out h :
  run_shell rpm_qa_cmd (host w) = (0, out, h) ->
  Py.strip out = "" ->
  get_pkgs_related_to_secure_boot w
  = (Raise ValueError, mkWorld (status_file w) h, [EvShell rpm_qa_cmd 0]).
Proof.
  intros Hrun Hblank.
  unfold get_pkgs_related_to_secure_boot, bind, check_output.
  fold rpm_qa_cmd. rewrite Hrun. cbv beta iota. cbn [Z.eqb].
  rewrite Hblank. reflexivity.
Qed.

(** *** The reinstallation loop *)

Lemma append_inj_l (a x y : string) : a +^ x = a +^ y -> x = y.
Proof.
  induction a as [|c a IH]; [auto|].
  change (String c (a +^ x) = String c (a +^ y) -> x = y).
  intros [= Heq]. auto.
Qed.

Lemma append_char_nonempty (x : string) c : x +^ String c "" <> "".
Proof. destruct x; discriminate. Qed.

Lemma append_char_inj (x y : string) c :
  x +^ String c "" = y +^ String c "" -> x = y.
Proof.
  revert y. induction x as [|a x IH]; intros [|b y].
  - reflexivity.
  - change (String c "" = String b (y +^ String c "") -> "" = String b y).
    intros [= _ Heq]. symmetry in Heq.
    destruct (append_char_nonempty _ _ Heq).
  - change (String a (x +^ String c "") = String c "" -> String a x = "").
    intros [= _ Heq]. destruct (append_char_nonempty _ _ Heq).
  - change (String a (x +^ String c "") = String b (y +^ String c "")
            -> String a x = String b y).
    intros [= -> Heq]. rewrite (IH _ Heq). reflexivity.
Qed.

Lemma reinstall_cmd_inj (p q : string) :
  reinstall_cmd p = reinstall_cmd q -> p = q.
Proof.
  unfold reinstall_cmd. intros Heq.
  apply append_inj_l, append_inj_l in Heq.
  exact (append_char_inj _ _ _ Heq).
Qed.

Lemma dict_set_in (k v : string) (dict : list (string * string)) kv :
  In kv (dict_set k v dict) -> kv = (k, v) \/ In kv dict.
Proof.
  induction dict as [|[k' v'] dict IH]; simpl.
  - intros [<-|[]]. auto.
  - destruct (String.eqb k' k); simpl.
    + intros [<-|Hin]; auto.
    + intros [<-|Hin]; [auto|]. destruct (IH Hin); auto.
Qed.

Lemma dict_update_nodup (other dict : list (string * string)) :
  List.NoDup (map fst dict) -> List.NoDup (map fst (dict_update dict other)).
Proof.
  unfold dict_update. revert dict.
  induction other as [|[k v] other IH]; intros dict Hnd; simpl; [exact Hnd|].
  apply IH, dict_set_nodup, Hnd.
Qed.

Lemma foreign_pkgs_nodup (dict : list (string * string)) :
  List.NoDup (map fst dict) -> List.NoDup (foreign_pkgs dict).
Proof.
  unfold foreign_pkgs. induction dict as [|[k v] dict IH]; simpl; intros Hnd.
  - constructor.
  - inversion Hnd as [|? ? Hnot Hrest]; subst.
    destruct (negb (String.eqb v "centos")); simpl; [|auto].
    constructor; [|auto]. intros Hin. apply Hnot.
    apply in_map_iff in Hin as ([k' v'] & Hk & Hin). simpl in Hk. subst k'.
    apply filter_In in Hin as [Hin _].
    apply in_map_iff. exists (k, v'). auto.
Qed.

Lemma foreign_pkgs_in (dict : list (string * string)) pkg :
  In pkg (foreign_pkgs dict)
  <-> exists vendor, In (pkg, vendor) dict /\ vendor <> "centos".
Proof.
  unfold foreign_pkgs. rewrite in_map_iff. split.
  - intros ([k v] & Hk & Hin). simpl in Hk. subst k.
    apply filter_In in Hin as [Hin Hv]. simpl in Hv.
    exists v. split; [exact Hin|].
    intros ->. discriminate Hv.
  - intros (v & Hin & Hv). exists (pkg, v). split; [reflexivity|].
    apply filter_In. split; [exact Hin|]. simpl.
    destruct (String.eqb_spec v "centos"); [contradiction|reflexivity].
Qed.

(** The loop of [reinstall_secure_boot_related_packages] over a
    dictionary: it reinstalls the packages with a foreign vendor one after
    the other, all of them when it returns. *)
Lemma reinstall_step_run (pkg : string) w :
  (log INFO ("Package " +^ Py.dq +^ "%s" +^ Py.dq
             +^ " is released not by CentOS and should reinstalled")
       [pkg];;
   r <- check_output ("yum reinstall -y " +^ Py.dq +^ pkg +^ Py.dq);;
   match r with
   | inl _ => ret tt
   | inr output =>
       log ERROR ("Some error is occurred while reinstalling "
                  +^ "a secure boot related package." +^ Py.nl
                  +^ msg_check_output)
           [output];;
       exit 1
   end) w
  = if logging_FileHandler (host w) then
      match run_shell (reinstall_cmd pkg) (host w) with
      | (rc, out, h) =>
          let info :=
            EvLog INFO ("Package " +^ Py.dq +^ "%s" +^ Py.dq
                        +^ " is released not by CentOS and should reinstalled")
                  [pkg] in
          if rc =? 0
          then (Ret tt, mkWorld (status_file w) h,
                [info; EvShell (reinstall_cmd pkg) rc])
          else if logging_FileHandler h
          then (Exit 1, mkWorld (status_file w) h,
                [info; EvShell (reinstall_cmd pkg) rc;
                 EvLog ERROR ("Some error is occurred while reinstalling "
                              +^ "a secure boot related package." +^ Py.nl
                              +^ msg_check_output)
                       [out]])
          else (Raise IOError, mkWorld (status_file w) h,
                [info; EvShell (reinstall_cmd pkg) rc])
      end
    else (Raise IOError, w, []).
Proof.
  unfold log, emit, check_output, ret, exit, get_logger, bind.
  fold (reinstall_cmd pkg).
  destruct (logging_FileHandler (host w)); [|reflexivity].
  destruct (run_shell (reinstall_cmd pkg) (host w)) as [[rc out] h].
  destruct (rc =? 0); [reflexivity|]. cbn [host].
  destruct (logging_FileHandler h); reflexivity.
Qed.

Lemma reinstall_loop_run (dict : list (string * string)) w r w' tr :
  for_each dict (fun item =>
    let '(pkg, vendor) := item in
    if String.eqb vendor "centos" then ret tt
    else
      log INFO ("Package " +^ Py.dq +^ "%s" +^ Py.dq
                +^ " is released not by CentOS and should reinstalled")
          [pkg];;
      r <- check_output ("yum reinstall -y " +^ Py.dq +^ pkg +^ Py.dq);;
      match r with
      | inl _ => ret tt
      | inr output =>
          log ERROR ("Some error is occurred while reinstalling "
                     +^ "a secure boot related package." +^ Py.nl
                     +^ msg_check_output)
              [output];;
          exit 1
      end) w = (r, w', tr) ->
  exists done rest,
    foreign_pkgs dict = done ++ rest
    /\ shell_cmds tr = map reinstall_cmd done
    /\ (is_ret r -> rest = []).
Proof.
  revert w tr. induction dict as [|[pkg vendor] dict IH]; intros w tr.
  - intros [= <- <- <-]. exists [], []. simpl. auto.
  - cbn [for_each]. unfold foreign_pkgs. cbn [List.filter snd].
    destruct (String.eqb vendor "centos") eqn:Hv; cbn [negb map fst];
      fold (foreign_pkgs dict).
    + intros Hrun. apply bind_inv in Hrun
        as [(u & w1 & t1 & t2 & Hb & Hrest & ->)|(Hno & _)];
        [|exfalso; apply Hno; exact I].
      injection Hb as _ <- <-. exact (IH _ _ Hrest).
    + intros Hrun. apply bind_inv in Hrun
        as [(u & w1 & t1 & t2 & Hb & Hrest & ->)|(Hno & _ & Htr & _ & Hnr)].
      * rewrite reinstall_step_run in Hb.
        destruct (logging_FileHandler (host w)); [|discriminate Hb].
        destruct (run_shell (reinstall_cmd pkg) (host w)) as [[rc out] h].
        destruct (rc =? 0);
          [|destruct (logging_FileHandler h); discriminate Hb].
        injection Hb as _ <- <-.
        destruct (IH _ _ Hrest) as (done & rest & Hsplit & Hcmds & Hret).
        exists (pkg :: done), rest.
        split; [rewrite Hsplit; reflexivity|]. split; [|exact Hret].
        simpl. rewrite Hcmds. reflexivity.
      * rewrite reinstall_step_run in Hno, Htr.
        destruct (logging_FileHandler (host w)).
        2: { simpl in Htr. subst tr.
             exists [], (pkg :: foreign_pkgs dict).
             split; [reflexivity|]. split; [reflexivity|].
             intros Hr. destruct (Hnr Hr). }
        destruct (run_shell (reinstall_cmd pkg) (host w)) as [[rc out] h].
        destruct (rc =? 0); [exfalso; apply Hno; exact I|].
        assert (Hcmds : shell_cmds tr = [reinstall_cmd pkg]).
        { destruct (logging_FileHandler h); simpl in Htr; subst tr;
            reflexivity. }
        exists [pkg], (foreign_pkgs dict).
        split; [reflexivity|]. split; [exact Hcmds|].
        intros Hr. destruct (Hnr Hr).
Qed.

Lemma get_pkgs_wellformed w result w' tr :
  get_pkgs_related_to_secure_boot w = (Ret result, w', tr) ->
  wellformed_dict result.
Proof.
  unfold get_pkgs_related_to_secure_boot. intros Hrun.
  apply bind_inv in Hrun
    as [(r & w1 & t1 & t2 & _ & Hrest & _)|(_ & _ & _ & _ & Hno)];
    [|exfalso; apply Hno; exact I].
  destruct r as [output|output].
  2: { apply bind_inv in Hrest
         as [(u & w2 & t3 & t4 & _ & Hexit & _)|(_ & _ & _ & _ & Hno)];
         [discriminate Hexit|exfalso; apply Hno; exact I]. }
  revert Hrest. apply for_fold_invariant.
  - clear. intros line st w r w' tr [Hnd Hlow].
    destruct (Py.split_on "009" (Py.strip line))
      as [|pkg_name [|pkg [|vendor [|extra fields]]]]; try discriminate.
    destruct (existsb (Py.startswith pkg_name) ["shim"; "fwupd"; "grub2"; "kernel-"]).
    + intros Hrun. apply bind_inv in Hrun
        as [(u & w2 & t3 & t4 & _ & Hret & _)|(_ & _ & _ & _ & Hno)];
        [|exfalso; apply Hno; exact I].
      injection Hret as <- _ _. split.
      * apply dict_set_nodup. exact Hnd.
      * apply dict_set_forall; [apply lower_idempotent|exact Hlow].
    + intros [= <- _ _]. split; assumption.
  - split; constructor.
Qed.

Lemma get_kernel_wellformed w kernel w' tr :
  get_kernel_pkg_name_for_default_boot_record w = (Ret kernel, w', tr) ->
  wellformed_dict kernel.
Proof.
  unfold get_kernel_pkg_name_for_default_boot_record. intros Hrun.
  apply bind_inv in Hrun
    as [(r1 & w1 & t1 & t2 & _ & Hrest & _)|(_ & _ & _ & _ & Hno)];
    [|exfalso; apply Hno; exact I].
  destruct r1 as [out1|output].
  2: { apply bind_inv in Hrest
         as [(u & w2 & t3 & t4 & _ & Hexit & _)|(_ & _ & _ & _ & Hno)];
         [discriminate Hexit|exfalso; apply Hno; exact I]. }
  apply bind_inv in Hrest
    as [(r2 & w2 & t3 & t4 & _ & Hrest & _)|(_ & _ & _ & _ & Hno)];
    [|exfalso; apply Hno; exact I].
  destruct r2 as [out2|output].
  2: { apply bind_inv in Hrest
         as [(u & w3 & t5 & t6 & _ & Hexit & _)|(_ & _ & _ & _ & Hno)];
         [discriminate Hexit|exfalso; apply Hno; exact I]. }
  destruct (Py.split_ws (Py.strip out2))
    as [|kernel_pkg_name [|vendor [|extra fields]]]; try discriminate Hrest.
  apply bind_inv in Hrest
    as [(u & w3 & t5 & t6 & _ & Hret & _)|(_ & _ & _ & _ & Hno)];
    [|exfalso; apply Hno; exact I].
  injection Hret as <- _ _. split.
  - simpl. constructor; [intros []|constructor].
  - constructor; [apply lower_idempotent|constructor].
Qed.

Lemma dict_update_forall (P : string * string -> Prop)
      (other dict : list (string * string)) :
  List.Forall P other -> List.Forall P dict ->
  List.Forall P (dict_update dict other).
Proof.
  unfold dict_update. revert dict.
  induction other as [|[k v] other IH]; intros dict Ho Hd; simpl; [exact Hd|].
  inversion Ho as [|? ? Hkv Hrest]; subst.
  apply IH; [exact Hrest|]. apply dict_set_forall; assumption.
Qed.

(** X14. Whatever the two package queries print, the dictionaries that
    [get_pkgs_related_to_secure_boot] and
    [get_kernel_pkg_name_for_default_boot_record] return, and the merged
    dictionary the reinstallation loop walks through, hold each package
    once and every vendor in lower case: the comparison with [centos] in
    the loop does not depend on how the vendor is spelled in the package,
    and the entry of the default kernel replaces an entry of the same
    package instead of adding a second one. *)
Theorem secure_boot_dict_wellformed w pkgs w1 t1 wk kernel w2 t2 :
  get_pkgs_related_to_secure_boot w = (Ret pkgs, w1, t1) ->
  get_kernel_pkg_name_for_default_boot_record wk = (Ret kernel, w2, t2) ->
  wellformed_dict pkgs /\ wellformed_dict kernel
  /\ wellformed_dict (dict_update pkgs kernel).
Proof.
  intros Hpk Hke.
  pose proof (get_pkgs_wellformed _ _ _ _ Hpk) as Wp.
  pose proof (get_kernel_wellformed _ _ _ _ Hke) as Wk.
  split; [exact Wp|]. split; [exact Wk|].
  destruct Wp as [Np Lp]. destruct Wk as [Nk Lk]. split.
  - apply dict_update_nodup. exact Np.
  - apply dict_update_forall; assumption.
Qed.

Lemma prefix_nodup {A} (l1 l2 : list A) :
  List.NoDup (l1 ++ l2) -> List.NoDup l1.
Proof.
  induction l1 as [|x l1 IH]; simpl; intros Hnd; [constructor|].
  inversion Hnd as [|? ? Hnot Hrest]; subst. constructor; [|auto].
  intros Hin. apply Hnot. apply in_or_app. left. exact Hin.
Qed.

Lemma map_inj_nodup {A B} (f : A -> B) (l : list A) :
  (forall x y, f x = f y -> x = y) -> List.NoDup l -> List.NoDup (map f l).
Proof.
  intros Hinj. induction l as [|x l IH]; simpl; intros Hnd; [constructor|].
  inversion Hnd as [|? ? Hnot Hrest]; subst. constructor; [|auto].
  intros Hin. apply in_map_iff in Hin as (y & Heq & Hin).
  apply Hinj in Heq. subst y. exact (Hnot Hin).
Qed.

(** X16. [reinstall_secure_boot_related_packages], entered with its key
    false, once both package queries have returned their dictionaries:
    the trace is that of the two queries followed by the loop; the loop
    runs [yum reinstall -y] only for packages of the merged dictionary
    whose vendor is not [centos], never twice for the same package, and
    when the stage returns it has done so for every such package. *)
Theorem reinstall_only_foreign_vendors w d pkgs w1 t1 kernel w2 t2 r w' tr :
  status_file w = of_document d ->
  flag (stage_key ReinstallSecureBoot) (status_file w) = false ->
  get_pkgs_related_to_secure_boot w = (Ret pkgs, w1, t1) ->
  get_kernel_pkg_name_for_default_boot_record w1 = (Ret kernel, w2, t2) ->
  reinstall_secure_boot_related_packages w = (r, w', tr) ->
  exists t3,
    tr = t1 ++ t2 ++ t3
    /\ List.NoDup (shell_cmds t3)
    /\ (forall cmd, In cmd (shell_cmds t3) ->
          exists pkg vendor,
            cmd = reinstall_cmd pkg
            /\ In (pkg, vendor) (dict_update pkgs kernel)
            /\ vendor <> "centos")
    /\ (is_ret r ->
        forall pkg vendor,
          In (pkg, vendor) (dict_update pkgs kernel) ->
          vendor <> "centos" ->
          In (reinstall_cmd pkg) (shell_cmds t3)).
Proof.
  intros E Hf Hpk Hke. unfold reinstall_secure_boot_related_packages.
  rewrite (bind_ret_run _ _ _ _ _ _ (get_stage_status_readable _ w d E)).
  change "reinstall_secure_boot_related_packages"
    with (stage_key ReinstallSecureBoot).
  rewrite Hf. cbv beta iota.
  rewrite (bind_ret_run _ _ _ _ _ _ Hpk), (bind_ret_run _ _ _ _ _ _ Hke).
  unfold bind at 1.
  destruct (for_each (dict_update pkgs kernel) _ w2) as [[r3 w3] t3] eqn:Hloop.
  destruct (reinstall_loop_run _ _ _ _ _ Hloop)
    as (done & rest & Hsplit & Hcmds & Hret).
  assert (Hnd : List.NoDup (shell_cmds t3)).
  { rewrite Hcmds. apply map_inj_nodup; [apply reinstall_cmd_inj|].
    apply (prefix_nodup done rest). rewrite <- Hsplit.
    apply foreign_pkgs_nodup, dict_update_nodup.
    apply (get_pkgs_wellformed _ _ _ _ Hpk). }
  assert (Hin : forall cmd, In cmd (shell_cmds t3) ->
                  exists pkg vendor,
                    cmd = reinstall_cmd pkg
                    /\ In (pkg, vendor) (dict_update pkgs kernel)
                    /\ vendor <> "centos").
  { intros cmd Hc. rewrite Hcmds in Hc.
    apply in_map_iff in Hc as (pkg & <- & Hp).
    assert (Hf' : In pkg (foreign_pkgs (dict_update pkgs kernel))).
    { rewrite Hsplit. apply in_or_app. left. exact Hp. }
    apply foreign_pkgs_in in Hf' as (vendor & Hd & Hv). eauto. }
  assert (Hall : is_ret r3 -> forall pkg vendor,
                   In (pkg, vendor) (dict_update pkgs kernel) ->
                   vendor <> "centos" ->
                   In (reinstall_cmd pkg) (shell_cmds t3)).
  { intros Hr pkg vendor Hd Hv. rewrite Hcmds. apply in_map.
    assert (Hf' : In pkg (foreign_pkgs (dict_update pkgs kernel))).
    { apply foreign_pkgs_in. eauto. }
    rewrite Hsplit, (Hret Hr), app_nil_r in Hf'. exact Hf'. }
  destruct r3 as [[]|c|x].
  - match goal with
    | |- context [set_successful_stage_status ?k ?w0] =>
        pose proof (set_successful_stage_status_silent k w0) as Hs;
        destruct (set_successful_stage_status k w0) as [[r4 w4] t4]
    end.
    simpl in Hs. subst t4. simpl. intros [= <- <- <-].
    exists t3. rewrite app_nil_r. split; [reflexivity|].
    split; [exact Hnd|]. split; [exact Hin|]. intros _. apply Hall. exact I.
  - simpl. intros [= <- <- <-]. exists t3. split; [reflexivity|].
    split; [exact Hnd|]. split; [exact Hin|]. intros [].
  - simpl. intros [= <- <- <-]. exists t3. split; [reflexivity|].
    split; [exact Hnd|]. split; [exact Hin|]. intros [].
Qed.

End Proofs.

(** * Concrete runs *)

Lemma run_eta {A B C} (x : A * B * C) : x = (fst (fst x), snd (fst x), snd x).
Proof. destruct x as [[a b] c]. reflexivity. Qed.

(** The probe misreports versions with more than one digit in a part. *)
Example minor_ten_is_reported_as_one :
  fst (fst (get_os_version_and_name
              (mkWorld NoFile
                 (mkSim 0 ("redhat", "7.10", "Maipo") false [] no_output))))
  = Ret (7, 1, "redhat").
Proof. reflexivity. Qed.

Example major_ten_raises :
  fst (fst (get_os_version_and_name
              (mkWorld NoFile
                 (mkSim 0 ("redhat", "10.2", "Coughlan") false [] no_output))))
  = Raise ValueError.
Proof. reflexivity. Qed.

(** An unreadable status file makes the status read raise. *)
Example unreadable_status_raises :
  fst (fst (get_stage_status "completed" (mkWorld NotJson rhel_bios)))
  = Raise ValueError.
Proof. reflexivity. Qed.

(** C1, witness: on a legacy host without the agent, with the Red Hat
    packages already removed, the run performs no action of that stage and
    enters the body of the update stage. *)
Lemma resumable_run_witness :
  (forall e, In e (snd (main resumed_no_agent)) -> ~ action_of RemoveRedhat e)
  /\ Exists (action_of UpdateSystem) (snd (main resumed_no_agent)).
Proof.
  destruct (resumable_run resumed_no_agent (Some _) _ _ _
              eq_refl (run_eta (main resumed_no_agent))) as (Skip & _ & Enter).
  split.
  - apply (Skip RemoveRedhat). vm_compute. reflexivity.
  - apply (Enter ltac:(vm_compute; exact I) UpdateSystem).
    + vm_compute. reflexivity.
    + exact I.
Defined.

(** C1, counterexample to the claim as stated: in the same run the agent
    removal and the EFI boot entry come after the completed stage and have
    their keys false, the run reaches its end, and yet neither body is
    entered. *)
Lemma later_stage_off_path_not_run :
  flag (stage_key RemoveRedhat) (status_file resumed_no_agent) = true
  /\ flag (stage_key RemoveAgent) (status_file resumed_no_agent) = false
  /\ flag (stage_key AddBootRecord) (status_file resumed_no_agent) = false
  /\ (exists pre post,
        all_stages = pre ++ RemoveRedhat :: post
        /\ In RemoveAgent post /\ In AddBootRecord post)
  /\ fst (fst (main resumed_no_agent)) = Ret tt
  /\ ~ Exists (action_of RemoveAgent) (snd (main resumed_no_agent))
  /\ ~ Exists (action_of AddBootRecord) (snd (main resumed_no_agent)).
Proof.
  split; [vm_compute; reflexivity|]. split; [vm_compute; reflexivity|].
  split; [vm_compute; reflexivity|]. split.
  { exists [CheckOS], (tl (tl all_stages)).
    split; [reflexivity|]. simpl. tauto. }
  split; [vm_compute; reflexivity|].
  split; intros Hex; apply List.Exists_exists in Hex as (e & Hin & Hact);
    vm_compute in Hin;
    repeat (destruct Hin as [<-|Hin]; [vm_compute in Hact; discriminate Hact|]);
    destruct Hin.
Qed.

(** C2, witness: [yum update -y] fails on a fresh host; the run leaves
    with code 1 and the update stage is not marked. *)
Lemma fail_fast_witness :
  exit_code (fst (fst (main fresh_update_fails))) = 1
  /\ Forall (fun x => is_log x = true) (after 33 (snd (main fresh_update_fails)))
  /\ flag (stage_key UpdateSystem)
          (status_file (snd (fst (main fresh_update_fails)))) = false.
Proof.
  assert (Htr : snd (main fresh_update_fails)
                = before 33 (snd (main fresh_update_fails))
                  ++ EvShell "yum update -y" 1
                  :: after 33 (snd (main fresh_update_fails)))
    by (vm_compute; reflexivity).
  assert (Hhard : hard_failure (EvShell "yum update -y" 1) = true)
    by (vm_compute; reflexivity).
  destruct (@fail_fast SimHost sim_ops fresh_update_fails None
              (fst (fst (main fresh_update_fails)))
              (snd (fst (main fresh_update_fails)))
              (snd (main fresh_update_fails))
              eq_refl (run_eta (main fresh_update_fails))
              (before 33 (snd (main fresh_update_fails)))
              (EvShell "yum update -y" 1)
              (after 33 (snd (main fresh_update_fails)))
              Htr Hhard)
    as (Hcode & Hpost & s & Hact & _ & Hflag).
  split; [exact Hcode|]. split; [exact Hpost|].
  vm_compute in Hact. injection Hact as <-. exact Hflag.
Defined.



(** C5, witness: a fresh Debian host, run as root, is turned away with
    exit code 0 right after the probe. *)
Lemma os_identity_checked_unless_recorded_witness :
  exists msg args,
    main fresh_debian
    = (Exit 0, fresh_debian,
       [EvGeteuid 0; EvDist "debian" "9.1"; EvLog INFO msg args]).
Proof.
  destruct (@os_identity_checked_unless_recorded SimHost sim_ops
              fresh_debian None "debian" "9.1" ""
              eq_refl eq_refl eq_refl eq_refl)
    as [Fresh _].
  destruct (Fresh eq_refl) as [_ Mismatch].
  apply (Mismatch 9 1 "debian" eq_refl). left. discriminate.
Defined.

(** C5, counterexample to the claim as stated: the key
    [check_supported_os] is set and the host reports CentOS; the run passes
    the completion and privilege checks, never probes the OS identity, does
    not leave at the OS check and goes on to update the system. *)
Lemma recorded_os_check_is_not_repeated :
  flag "completed" (status_file resumed_centos) = false
  /\ os_geteuid (host resumed_centos) = 0
  /\ platform_dist (host resumed_centos) = ("centos", "7.9.2009", "Core")
  /\ "centos" <> SUPPORTED_NAME_OS
  /\ (forall n v, ~ In (EvDist n v) (snd (main resumed_centos)))
  /\ fst (fst (main resumed_centos)) = Ret tt
  /\ In (EvShell "yum update -y" 0) (snd (main resumed_centos)).
Proof.
  split; [reflexivity|]. split; [reflexivity|]. split; [reflexivity|].
  split; [discriminate|]. split.
  { intros n v Hin. vm_compute in Hin.
    repeat (destruct Hin as [Hin|Hin]; [discriminate Hin|]). exact Hin. }
  split; [vm_compute; reflexivity|].
  vm_compute. tauto.
Qed.


(** C9, witness: with the key set after a run on the legacy path, a
    call with the EFI path returns at once. *)
Lemma recreate_grub_config_single_key_witness :
  recreate_grub_config efi_grub_cfg grub_done_rhel = (Ret tt, grub_done_rhel, []).
Proof.
  destruct (recreate_grub_config_single_key legacy_grub_cfg grub_done_rhel
              (Some _) eq_refl) as [Skip _].
  apply Skip. vm_compute. reflexivity.
Defined.

(** C10, witness: RHEL 7.9. *)
Lemma get_os_version_and_name_digits_witness :
  get_os_version_and_name fresh_rhel
  = (Ret (7, 9, "redhat"), fresh_rhel, [EvDist "redhat" "7.9"]).
Proof.
  destruct (@get_os_version_and_name_digits SimHost sim_ops
              fresh_rhel "redhat" "7.9" "Maipo"
              eq_refl ltac:(discriminate)) as [Digits _].
  apply (Digits "7"%char "9"%char 7 9); reflexivity.
Defined.

(** X1, witness: marking on a fresh host. *)
Lemma set_successful_stage_status_as_set_witness :
  bind (set_successful_stage_status "update_the_system")
       (fun _ => set_successful_stage_status "update_the_system") fresh_rhel
  = set_successful_stage_status "update_the_system" fresh_rhel
  /\ bind (set_successful_stage_status "update_the_system")
          (fun _ => set_successful_stage_status "check_supported_os") fresh_rhel
     = bind (set_successful_stage_status "check_supported_os")
            (fun _ => set_successful_stage_status "update_the_system")
            fresh_rhel.
Proof.
  exact (@set_successful_stage_status_as_set SimHost
           "update_the_system" "check_supported_os" fresh_rhel None eq_refl).
Defined.

(** X2, witness: the status file holds something else than JSON. *)
Lemma unreadable_status_stops_everything_witness :
  main unreadable_rhel = (Raise ValueError, unreadable_rhel, []).
Proof.
  exact (proj1 (@unreadable_status_stops_everything SimHost sim_ops
                  unreadable_rhel eq_refl)).
Defined.

(** X3, witness: user 1000 on a fresh RHEL host; the log file cannot be
    opened. *)
Lemma not_root_stops_at_privilege_check_witness :
  main fresh_user = (Raise IOError, fresh_user, [EvGeteuid 1000])
  /\ exit_code (fst (fst (main fresh_user))) = 1.
Proof.
  destruct (@not_root_stops_at_privilege_check SimHost sim_ops fresh_user None
              eq_refl eq_refl ltac:(discriminate)) as [_ NoLog].
  apply NoLog. reflexivity.
Defined.

(** X4, witness: a platform without distribution name. *)
Lemma unknown_distribution_is_unsupported_witness :
  get_os_version_and_name fresh_nameless
  = (Ret (0, 0, ""), fresh_nameless, [EvDist "" ""]).
Proof.
  exact (proj1 (@unknown_distribution_is_unsupported SimHost sim_ops
                  fresh_nameless None "" ""
                  eq_refl eq_refl eq_refl eq_refl eq_refl)).
Defined.

(** X5, witness: the version string [7]. *)
Lemma short_version_string_raises_witness :
  exists x,
    get_os_version_and_name fresh_short_version
    = (Raise x, fresh_short_version, [EvDist "redhat" "7"]).
Proof.
  destruct (@short_version_string_raises SimHost sim_ops
              fresh_short_version None "redhat" "7" "Maipo"
              eq_refl ltac:(discriminate) ltac:(simpl; lia))
    as (x & Hx & _).
  exists x. exact Hx.
Defined.

(** X6, witness: the update stage on a fresh host returns and is
    marked. *)
Lemma stage_marked_iff_returned_witness :
  is_ret (fst (fst (update_the_system fresh_rhel)))
  <-> flag "update_the_system"
           (status_file (snd (fst (update_the_system fresh_rhel)))) = true.
Proof.
  destruct (@stage_marked_iff_returned SimHost sim_ops UpdateSystem ""
              fresh_rhel None _ _ _
              eq_refl (run_eta (update_the_system fresh_rhel)))
    as [_ Hbody].
  exact (proj1 (Hbody eq_refl)).
Defined.

(** X7, witness: a full run on a fresh legacy host ends with [completed]
    set. *)
Lemma completed_marks_the_end_of_a_run_witness :
  flag "completed" (status_file (snd (fst (main fresh_rhel)))) = true.
Proof.
  destruct (@completed_marks_the_end_of_a_run SimHost sim_ops fresh_rhel None
              _ _ _ eq_refl eq_refl (run_eta (main fresh_rhel)))
    as [Hr _].
  apply Hr. vm_compute. exact I.
Defined.

(** X8, witness: the run that updates the system has recorded the OS
    check. *)
Lemma stages_run_in_order_witness :
  flag "check_supported_os" (status_file (snd (fst (main fresh_rhel)))) = true.
Proof.
  assert (Hex : Exists (action_of UpdateSystem) (snd (main fresh_rhel))).
  { apply List.Exists_exists. exists (EvShell "yum update -y" 0).
    split; [vm_compute; tauto|vm_compute; reflexivity]. }
  apply (@stages_run_in_order SimHost sim_ops fresh_rhel None _ _ _
           eq_refl (run_eta (main fresh_rhel)) CheckOS UpdateSystem
           eq_refl ltac:(simpl; lia) Hex).
Defined.

(** X9, witness: the release directory is removed after it was seen to
    be a directory and no link. *)
Lemma rmtree_only_after_checks_witness :
  In release_dir removed_dirs
  /\ exists pre',
      before 3 (snd (remove_not_needed_dirs with_release_dir))
      = pre' ++ [EvIsdir release_dir true; EvIslink release_dir false].
Proof.
  assert (Htr : snd (remove_not_needed_dirs with_release_dir)
                = before 3 (snd (remove_not_needed_dirs with_release_dir))
                  ++ EvRmtree release_dir true
                  :: after 3 (snd (remove_not_needed_dirs with_release_dir)))
    by (vm_compute; reflexivity).
  assert (Hm : entry_point (stage_fun RemoveDirs "" : M DirHost unit)).
  { right. exists RemoveDirs, "". reflexivity. }
  exact (@rmtree_only_after_checks DirHost dir_ops _ with_release_dir
           _ _ _ _ release_dir true _
           Hm (run_eta (remove_not_needed_dirs with_release_dir)) Htr).
Defined.

(** X10, witness: the first Red Hat package is erased after its query
    succeeded. *)
Lemma erase_only_after_query_witness :
  exists pkg pre',
    In pkg erased_pkgs
    /\ erase_cmd "redhat-release-eula" = erase_cmd pkg
    /\ before 2 (snd (remove_redhat_packages fresh_rhel))
       = pre' ++ [EvShell (query_cmd pkg) 0].
Proof.
  assert (Htr : snd (remove_redhat_packages fresh_rhel)
                = before 2 (snd (remove_redhat_packages fresh_rhel))
                  ++ EvShell (erase_cmd "redhat-release-eula") 0
                  :: after 2 (snd (remove_redhat_packages fresh_rhel)))
    by (vm_compute; reflexivity).
  assert (Hp : Py.has_prefix "rpm -e --nodeps "
                             (erase_cmd "redhat-release-eula") = true)
    by (vm_compute; reflexivity).
  assert (Hm : entry_point (stage_fun RemoveRedhat "" : M SimHost unit)).
  { right. exists RemoveRedhat, "". reflexivity. }
  exact (@erase_only_after_query SimHost sim_ops _ fresh_rhel
           _ _ _ _ _ 0 _
           Hm (run_eta (remove_redhat_packages fresh_rhel)) Htr Hp).
Defined.

(** X11, witness: without a default boot record, one is set after the
    check failed. *)
Lemma set_default_only_without_default_witness :
  exists rc0 pre',
    rc0 <> 0
    /\ before 1 (snd (check_and_set_default_grub_record fresh_no_default))
       = pre' ++ [EvShell grubby_info_cmd rc0].
Proof.
  assert (Htr : snd (check_and_set_default_grub_record fresh_no_default)
                = before 1 (snd (check_and_set_default_grub_record
                                   fresh_no_default))
                  ++ EvShell "grubby --set-default=`grubby --default-kernel`" 0
                  :: after 1 (snd (check_and_set_default_grub_record
                                     fresh_no_default)))
    by (vm_compute; reflexivity).
  assert (Hp : Py.has_prefix "grubby --set-default="
                 "grubby --set-default=`grubby --default-kernel`" = true)
    by (vm_compute; reflexivity).
  assert (Hm : entry_point (stage_fun DefaultGrubRecord "" : M SimHost unit)).
  { right. exists DefaultGrubRecord, "". reflexivity. }
  exact (@set_default_only_without_default SimHost sim_ops _ fresh_no_default
           _ _ _ _ _ 0 _
           Hm (run_eta (check_and_set_default_grub_record fresh_no_default))
           Htr Hp).
Defined.

(** X12, witness: RHEL 7.9. *)
Lemma check_supported_os_accepts_iff_witness :
  flag "check_supported_os"
       (status_file (snd (fst (check_supported_os fresh_rhel)))) = true.
Proof.
  apply (@check_supported_os_accepts_iff SimHost sim_ops fresh_rhel None
           "redhat" "7.9" "Maipo" eq_refl eq_refl eq_refl).
  split; [reflexivity|]. split; [reflexivity|].
  exists "9"%char, 9. split; reflexivity.
Defined.

(** X13, witness: the kernel Red Hat shipped makes the lookup raise. *)
Lemma kernel_vendor_must_be_one_word_witness :
  fst (fst (get_kernel_pkg_name_for_default_boot_record fresh_rhel_efi_stock))
  = Raise ValueError.
Proof.
  assert (H1 : run_shell default_kernel_cmd (host fresh_rhel_efi_stock)
               = (0, "/boot/vmlinuz-3.10.0-1160.el7.x86_64" +^ Py.nl,
                  rhel_efi_stock))
    by (vm_compute; reflexivity).
  assert (H2 : run_shell
                 (rpm_qf_cmd (Py.strip ("/boot/vmlinuz-3.10.0-1160.el7.x86_64"
                                        +^ Py.nl)))
                 rhel_efi_stock
               = (0, "kernel-3.10.0-1160.el7.x86_64" +^ Py.tab
                     +^ "Red Hat, Inc." +^ Py.nl, rhel_efi_stock))
    by (vm_compute; reflexivity).
  destruct (@kernel_vendor_must_be_one_word SimHost sim_ops
              fresh_rhel_efi_stock _ _ _ _ _ H1 H2
              ltac:(discriminate) eq_refl) as [Hr _].
  rewrite Hr. reflexivity.
Defined.

(** X14, witness: the dictionaries of the EFI host. *)
Lemma secure_boot_dict_wellformed_witness :
  wellformed_dict
    (dict_update [("shim-x64-15-8.el7.x86_64", "red hat, inc.")]
                 [("kernel-3.10.0-1160.el7.x86_64", "centos")]).
Proof.
  assert (Hpk : get_pkgs_related_to_secure_boot fresh_rhel_efi
                = (Ret [("shim-x64-15-8.el7.x86_64", "red hat, inc.")],
                   snd (fst (get_pkgs_related_to_secure_boot fresh_rhel_efi)),
                   snd (get_pkgs_related_to_secure_boot fresh_rhel_efi)))
    by (vm_compute; reflexivity).
  assert (Hke : get_kernel_pkg_name_for_default_boot_record fresh_rhel_efi
                = (Ret [("kernel-3.10.0-1160.el7.x86_64", "centos")],
                   snd (fst (get_kernel_pkg_name_for_default_boot_record
                               fresh_rhel_efi)),
                   snd (get_kernel_pkg_name_for_default_boot_record
                          fresh_rhel_efi)))
    by (vm_compute; reflexivity).
  exact (proj2 (proj2 (@secure_boot_dict_wellformed SimHost sim_ops
                         _ _ _ _ _ _ _ _ Hpk Hke))).
Defined.

(** X15, witness: a host where [rpm -qa] prints nothing. *)
Lemma blank_package_list_raises_witness :
  get_pkgs_related_to_secure_boot fresh_rhel
  = (Raise ValueError, fresh_rhel, [EvShell rpm_qa_cmd 0]).
Proof.
  assert (Hrun : run_shell rpm_qa_cmd (host fresh_rhel) = (0, "", rhel_bios))
    by (vm_compute; reflexivity).
  exact (@blank_package_list_raises SimHost sim_ops fresh_rhel "" rhel_bios
           Hrun eq_refl).
Defined.

(** X16, witness: on the EFI host the shim of Red Hat is reinstalled and
    the CentOS kernel is not. *)
Lemma reinstall_only_foreign_vendors_witness :
  exists t3,
    List.NoDup (shell_cmds t3)
    /\ In (reinstall_cmd "shim-x64-15-8.el7.x86_64") (shell_cmds t3)
    /\ ~ In (reinstall_cmd "kernel-3.10.0-1160.el7.x86_64") (shell_cmds t3).
Proof.
  assert (Hpk : get_pkgs_related_to_secure_boot fresh_rhel_efi
                = (Ret [("shim-x64-15-8.el7.x86_64", "red hat, inc.")],
                   fresh_rhel_efi,
                   snd (get_pkgs_related_to_secure_boot fresh_rhel_efi)))
    by (vm_compute; reflexivity).
  assert (Hke : get_kernel_pkg_name_for_default_boot_record fresh_rhel_efi
                = (Ret [("kernel-3.10.0-1160.el7.x86_64", "centos")],
                   fresh_rhel_efi,
                   snd (get_kernel_pkg_name_for_default_boot_record
                          fresh_rhel_efi)))
    by (vm_compute; reflexivity).
  assert (Hret : is_ret (fst (fst (reinstall_secure_boot_related_packages
                                     fresh_rhel_efi))))
    by (vm_compute; exact I).
  destruct (@reinstall_only_foreign_vendors SimHost sim_ops
              fresh_rhel_efi None _ _ _ _ _ _ _ _ _
              eq_refl eq_refl Hpk Hke
              (run_eta (reinstall_secure_boot_related_packages fresh_rhel_efi)))
    as (t3 & _ & Hnd & Honly & Hall).
  exists t3. split; [exact Hnd|]. split.
  - apply (Hall Hret _ "red hat, inc."); [left; reflexivity|discriminate].
  - intros Hin. destruct (Honly _ Hin) as (pkg & vendor & Hc & Hd & Hv).
    apply reinstall_cmd_inj in Hc. subst pkg.
    destruct Hd as [Hd|[Hd|[]]]; [discriminate Hd|].
    injection Hd as <-. apply Hv. reflexivity.
Defined.
